(** * Code Debt Detective: pattern detection and health scoring

    A shallow embedding of [code_debt_detective.py]: the per-file analysers
    of [CodeAnalyzer], the commit statistics of [GitAnalyzer] and the health
    score of [CodeDebtDetective] / [display_console_report], followed by the
    properties established about them.

    Conventions of the embedding:
    - a Python [str] is a [string]; a character is one code point below 256;
    - a Python [int] is a [Z]; a Python [float] is a binary64 [float];
    - a Python [list] is a [list]; the [set] of commit dates is a [ListSet];
    - a call that may raise returns a [result]. *)

From Stdlib Require Import ZArith List String Ascii Bool Lia.
From Stdlib Require Import Permutation Sorted ListSet DecimalString.
From Stdlib Require Import Floats.PrimFloat Numbers.Cyclic.Int63.Uint63.
Import ListNotations.

Local Open Scope string_scope.
Local Open Scope list_scope.
Local Open Scope Z_scope.

Set Warnings "-inexact-float,-register-all".

#[local] Arguments Z.add _ _ : simpl never.
#[local] Arguments Z.sub _ _ : simpl never.
#[local] Arguments Z.mul _ _ : simpl never.
#[local] Arguments Z.max _ _ : simpl never.
#[local] Arguments Z.of_nat _ : simpl never.
#[local] Arguments Z.ltb _ _ : simpl never.
#[local] Arguments Z.gtb _ _ : simpl never.

(* ================================================================== *)
(** * Part I: definitions                                              *)
(* ================================================================== *)

(** ** Python built-ins used by the program *)

Module Py.

(** [len(xs)] for a list, as a Python integer. *)
Definition len {A : Type} (xs : list A) : Z := Z.of_nat (List.length xs).

(** [len(s)] for a string. *)
Definition slen (s : string) : Z := Z.of_nat (String.length s).

(** [str(n)] / [f"{n}"] for an integer. *)
Definition str_of_int (n : Z) : string := NilZero.string_of_int (Z.to_int n).

(** [float(n)] for an integer from 0 to 2^53, the range of the lengths and
counts it is applied to. *)
Definition float_of_int (n : Z) : float := PrimFloat.of_uint63 (Uint63.of_Z n).

(** [s.split(sep)] for a one-character separator: never empty, and a
    trailing separator yields a final empty piece. *)
Fixpoint split (sep : ascii) (s : string) : list string :=
  match s with
  | EmptyString => [EmptyString]
  | String c rest =>
      if Ascii.eqb c sep then EmptyString :: split sep rest
      else match split sep rest with
           | [] => [String c EmptyString]
           | piece :: pieces => String c piece :: pieces
           end
  end.

(** [xs[-1]] on a non-empty list ([split] never returns an empty one). *)
Definition last_item (xs : list string) : string := List.last xs EmptyString.

(** [sub in s] for strings. *)
Fixpoint contains (sub s : string) : bool :=
  String.prefix sub s ||
  match s with
  | EmptyString => false
  | String _ rest => contains sub rest
  end.

(** [c.lower()]: the upper-case letters below code point 256 are A-Z,
    U+00C0-U+00D6 and U+00D8-U+00DE; each is 32 below its lower case. *)
Definition lower_char (c : ascii) : ascii :=
  let n := nat_of_ascii c in
  if ((65 <=? n) && (n <=? 90) || (192 <=? n) && (n <=? 214)
      || (216 <=? n) && (n <=? 222))%nat
  then ascii_of_nat (n + 32) else c.

Fixpoint lower (s : string) : string :=
  match s with
  | EmptyString => EmptyString
  | String c rest => String (lower_char c) (lower rest)
  end.

(** [c.isspace()] below code point 256. *)
Definition isspace (c : ascii) : bool :=
  let n := nat_of_ascii c in
  ((9 <=? n) && (n <=? 13) || (28 <=? n) && (n <=? 32)
   || (n =? 133) || (n =? 160))%nat.

Fixpoint lstrip (s : string) : string :=
  match s with
  | EmptyString => EmptyString
  | String c rest => if isspace c then lstrip rest else s
  end.

Fixpoint rstrip (s : string) : string :=
  match s with
  | EmptyString => EmptyString
  | String c rest =>
      match rstrip rest with
      | EmptyString => if isspace c then EmptyString else String c EmptyString
      | kept => String c kept
      end
  end.

(** [s.strip()]. *)
Definition strip (s : string) : string := rstrip (lstrip s).

(** [any(f(x) for x in xs)]. *)
Definition any {A : Type} (f : A -> bool) (xs : list A) : bool := existsb f xs.

(** [enumerate(xs, start)]. *)
Fixpoint enumerate {A : Type} (xs : list A) (start : Z) : list (Z * A) :=
  match xs with
  | [] => []
  | x :: rest => (start, x) :: enumerate rest (start + 1)
  end.

(** [s.replace(old, new)] for a one-character [old]. *)
Fixpoint replace (old : ascii) (new s : string) : string :=
  match s with
  | EmptyString => EmptyString
  | String c rest =>
      if Ascii.eqb c old then new ++ replace old new rest
      else String c (replace old new rest)
  end.

(** [range(start, stop)]. *)
Definition range (start stop : Z) : list Z :=
  map (fun i => start + Z.of_nat i) (seq 0 (Z.to_nat (stop - start))).

(** [sorted(xs, key=...)] and [sorted(xs, key=..., reverse=True)]: the
    stable sort.  [goes_before y x] tells that [y] has to precede [x]
    (its key is smaller, or larger under [reverse]); an item is placed
    behind the items that go before it and in front of all others, so
    items with equal keys keep their order. *)
Fixpoint insert_sorted {A : Type} (goes_before : A -> A -> bool) (x : A)
         (sorted : list A) : list A :=
  match sorted with
  | [] => [x]
  | y :: rest =>
      if goes_before y x then y :: insert_sorted goes_before x rest
      else x :: y :: rest
  end.

Definition sorted {A : Type} (goes_before : A -> A -> bool) (xs : list A)
  : list A :=
  fold_right (insert_sorted goes_before) [] xs.

(** Outcome of a call that may raise. *)
Inductive exn : Type :=
| SyntaxError
| OtherException (name : string).

Inductive result (A : Type) : Type :=
| Return (value : A)
| Raise (e : exn).
Arguments Return {A} value.
Arguments Raise {A} e.

End Py.

(** ** The [re] module, for alternations of literals *)

Module Re.

(** Does [lit] match at the start of [s]?  With [ignorecase] two
    characters match when their lower cases agree, which is how [re]
    compares the characters of the embedding, the code points below 256.
    Beyond them [re.IGNORECASE] accepts a few more characters for a
    letter (U+0130 and U+0131 for [i], U+212A for [k]), which a text in
    lower case does not show; no property below relies on what is matched
    there. *)
Fixpoint match_here (ignorecase : bool) (lit s : string) : bool :=
  match lit, s with
  | EmptyString, _ => true
  | String _ _, EmptyString => false
  | String p lit', String c s' =>
      (if ignorecase
       then Ascii.eqb (Py.lower_char p) (Py.lower_char c)
       else Ascii.eqb p c)
      && match_here ignorecase lit' s'
  end.

(** [re.search(pattern, s, flags)] as a truth value, for a pattern that
    is an alternation [lit1|lit2|...] of literals: some alternative
    matches at some position. *)
Fixpoint search (alternatives : list string) (ignorecase : bool)
         (s : string) : bool :=
  existsb (fun lit => match_here ignorecase lit s) alternatives ||
  match s with
  | EmptyString => false
  | String _ rest => search alternatives ignorecase rest
  end.

End Re.

(** ** Core models *)

Inductive DebtSeverity : Type := LOW | MEDIUM | HIGH | CRITICAL.

(** [DebtSeverity.value]. *)
Definition value (s : DebtSeverity) : string :=
  match s with
  | LOW => "low"
  | MEDIUM => "medium"
  | HIGH => "high"
  | CRITICAL => "critical"
  end.

Record CodeSmell : Type := mkCodeSmell {
  file_path : string;
  line_number : Z;
  smell_type : string;
  description : string;
  severity : DebtSeverity;
  suggested_fix : string;
  confidence_score : float
}.

(** [current_value] is annotated [float] but also receives an [int]. *)
Inductive number : Type :=
| Int (n : Z)
| Float (x : float).

Record DebtMetric : Type := mkDebtMetric {
  metric_name : string;
  current_value : number;
  trend : string;
  risk_level : DebtSeverity;
  impact_description : string
}.

(** A [pathlib.Path]: [str(path)] and [path.suffix]. *)
Record Path : Type := mkPath {
  path_str : string;
  suffix : string
}.

(** ** Health score *)

(** [CodeDebtDetective._calculate_health_score]. *)
Definition _calculate_health_score (smells : list CodeSmell) : Z :=
  match smells with
  | [] => 100
  | _ =>
      let penalty :=
        fold_left
          (fun penalty smell =>
             match severity smell with
             | CRITICAL => penalty + 10
             | HIGH => penalty + 5
             | MEDIUM => penalty + 2
             | LOW => penalty + 1
             end)
          smells 0 in
      let score := Z.max 0 (100 - penalty) in
      score
  end.

(** A [dict] with string keys, in insertion order. *)
Definition dict : Type := list (string * Z).

(** [d[key]]; every key read by the program is present. *)
Fixpoint dict_get (d : dict) (key : string) : Z :=
  match d with
  | [] => 0
  | (k, v) :: rest => if String.eqb k key then v else dict_get rest key
  end.

(** [d[key] += 1] for a key that is present. *)
Fixpoint dict_incr (d : dict) (key : string) : dict :=
  match d with
  | [] => []
  | (k, v) :: rest =>
      if String.eqb k key then (k, v + 1) :: rest
      else (k, v) :: dict_incr rest key
  end.

(** [severity_counts] of [display_console_report]. *)
Definition severity_counts (smells : list CodeSmell) : dict :=
  fold_left (fun counts smell => dict_incr counts (value (severity smell)))
            smells
            (map (fun s => (value s, 0)) [LOW; MEDIUM; HIGH; CRITICAL]).

(** The health score shown by [display_console_report]. *)
Definition display_health_score (smells : list CodeSmell) : Z :=
  let total_issues := Py.len smells in
  let counts := severity_counts smells in
  if total_issues =? 0 then 100
  else
    let penalty := dict_get counts "critical" * 10
                   + dict_get counts "high" * 5
                   + dict_get counts "medium" * 2
                   + dict_get counts "low" * 1 in
    Z.max 0 (100 - penalty).

(** The penalty table of the specification. *)
Definition penalty (s : DebtSeverity) : Z :=
  match s with
  | CRITICAL => 10
  | HIGH => 5
  | MEDIUM => 2
  | LOW => 1
  end.

(** Sum of the penalties of a collection of findings. *)
Definition total_penalty (smells : list CodeSmell) : Z :=
  fold_right (fun smell acc => penalty (severity smell) + acc) 0 smells.

(** ** The [ast] module *)

(** The class of a node.  The classes the analyser tests for are
    constructors of their own, as are the ones that hold statements without
    being tested for; every other class of the grammar (expressions,
    simple statements, [ClassDef], [AsyncFor], [match_case], ...) is an
    [OtherNode] carrying its name. *)
Inductive ast_class : Type :=
| Module_
| FunctionDef (name : string)
| AsyncFunctionDef (name : string)
| If
| For
| While
| With
| Try
| ExceptHandler
| arguments
| OtherNode (cls : string).

(** A node: its class, its [lineno], and its fields in [_fields] order,
    each holding the nodes stored there (one for a node-valued field, none
    for [None], the items for a list). *)
Inductive AST : Type :=
| Node (cls : ast_class) (lineno : Z) (fields : list (string * list AST)).

Definition node_class (node : AST) : ast_class :=
  match node with Node cls _ _ => cls end.

Definition lineno (node : AST) : Z :=
  match node with Node _ line _ => line end.

Definition node_fields (node : AST) : list (string * list AST) :=
  match node with Node _ _ fields => fields end.

(** [getattr(node, name)] for a field holding nodes. *)
Fixpoint lookup_field (name : string) (fields : list (string * list AST))
  : list AST :=
  match fields with
  | [] => []
  | (k, nodes) :: rest =>
      if String.eqb k name then nodes else lookup_field name rest
  end.

Definition field (name : string) (node : AST) : list AST :=
  lookup_field name (node_fields node).

(** [node.body]. *)
Definition body (node : AST) : list AST := field "body" node.

(** [node.args.args]: the positional-or-keyword parameters held by the
    [arguments] node of a function definition. *)
Definition args_args (node : AST) : list AST :=
  flat_map (field "args") (field "args" node).

(** [ast.iter_child_nodes(node)]: the nodes of all fields, in order. *)
Definition iter_child_nodes (node : AST) : list AST :=
  flat_map snd (node_fields node).

(** Number of nodes of a tree. *)
Fixpoint node_count (node : AST) : nat :=
  match node with
  | Node _ _ fields =>
      S (list_sum (map (fun fld => list_sum (map node_count (snd fld))) fields))
  end.

(** The loop of [ast.walk]: pop the left end of the queue, push the
    children at the right end, yield the node.  One unit of fuel per
    iteration. *)
Fixpoint walk_loop (fuel : nat) (todo : list AST) : list AST :=
  match fuel, todo with
  | S fuel', node :: rest =>
      node :: walk_loop fuel' (rest ++ iter_child_nodes node)
  | _, _ => []
  end.

(** [ast.walk(node)]: the loop runs once per node of the tree. *)
Definition walk (node : AST) : list AST := walk_loop (node_count node) [node].

(** [isinstance(node, ast.FunctionDef)]. *)
Definition is_FunctionDef (node : AST) : bool :=
  match node_class node with FunctionDef _ => true | _ => false end.

(** [node.name] of a function definition. *)
Definition name_of (node : AST) : string :=
  match node_class node with
  | FunctionDef name | AsyncFunctionDef name => name
  | _ => EmptyString
  end.

(** [isinstance(node, (ast.If, ast.For, ast.While))]. *)
Definition is_If_For_While (node : AST) : bool :=
  match node_class node with If | For | While => true | _ => false end.

(** [isinstance(child, (ast.If, ast.For, ast.While, ast.With, ast.Try))]. *)
Definition is_nesting (node : AST) : bool :=
  match node_class node with
  | If | For | While | With | Try => true
  | _ => false
  end.

(** ** [CodeAnalyzer] *)

(** One iteration of the loop of [_calculate_nesting_depth]. *)
Definition nesting_step (recurse : AST -> Z) (max_depth : Z) (child : AST) : Z :=
  if is_nesting child then Z.max max_depth (recurse child) else max_depth.

(** [CodeAnalyzer._calculate_nesting_depth]; the loop over
    [ast.iter_child_nodes(node)] runs field by field. *)
Fixpoint _calculate_nesting_depth (node : AST) (current_depth : Z)
         {struct node} : Z :=
  match node with
  | Node _ _ fields =>
      fold_left
        (fun max_depth fld =>
           fold_left
             (nesting_step
                (fun child => _calculate_nesting_depth child (current_depth + 1)))
             (snd fld) max_depth)
        fields current_depth
  end.

Definition long_function_smell (file_path : Path) (node : AST) : CodeSmell :=
  {| file_path := path_str file_path;
     line_number := lineno node;
     smell_type := "long_function";
     description := "Function '" ++ name_of node ++ "' has "
                    ++ Py.str_of_int (Py.len (body node)) ++ " lines (>20)";
     severity := MEDIUM;
     suggested_fix := "Consider breaking into smaller functions";
     confidence_score := 0.8 |}.

Definition too_many_parameters_smell (file_path : Path) (node : AST)
           (param_count : Z) : CodeSmell :=
  {| file_path := path_str file_path;
     line_number := lineno node;
     smell_type := "too_many_parameters";
     description := "Function '" ++ name_of node ++ "' has "
                    ++ Py.str_of_int param_count ++ " parameters (>5)";
     severity := HIGH;
     suggested_fix := "Use dataclasses or configuration objects";
     confidence_score := 0.9 |}.

Definition deep_nesting_smell (file_path : Path) (node : AST) (depth : Z)
  : CodeSmell :=
  {| file_path := path_str file_path;
     line_number := lineno node;
     smell_type := "deep_nesting";
     description := "Code block nested " ++ Py.str_of_int depth
                    ++ " levels deep";
     severity := HIGH;
     suggested_fix := "Extract methods or use early returns";
     confidence_score := 0.7 |}.

Definition syntax_error_smell (file_path : Path) : CodeSmell :=
  {| file_path := path_str file_path;
     line_number := 1;
     smell_type := "syntax_error";
     description := "File contains syntax errors";
     severity := CRITICAL;
     suggested_fix := "Fix syntax errors before proceeding";
     confidence_score := 1.0 |}.

(** The body of the loop over [ast.walk(tree)] in [_analyze_python_file]:
    the findings appended for one node. *)
Definition visit_node (file_path : Path) (node : AST) : list CodeSmell :=
  (if is_FunctionDef node then
     if Py.len (body node) >? 20 then [long_function_smell file_path node]
     else []
   else [])
  ++
  (if is_FunctionDef node then
     let param_count := Py.len (args_args node) in
     if param_count >? 5
     then [too_many_parameters_smell file_path node param_count]
     else []
   else [])
  ++
  (if is_If_For_While node then
     let depth := _calculate_nesting_depth node 0 in
     if depth >? 3 then [deep_nesting_smell file_path node depth] else []
   else []).

Definition large_file_smell (file_path : Path) (lines : list string)
  : CodeSmell :=
  {| file_path := path_str file_path;
     line_number := 1;
     smell_type := "large_file";
     description := "File has " ++ Py.str_of_int (Py.len lines)
                    ++ " lines (>500)";
     severity := MEDIUM;
     suggested_fix := "Consider splitting into multiple files";
     confidence_score := 0.8 |}.

Definition technical_debt_comment_smell (file_path : Path) (i : Z)
           (line : string) : CodeSmell :=
  {| file_path := path_str file_path;
     line_number := i;
     smell_type := "technical_debt_comment";
     description := "Technical debt marker: " ++ Py.strip line;
     severity := LOW;
     suggested_fix := "Address the noted issue";
     confidence_score := 0.6 |}.

Definition long_line_smell (file_path : Path) (i : Z) (line : string)
  : CodeSmell :=
  {| file_path := path_str file_path;
     line_number := i;
     smell_type := "long_line";
     description := "Line length: " ++ Py.str_of_int (Py.slen line)
                    ++ " characters (>120)";
     severity := LOW;
     suggested_fix := "Break line or refactor for readability";
     confidence_score := 0.9 |}.

(** The newline character. *)
Definition newline : ascii := "010"%char.

(** The pattern [r'TODO|FIXME|HACK|XXX']. *)
Definition debt_marker_pattern : list string := ["TODO"; "FIXME"; "HACK"; "XXX"].

(** [CodeAnalyzer._analyze_general_patterns]. *)
Definition _analyze_general_patterns (file_path : Path) (content : string)
  : list CodeSmell :=
  let smells := [] in
  let lines := Py.split newline content in
  let smells :=
    if Py.len lines >? 500
    then smells ++ [large_file_smell file_path lines]
    else smells in
  let smells :=
    fold_left
      (fun smells '(i, line) =>
         if Re.search debt_marker_pattern true line
         then smells ++ [technical_debt_comment_smell file_path i line]
         else smells)
      (Py.enumerate lines 1) smells in
  let smells :=
    fold_left
      (fun smells '(i, line) =>
         if Py.slen line >? 120
         then smells ++ [long_line_smell file_path i line]
         else smells)
      (Py.enumerate lines 1) smells in
  smells.

Section CodeAnalyzer.

(** [ast.parse]: the tree of a source text, or the exception raised. *)
Variable ast_parse : string -> Py.result AST.

(** [open(file_path, 'r', encoding='utf-8', errors='ignore').read()]. *)
Variable read_text : Path -> Py.result string.

(** [CodeAnalyzer._analyze_python_file]: only [SyntaxError] is caught. *)
Definition _analyze_python_file (file_path : Path) (content : string)
  : Py.result (list CodeSmell) :=
  let smells := [] in
  match ast_parse content with
  | Py.Return tree =>
      Py.Return
        (fold_left (fun smells node => smells ++ visit_node file_path node)
                   (walk tree) smells)
  | Py.Raise Py.SyntaxError =>
      Py.Return (smells ++ [syntax_error_smell file_path])
  | Py.Raise e => Py.Raise e
  end.

(** [CodeAnalyzer._analyze_file]: any exception yields no findings. *)
Definition _analyze_file (file_path : Path) : list CodeSmell :=
  match read_text file_path with
  | Py.Raise _ => []
  | Py.Return content =>
      let smells := [] in
      match
        (if String.eqb (suffix file_path) ".py"
         then match _analyze_python_file file_path content with
              | Py.Return found => Py.Return (smells ++ found)
              | Py.Raise e => Py.Raise e
              end
         else Py.Return smells)
      with
      | Py.Raise _ => []
      | Py.Return smells =>
          smells ++ _analyze_general_patterns file_path content
      end
  end.

End CodeAnalyzer.

(** ** [GitAnalyzer] *)

(** [x > n] for a number [x] and an integer [n]. *)
Definition number_gt (x : number) (n : Z) : bool :=
  match x with
  | Int m => m >? n
  | Float y => PrimFloat.ltb (Py.float_of_int n) y
  end.

(** The [set] of dates collected by [_analyze_commit_frequency]. *)
Definition commit_dates (commits : list string) : set string :=
  fold_left
    (fun dates commit =>
       if Py.contains "|" commit then
         let parts := Py.split "|"%char commit in
         if Py.len parts >=? 3
         then set_add string_dec (nth 2 parts EmptyString) dates
         else dates
       else dates)
    commits (empty_set string).

(** [GitAnalyzer._analyze_commit_frequency]. *)
Definition _analyze_commit_frequency (commits : list string) : number :=
  match commits with
  | [] => Int 0
  | _ =>
      let dates := commit_dates commits in
      Float (PrimFloat.div (Py.float_of_int (Py.len commits))
                           (Py.float_of_int (Z.max (Py.len dates) 1)))
  end.

Definition debt_keywords : list string :=
  ["fix"; "refactor"; "cleanup"; "debt"; "hack"; "workaround"; "temp"].

(** [GitAnalyzer._count_debt_commits]. *)
Definition _count_debt_commits (commits : list string) : Z :=
  fold_left
    (fun count commit =>
       if Py.contains "|" commit then
         let message := Py.lower (Py.last_item (Py.split "|"%char commit)) in
         if Py.any (fun keyword => Py.contains keyword message) debt_keywords
         then count + 1
         else count
       else count)
    commits 0.

(** What [subprocess.run] returns. *)
Record CompletedProcess : Type := mkCompletedProcess {
  returncode : Z;
  stdout : string;
  stderr : string
}.

(** The part of [get_debt_trends] that analyses the commit list. *)
Definition analyze_commit_patterns (commits : list string) : list DebtMetric :=
  let metrics := [] in
  let commit_frequency := _analyze_commit_frequency commits in
  let metrics :=
    if number_gt commit_frequency 10 then
      metrics ++ [ {| metric_name := "High Commit Frequency";
                      current_value := commit_frequency;
                      trend := "increasing";
                      risk_level := MEDIUM;
                      impact_description :=
                        "Rapid commits may indicate rushed development" |} ]
    else metrics in
  let debt_commits := _count_debt_commits commits in
  let metrics :=
    if PrimFloat.ltb (PrimFloat.mul (Py.float_of_int (Py.len commits)) 0.2)
                     (Py.float_of_int debt_commits)
    then
      metrics ++ [ {| metric_name := "Technical Debt Commits";
                      current_value := Int debt_commits;
                      trend := "concerning";
                      risk_level := HIGH;
                      impact_description :=
                        "High ratio of fix/refactor commits suggests accumulating debt" |} ]
    else metrics in
  metrics.

(** [GitAnalyzer.get_debt_trends], given whether [repo_path/.git] exists
    and what running [git log] returned. *)
Definition get_debt_trends (is_git_repository : bool)
           (git_log : Py.result CompletedProcess) : list DebtMetric :=
  if negb is_git_repository then []
  else
    match git_log with
    | Py.Raise _ => []
    | Py.Return result =>
        if negb (returncode result =? 0) then []
        else if String.eqb (Py.strip (stdout result)) EmptyString then []
        else
          let commits := Py.split newline (Py.strip (stdout result)) in
          analyze_commit_patterns commits
    end.

(** ** Notions used to state the properties *)

(** The findings of one kind, in the order they were reported. *)
Definition smells_of_type (kind : string) (smells : list CodeSmell)
  : list CodeSmell :=
  filter (fun smell => String.eqb (smell_type smell) kind) smells.

(** The findings of one kind reported at one line. *)
Definition smells_at (kind : string) (line : Z) (smells : list CodeSmell)
  : list CodeSmell :=
  filter (fun smell => String.eqb (smell_type smell) kind
                       && (line_number smell =? line)) smells.

(** The kinds reported by the structural and by the textual analyser. *)
Definition structural_kinds : list string :=
  ["long_function"; "too_many_parameters"; "deep_nesting"; "syntax_error"].

Definition textual_kinds : list string :=
  ["large_file"; "technical_debt_comment"; "long_line"].

(** Severity and confidence of each kind, as the specification lists
    them. *)
Definition kind_policy : list (string * (DebtSeverity * float)) :=
  [ ("long_function", (MEDIUM, 0.8%float));
    ("too_many_parameters", (HIGH, 0.9%float));
    ("deep_nesting", (HIGH, 0.7%float));
    ("large_file", (MEDIUM, 0.8%float));
    ("technical_debt_comment", (LOW, 0.6%float));
    ("long_line", (LOW, 0.9%float));
    ("syntax_error", (CRITICAL, 1.0%float)) ].

(** A finding emitted by the structural or by the textual analyser, on
    some input. *)
Inductive emitted (smell : CodeSmell) : Prop :=
| emitted_structural (ast_parse : string -> Py.result AST)
                     (file_path : Path) (content : string)
                     (smells : list CodeSmell) :
    _analyze_python_file ast_parse file_path content = Py.Return smells ->
    In smell smells ->
    emitted smell
| emitted_textual (file_path : Path) (content : string) :
    In smell (_analyze_general_patterns file_path content) ->
    emitted smell.

(** The lines that carry a debt marker, and the lines longer than 120
    characters, each with its number. *)
Definition marked_lines (lines : list string) : list (Z * string) :=
  filter (fun '(i, line) => Re.search debt_marker_pattern true line)
         (Py.enumerate lines 1).

Definition overlong_lines (lines : list string) : list (Z * string) :=
  filter (fun '(i, line) => Py.slen line >? 120) (Py.enumerate lines 1).

(** The number of newline characters of a text. *)
Fixpoint newlines_in (content : string) : Z :=
  match content with
  | EmptyString => 0
  | String c rest =>
      (if Ascii.eqb c newline then 1 else 0) + newlines_in rest
  end.

(** A character with the letters A-Z put in lower case and every other
    character left alone, and a text so treated: two texts with the same
    [fold_case] differ in the case of the letters A-Z and a-z only. *)
Definition fold_char (c : ascii) : ascii :=
  let n := nat_of_ascii c in
  if ((65 <=? n) && (n <=? 90))%nat then ascii_of_nat (n + 32) else c.

Fixpoint fold_case (s : string) : string :=
  match s with
  | EmptyString => EmptyString
  | String c rest => String (fold_char c) (fold_case rest)
  end.

(** A character, and a text, of ASCII: code points below 128. *)
Definition ascii_char (c : ascii) : bool := (nat_of_ascii c <? 128)%nat.

Fixpoint is_ascii (s : string) : bool :=
  match s with
  | EmptyString => true
  | String c rest => ascii_char c && is_ascii rest
  end.

(** Where a finding is, and of which kind. *)
Definition located (smell : CodeSmell) : string * Z :=
  (smell_type smell, line_number smell).

(** All nodes of a tree, in pre-order. *)
Fixpoint subnodes (node : AST) : list AST :=
  match node with
  | Node _ _ fields =>
      node :: flat_map (fun fld => flat_map subnodes (snd fld)) fields
  end.

(** A function or method declaration: [def] or [async def]. *)
Definition is_function_declaration (node : AST) : bool :=
  match node_class node with
  | FunctionDef _ | AsyncFunctionDef _ => true
  | _ => false
  end.

(** Nesting depth in the specification's words: the node itself is depth
    0, each nested if/for/while/with/try descendant adds 1, and the
    maximum is taken across branches. *)
Fixpoint spec_nesting_depth (node : AST) : Z :=
  match node with
  | Node _ _ fields =>
      fold_left
        (fun deepest fld =>
           fold_left
             (fun deepest child =>
                Z.max deepest
                      ((if is_nesting child then 1 else 0)
                       + spec_nesting_depth child))
             (snd fld) deepest)
        fields 0
  end.

(** No if/for/while/with/try lies beneath a child of another class: every
    such node below [node] is reached through such nodes only. *)
Fixpoint directly_nested (node : AST) : bool :=
  match node with
  | Node _ _ fields =>
      forallb
        (fun fld =>
           forallb
             (fun child =>
                if is_nesting child then directly_nested child
                else spec_nesting_depth child =? 0)
             (snd fld))
        fields
  end.

(** [nesting_chain node k]: below [node] there are [k] if/for/while/with/try
    nodes, each a child of the one before and the first a child of
    [node]. *)
Inductive nesting_chain : AST -> nat -> Prop :=
| chain_end (node : AST) : nesting_chain node 0
| chain_step (node child : AST) (k : nat) :
    In child (iter_child_nodes node) ->
    is_nesting child = true ->
    nesting_chain child k ->
    nesting_chain node (S k).

(** The message of a commit line as [_count_debt_commits] reads it: the
    text after the last [|]. *)
Definition commit_message (commit : string) : option string :=
  if Py.contains "|" commit
  then Some (Py.last_item (Py.split "|"%char commit))
  else None.

(** A message that contains one of the debt keywords, letter case
    ignored. *)
Definition is_debt_message (message : string) : bool :=
  existsb (fun keyword => Py.contains keyword (Py.lower message)) debt_keywords.

(** The debt commits of a commit list. *)
Definition debt_commits_of (commits : list string) : list string :=
  filter (fun commit =>
            match commit_message commit with
            | Some message => is_debt_message message
            | None => false
            end) commits.

(** The line [git log --pretty=format:%H|%an|%ad|%s] prints for a commit. *)
Definition commit_line (id author date message : string) : string :=
  id ++ "|" ++ author ++ "|" ++ date ++ "|" ++ message.

(** ** Commits as records *)

(** A commit as [git log] knows it. *)
Record Commit : Type := mkCommit {
  commit_id : string;
  commit_author : string;
  commit_date : string;
  commit_subject : string
}.

(** The line printed for a commit. *)
Definition log_line (c : Commit) : string :=
  commit_line (commit_id c) (commit_author c) (commit_date c)
              (commit_subject c).

(** No field of the commit holds a [|]. *)
Definition pipe_free (c : Commit) : Prop :=
  Py.contains "|" (commit_id c) = false
  /\ Py.contains "|" (commit_author c) = false
  /\ Py.contains "|" (commit_date c) = false
  /\ Py.contains "|" (commit_subject c) = false.

(** The date [_analyze_commit_frequency] takes from a line: the third
    piece, when the line has at least two [|]. *)
Definition line_date (commit : string) : option string :=
  if Py.contains "|" commit then
    let parts := Py.split "|"%char commit in
    if Py.len parts >=? 3 then Some (nth 2 parts EmptyString) else None
  else None.

(** ** Corpus scanner *)

Record DetectiveConfig : Type := mkDetectiveConfig {
  project_path : string;
  exclude_patterns : list string;
  file_extensions : list string;
  max_file_size_mb : Z;
  analysis_depth : string
}.

(** [DetectiveConfig(project_path=..., analysis_depth=...)] with the
    defaults of the other fields. *)
Definition default_config (path depth : string) : DetectiveConfig :=
  {| project_path := path;
     exclude_patterns := [".git"; "__pycache__"; "node_modules"; ".venv"];
     file_extensions := [".py"; ".js"; ".ts"; ".java"; ".cpp"; ".cs"];
     max_file_size_mb := 5;
     analysis_depth := depth |}.

(** The configuration with another list of extensions. *)
Definition with_extensions (config : DetectiveConfig) (extensions : list string)
  : DetectiveConfig :=
  {| project_path := project_path config;
     exclude_patterns := exclude_patterns config;
     file_extensions := extensions;
     max_file_size_mb := max_file_size_mb config;
     analysis_depth := analysis_depth config |}.

Section CorpusScanner.

(** [ast.parse] and reading a file, as for [CodeAnalyzer] above. *)
Variable ast_parse : string -> Py.result AST.
Variable read_text : Path -> Py.result string.

(** [Path(project_path).resolve().exists()]. *)
Variable path_exists : string -> bool.

(** [Path(project_path).resolve().rglob(pattern)], as a list. *)
Variable rglob : string -> string -> list Path.

(** [file_path.stat().st_size], or [None] when [stat] raises [OSError]
    ([PermissionError] is one). *)
Variable stat_size : Path -> option Z.

(** [CodeAnalyzer._get_code_files]. *)
Definition _get_code_files (config : DetectiveConfig) : list Path :=
  let files := [] in
  if negb (path_exists (project_path config)) then []
  else
    let files :=
      fold_left (fun files ext =>
                   files ++ rglob (project_path config) ("*" ++ ext))
                (file_extensions config) files in
    let filtered_files := [] in
    let filtered_files :=
      fold_left
        (fun filtered_files file_path =>
           if negb (Py.any (fun pattern =>
                              Py.contains pattern (path_str file_path))
                           (exclude_patterns config))
           then
             match stat_size file_path with
             | Some st_size =>
                 if st_size <? max_file_size_mb config * 1024 * 1024
                 then filtered_files ++ [file_path]
                 else filtered_files
             | None => filtered_files
             end
           else filtered_files)
        files filtered_files in
    filtered_files.

(** [CodeAnalyzer.scan_codebase]; [_analyze_file] raises nothing, so the
    handler around it is never entered. *)
Definition scan_codebase (config : DetectiveConfig) : list CodeSmell :=
  let smells := [] in
  fold_left
    (fun smells file_path =>
       let file_smells := _analyze_file ast_parse read_text file_path in
       smells ++ file_smells)
    (_get_code_files config) smells.

(** [s.severity == DebtSeverity.X]. *)
Definition severity_eqb (a b : DebtSeverity) : bool :=
  match a, b with
  | LOW, LOW | MEDIUM, MEDIUM | HIGH, HIGH | CRITICAL, CRITICAL => true
  | _, _ => false
  end.

(** [CodeDebtDetective.quick_scan]: the summary, a [dict] of integers. *)
Definition quick_scan (config : DetectiveConfig) : dict :=
  let smells := scan_codebase config in
  [ ("total_issues", Py.len smells);
    ("critical",
     Py.len (filter (fun s => severity_eqb (severity s) CRITICAL) smells));
    ("high",
     Py.len (filter (fun s => severity_eqb (severity s) HIGH) smells));
    ("health_score", _calculate_health_score smells) ].

End CorpusScanner.

(** A file the scanner keeps: no exclusion pattern occurs in its path and
    its size is known and strictly below the ceiling. *)
Definition eligible (stat_size : Path -> option Z) (config : DetectiveConfig)
           (file_path : Path) : bool :=
  negb (existsb (fun pattern => Py.contains pattern (path_str file_path))
                (exclude_patterns config))
  && match stat_size file_path with
     | Some st_size => st_size <? max_file_size_mb config * 1048576
     | None => false
     end.

(** The files found under the root for the configured extensions, before
    any filtering. *)
Definition files_found (rglob : string -> string -> list Path)
           (config : DetectiveConfig) : list Path :=
  flat_map (fun ext => rglob (project_path config) ("*" ++ ext)%string)
           (file_extensions config).

(** ** Reports *)

(** The [dict] from kinds to findings built by the report functions, in
    insertion order. *)
Definition smell_dict : Type := list (string * list CodeSmell).

(** [key not in d]. *)
Definition not_in_dict (key : string) (d : smell_dict) : bool :=
  negb (existsb (fun entry => String.eqb (fst entry) key) d).

(** [d[key].append(smell)] for a key that is present. *)
Fixpoint dict_append (d : smell_dict) (key : string) (smell : CodeSmell)
  : smell_dict :=
  match d with
  | [] => []
  | (k, found) :: rest =>
      if String.eqb k key then (k, found ++ [smell]) :: rest
      else (k, found) :: dict_append rest key smell
  end.

(** [d.get(key, [])]. *)
Fixpoint dict_get_list (d : smell_dict) (key : string) : list CodeSmell :=
  match d with
  | [] => []
  | (k, found) :: rest =>
      if String.eqb k key then found else dict_get_list rest key
  end.

(** The loop that groups the findings by kind, in [generate_html_report]
    and in [display_console_report]. *)
Definition group_by_type (smells : list CodeSmell) : smell_dict :=
  fold_left
    (fun smell_groups smell =>
       let smell_groups :=
         if not_in_dict (smell_type smell) smell_groups
         then smell_groups ++ [(smell_type smell, [])]
         else smell_groups in
       dict_append smell_groups (smell_type smell) smell)
    smells [].

(** [["low", "medium", "high", "critical"].index(x.severity.value)]. *)
Definition severity_index (s : DebtSeverity) : Z :=
  match s with
  | LOW => 0
  | MEDIUM => 1
  | HIGH => 2
  | CRITICAL => 3
  end.

(** [sorted(group_smells, key=..., reverse=True)]. *)
Definition sorted_by_severity (group_smells : list CodeSmell)
  : list CodeSmell :=
  Py.sorted (fun y x => severity_index (severity x)
                        <? severity_index (severity y))
            group_smells.

(** The status printed for a health score. *)
Definition status_label (health_score : Z) : string :=
  if health_score >=? 90 then "Excellent"
  else if health_score >=? 70 then "Good"
  else if health_score >=? 50 then "Needs Attention"
  else "Critical".

(** What one [print] of [display_console_report] shows: the values it
    interpolates.  The fixed text around them and the layout are left
    out. *)
Inductive printed : Type :=
| Rule (c : ascii) (width : Z)
| ReportTitle (project_name : string)
| Heading (text : string)
| TotalIssues (n : Z)
| SeverityCount (s : DebtSeverity) (n : Z)
| HealthScore (score : Z)
| Status (label : string)
| GroupHeading (kind : string) (instances : Z)
| IssueDescription (i : Z) (s : DebtSeverity) (text : string)
| IssueLocation (path : string) (line : Z)
| IssueFix (text : string)
| IssueConfidence (confidence : float)
| MoreInstances (n : Z)
| MetricName (risk : DebtSeverity) (name : string)
| MetricImpact (text : string)
| MetricValue (v : number)
| Recommendation (n : Z)
| RecommendationDetail (n : Z).

(** The prints for one group of findings. *)
Definition print_group (entry : string * list CodeSmell) : list printed :=
  let '(kind, group_smells) := entry in
  let sorted_smells := sorted_by_severity group_smells in
  [GroupHeading kind (Py.len group_smells)]
  ++ flat_map
       (fun '(i, smell) =>
          [IssueDescription i (severity smell) (description smell);
           IssueLocation (file_path smell) (line_number smell);
           IssueFix (suggested_fix smell);
           IssueConfidence (confidence_score smell)])
       (Py.enumerate (firstn 3 sorted_smells) 1)
  ++ (if Py.len group_smells >? 3
      then [MoreInstances (Py.len group_smells - 3)] else []).

(** The prints for one metric. *)
Definition print_metric (metric : DebtMetric) : list printed :=
  [MetricName (risk_level metric) (metric_name metric);
   MetricImpact (impact_description metric);
   MetricValue (current_value metric)].

(** [display_console_report]: what it prints, and the exception it ends
    with, if any.  [smell_groups] is bound only when there are
    findings. *)
Definition display_console_report (smells : list CodeSmell)
           (metrics : list DebtMetric) (project_name : string)
  : list printed * option Py.exn :=
  let out := [Rule "=" 80; ReportTitle project_name; Rule "=" 80] in
  let total_issues := Py.len smells in
  let counts := severity_counts smells in
  let out := out ++ [Heading "SUMMARY STATISTICS";
                     TotalIssues total_issues;
                     SeverityCount CRITICAL (dict_get counts "critical");
                     SeverityCount HIGH (dict_get counts "high");
                     SeverityCount MEDIUM (dict_get counts "medium");
                     SeverityCount LOW (dict_get counts "low")] in
  let health_score := display_health_score smells in
  let out := out ++ [HealthScore health_score;
                     Status (status_label health_score)] in
  let smell_groups :=
    match smells with
    | [] => None
    | _ => Some (group_by_type smells)
    end in
  let out :=
    match smell_groups with
    | Some groups =>
        out ++ [Heading "DETAILED ISSUES"; Rule "-" 80]
            ++ flat_map print_group
                 (Py.sorted (fun y x => String.ltb (fst y) (fst x)) groups)
    | None => out
    end in
  let out :=
    match metrics with
    | [] => out
    | _ => out ++ [Heading "GIT TREND ANALYSIS"; Rule "-" 80]
               ++ flat_map print_metric metrics
    end in
  let out := out ++ [Heading "RECOMMENDATIONS"; Rule "-" 80] in
  let out :=
    if dict_get counts "critical" >? 0
    then out ++ [Recommendation 1; RecommendationDetail 1] else out in
  let out :=
    if dict_get counts "high" >? 0
    then out ++ [Recommendation 2; RecommendationDetail 2] else out in
  let out :=
    if total_issues >? 20
    then out ++ [Recommendation 3; RecommendationDetail 3] else out in
  match smell_groups with
  | None => (out, Some (Py.OtherException "UnboundLocalError"))
  | Some groups =>
      let out :=
        if Py.len (dict_get_list groups "technical_debt_comment") >? 5
        then out ++ [Recommendation 4; RecommendationDetail 4] else out in
      (out ++ [Rule "=" 80], None)
  end.

(** The escaping [generate_html_report] applies to the summary, the
    descriptions, the suggested fixes and the file paths. *)
Definition html_escape (text : string) : string :=
  Py.replace ">" "&gt;" (Py.replace "<" "&lt;" (Py.replace "&" "&amp;" text)).

(** What one character becomes in escaped text. *)
Definition html_entity (c : ascii) : string :=
  if Ascii.eqb c "&" then "&amp;"
  else if Ascii.eqb c "<" then "&lt;"
  else if Ascii.eqb c ">" then "&gt;"
  else String c EmptyString.

(** [d.get(key, 0)] and [d[key] = v] on a [dict] of integers. *)
Fixpoint dict_get_default (d : dict) (key : string) (default : Z) : Z :=
  match d with
  | [] => default
  | (k, v) :: rest =>
      if String.eqb k key then v else dict_get_default rest key default
  end.

Fixpoint dict_set (d : dict) (key : string) (v : Z) : dict :=
  match d with
  | [] => [(key, v)]
  | (k, old) :: rest =>
      if String.eqb k key then (k, v) :: rest
      else (k, old) :: dict_set rest key v
  end.

(** [smell_counts] and [top_smells] of [generate_executive_summary]. *)
Definition smell_counts (smells : list CodeSmell) : dict :=
  fold_left
    (fun smell_counts smell =>
       dict_set smell_counts (smell_type smell)
                (dict_get_default smell_counts (smell_type smell) 0 + 1))
    smells [].

Definition top_smells (smells : list CodeSmell) : list (string * Z) :=
  firstn 5 (Py.sorted (fun y x => snd x <? snd y) (smell_counts smells)).

(** ** [ReportViewer] *)

Section ReportViewer.

(** Whether [socketserver.TCPServer(("", port), handler)] can be set up on
    a port from 0 to 65535; when not, it raises [OSError]. *)
Variable can_bind : Z -> bool.

(** A port that [bind] accepts.  For any other it raises
    [OverflowError], which is no [OSError]. *)
Definition valid_port (port : Z) : bool := (0 <=? port) && (port <=? 65535).

(** The loop of [start_local_server] over the ports still to try: only
    [OSError] is caught. *)
Fixpoint try_ports (ports : list Z) : Py.result (option Z) :=
  match ports with
  | [] => Py.Return None
  | try_port :: rest =>
      if valid_port try_port
      then if can_bind try_port then Py.Return (Some try_port)
           else try_ports rest
      else Py.Raise (Py.OtherException "OverflowError")
  end.

(** [ReportViewer.start_local_server]: the port served, if any. *)
Definition start_local_server (port : Z) : Py.result (option Z) :=
  try_ports (Py.range port (port + 10)).

(** The ports from [start] up to [stop], the latter left out, were all
    tried in vain. *)
Definition all_busy (start stop : Z) : Prop :=
  forall busy, start <= busy < stop ->
               valid_port busy = true /\ can_bind busy = false.

End ReportViewer.

(** ** Syntax trees as [ast.parse] builds them *)

Module Tree.

Definition Load : AST := Node (OtherNode "Load") 0 [].

Definition Name (line : Z) : AST :=
  Node (OtherNode "Name") line [("ctx", [Load])].

Definition Pass (line : Z) : AST := Node (OtherNode "Pass") line [].

Definition arg (line : Z) : AST :=
  Node (OtherNode "arg") line [("annotation", [])].

Definition mk_arguments (args : list AST) : AST :=
  Node arguments 0
       [("posonlyargs", []); ("args", args); ("vararg", []);
        ("kwonlyargs", []); ("kw_defaults", []); ("kwarg", []);
        ("defaults", [])].

Definition mk_FunctionDef (line : Z) (name : string) (args : list AST)
           (body : list AST) : AST :=
  Node (FunctionDef name) line
       [("args", [mk_arguments args]); ("body", body);
        ("decorator_list", []); ("returns", []); ("type_params", [])].

Definition mk_AsyncFunctionDef (line : Z) (name : string) (args : list AST)
           (body : list AST) : AST :=
  Node (AsyncFunctionDef name) line
       [("args", [mk_arguments args]); ("body", body);
        ("decorator_list", []); ("returns", []); ("type_params", [])].

Definition mk_If (line : Z) (body orelse : list AST) : AST :=
  Node If line [("test", [Name line]); ("body", body); ("orelse", orelse)].

Definition mk_For (line : Z) (body orelse : list AST) : AST :=
  Node For line [("target", [Name line]); ("iter", [Name line]);
                 ("body", body); ("orelse", orelse)].

Definition mk_ExceptHandler (line : Z) (body : list AST) : AST :=
  Node ExceptHandler line [("type", [Name line]); ("body", body)].

Definition mk_Try (line : Z) (body handlers orelse finalbody : list AST)
  : AST :=
  Node Try line [("body", body); ("handlers", handlers);
                 ("orelse", orelse); ("finalbody", finalbody)].

Definition mk_Module (body : list AST) : AST :=
  Node Module_ 0 [("body", body); ("type_ignores", [])].

(** [n] statements [pass] on the lines from [line] on. *)
Fixpoint passes (n : nat) (line : Z) : list AST :=
  match n with
  | O => []
  | S n' => Pass line :: passes n' (line + 1)
  end.

(** [depth] statements [if] nested in one another below line [line],
    around a [pass]. *)
Fixpoint nested_ifs (depth : nat) (line : Z) : list AST :=
  match depth with
  | O => [Pass line]
  | S depth' => [mk_If line (nested_ifs depth' (line + 1)) []]
  end.

End Tree.

(** ** Sample inputs *)

Module Sample.

(** [n] copies of [s]. *)
Fixpoint copies (n : nat) (s : string) : string :=
  match n with
  | O => EmptyString
  | S n' => s ++ copies n' s
  end.

Definition nl : string := String newline EmptyString.

Definition app_py : Path := {| path_str := "src/app.py"; suffix := ".py" |}.
Definition app_js : Path := {| path_str := "src/app.js"; suffix := ".js" |}.

(** [def work():] followed by [n] statements [pass]. *)
Definition work_def (n : nat) : AST :=
  Tree.mk_FunctionDef 1 "work" [] (Tree.passes n 2).

Definition def_with (n : nat) : AST := Tree.mk_Module [work_def n].

(** [async def work():] followed by 21 statements [pass]. *)
Definition async_work_def : AST :=
  Tree.mk_AsyncFunctionDef 1 "work" [] (Tree.passes 21 2).

Definition async_def_21 : AST := Tree.mk_Module [async_work_def].

(** An [if] on line 1 with [n] further [if]s nested in one another. *)
Definition outer_if (n : nat) : AST := Tree.mk_If 1 (Tree.nested_ifs n 2) [].

(** The module holding that statement. *)
Definition if_nested (n : nat) : AST := Tree.mk_Module [outer_if n].

(** The text of [n] statements [if] nested in one another around a
[pass]. *)
Fixpoint nested_if_source (n : nat) (indent : string) : string :=
  match n with
  | O => indent ++ "pass"
  | S n' => indent ++ "if c:" ++ nl ++ nested_if_source n' (indent ++ "    ")
  end.

Definition if_source (n : nat) : string := nested_if_source (S n) EmptyString.

(** [for] / [try] / [except] holding three nested [if]s:
<<
    for x in xs:
        try:
            pass
        except E:
            if a:
                if b:
                    if c:
                        pass
>> *)
Definition for_try_except_loop : AST :=
  Tree.mk_For 1
    [Tree.mk_Try 2 [Tree.Pass 3]
       [Tree.mk_ExceptHandler 4 (Tree.nested_ifs 3 5)] [] []]
    [].

Definition for_try_except : AST := Tree.mk_Module [for_try_except_loop].

Definition for_try_except_source : string :=
  "for x in xs:" ++ nl ++
  "    try:" ++ nl ++
  "        pass" ++ nl ++
  "    except E:" ++ nl ++
  "        if a:" ++ nl ++
  "            if b:" ++ nl ++
  "                if c:" ++ nl ++
  "                    pass" ++ nl.

(** The text of a definition with [n] statements [pass]. *)
Definition source_of (header : string) (n : nat) : string :=
  header ++ copies n (nl ++ "    pass").

Definition def_source (n : nat) : string := source_of "def work():" n.
Definition async_def_source : string := source_of "async def work():" 21.

(** Two findings. *)
Definition broken_file : CodeSmell := syntax_error_smell app_py.
Definition todo_note : CodeSmell :=
  technical_debt_comment_smell app_js 3 "  // FIXME later  ".

(** A parser that knows one tree. *)
Definition parses_to (tree : AST) : string -> Py.result AST :=
  fun _ => Py.Return tree.

Definition rejects : string -> Py.result AST :=
  fun _ => Py.Raise Py.SyntaxError.

(** A file system holding one text. *)
Definition holds (content : string) : Path -> Py.result string :=
  fun _ => Py.Return content.

(** 500 newlines: 501 pieces between them.  499 newlines: 500 pieces. *)
Definition text_501 : string := copies 500 nl.
Definition text_500 : string := copies 499 nl.

(** A file of 500 lines, each ended by a newline. *)
Definition file_of_500_lines : string := copies 500 ("x = 1" ++ nl).

(** Two texts, and two commit lists, that differ in letter case only. *)
Definition mixed_case_text : string := "x = 1" ++ nl ++ "# FixMe: tidy up".
Definition other_case_text : string := "X = 1" ++ nl ++ "# fixme: TIDY UP".

Definition mixed_case_commits : list string :=
  [ commit_line "a01" "Ann" "2024-03-01" "Add parser";
    commit_line "a02" "Ann" "2024-03-02" "Temp WORKAROUND for parser" ].
Definition other_case_commits : list string :=
  [ commit_line "A01" "ANN" "2024-03-01" "add PARSER";
    commit_line "A02" "ann" "2024-03-02" "TEMP workaround for Parser" ].

(** A line of 130 characters that carries a debt marker. *)
Definition long_todo_line : string := "# todo: " ++ copies 122 "x".

Definition text_with_todo : string :=
  "x = 1" ++ nl ++ long_todo_line ++ nl ++ "  // FIXME later  ".

(** The text of [def_with 21], with a debt marker on the first line. *)
Definition with_long_def_text : string :=
  source_of "def work():  # FIXME split this up" 21.

(** Unbalanced text, with a debt marker. *)
Definition broken_py : string := "def f(:" ++ nl ++ "    pass  # TODO".

(** Eleven commits without debt keyword over three days, up to four
    commits that fix something, and up to two further plain ones. *)
Definition plain_commits : list string :=
  [ commit_line "a01" "Ann" "2024-03-01" "Add parser";
    commit_line "a02" "Ann" "2024-03-01" "Add lexer";
    commit_line "a03" "Bob" "2024-03-01" "Add tests";
    commit_line "a04" "Bob" "2024-03-01" "Update docs";
    commit_line "a05" "Ann" "2024-03-02" "Add printer";
    commit_line "a06" "Ann" "2024-03-02" "Rename module";
    commit_line "a07" "Bob" "2024-03-02" "Add benchmark";
    commit_line "a08" "Bob" "2024-03-02" "Bump version";
    commit_line "a09" "Ann" "2024-03-03" "Add changelog";
    commit_line "a10" "Ann" "2024-03-03" "Add license";
    commit_line "a11" "Bob" "2024-03-03" "Add example" ].

Definition fix_commits (n : nat) : list string :=
  firstn n
    [ commit_line "f01" "Ann" "2024-03-01" "Fix crash on empty input";
      commit_line "f02" "Bob" "2024-03-02" "fix typo";
      commit_line "f03" "Ann" "2024-03-03" "Bugfix for printer";
      commit_line "f04" "Bob" "2024-03-03" "FIX flaky test" ].

Definition more_plain (n : nat) : list string :=
  firstn n
    [ commit_line "b01" "Ann" "2024-03-01" "Add config";
      commit_line "b02" "Bob" "2024-03-02" "Add logging" ].

(** Fifteen commits over three days, two of them fixes. *)
Definition commits_2_fixes : list string :=
  plain_commits ++ more_plain 2 ++ fix_commits 2.

(** Fifteen commits over three days, four of them fixes. *)
Definition commits_4_fixes : list string :=
  plain_commits ++ fix_commits 4.

(** The output of [git log] for a commit list. *)
Definition log_of (commits : list string) : CompletedProcess :=
  {| returncode := 0;
     stdout := String.concat nl commits ++ nl;
     stderr := EmptyString |}.

(** A parser that fails with an error other than a syntax error. *)
Definition crashes : string -> Py.result AST :=
  fun _ => Py.Raise (Py.OtherException "ValueError").

(** A file that cannot be read. *)
Definition unreadable : Path -> Py.result string :=
  fun _ => Py.Raise (Py.OtherException "PermissionError").

(** [def work(p, ..., p, *, k, k, k):] with [n] ordinary parameters and
    three keyword-only ones. *)
Definition def_with_params (n : nat) : AST :=
  Node (FunctionDef "work") 1
       [("args",
         [Node arguments 0
               [("posonlyargs", []); ("args", repeat (Tree.arg 1) n);
                ("vararg", []);
                ("kwonlyargs", [Tree.arg 1; Tree.arg 1; Tree.arg 1]);
                ("kw_defaults", []); ("kwarg", []); ("defaults", [])]]);
        ("body", [Tree.Pass 2]); ("decorator_list", []); ("returns", []);
        ("type_params", [])].

Definition params_module (n : nat) : AST := Tree.mk_Module [def_with_params n].

(** A module of three assignments. *)
Definition flat_module : AST :=
  Tree.mk_Module
    [Node (OtherNode "Assign") 1 [("targets", [Tree.Name 1]);
                                  ("value", [Tree.Name 1])];
     Node (OtherNode "Assign") 2 [("targets", [Tree.Name 2]);
                                  ("value", [Tree.Name 2])];
     Node (OtherNode "Expr") 3 [("value", [Tree.Name 3])]].

(** Three commits, one of them a fix. *)
Definition three_commits : list Commit :=
  [ mkCommit "c1" "Ann" "2024-03-01" "Add parser";
    mkCommit "c2" "Bob" "2024-03-01" "Hotfix for lexer";
    mkCommit "c3" "Ann" "2024-03-02" "Add tests" ].

(** A project of four files. *)
Definition main_py : Path := {| path_str := "/proj/main.py"; suffix := ".py" |}.
Definition venv_py : Path :=
  {| path_str := "/proj/.venv/lib/site.py"; suffix := ".py" |}.
Definition big_js : Path := {| path_str := "/proj/bundle.js"; suffix := ".js" |}.
Definition locked_js : Path :=
  {| path_str := "/proj/locked.js"; suffix := ".js" |}.

Definition project_exists : string -> bool := String.eqb "/proj".

Definition project_rglob : string -> string -> list Path :=
  fun _ pattern =>
    if String.eqb pattern "*.py" then [main_py; venv_py]
    else if String.eqb pattern "*.js" then [big_js; locked_js]
    else [].

Definition project_stat : Path -> option Z :=
  fun file_path =>
    if String.eqb (path_str file_path) "/proj/bundle.js" then Some 5242880
    else if String.eqb (path_str file_path) "/proj/locked.js" then None
    else Some 2048.

End Sample.

(* ================================================================== *)
(** * Part II: properties                                              *)
(* ================================================================== *)

(** ** Health score *)

Lemma penalty_pos (s : DebtSeverity) : 1 <= penalty s <= 10.
Proof. destruct s; simpl; lia. Qed.

Lemma total_penalty_nonneg (smells : list CodeSmell) : 0 <= total_penalty smells.
Proof.
  induction smells as [|s rest IH]; simpl; [lia|].
  pose proof (penalty_pos (severity s)); lia.
Qed.

Lemma penalty_loop (smells : list CodeSmell) (start : Z) :
  fold_left
    (fun penalty smell =>
       match severity smell with
       | CRITICAL => penalty + 10
       | HIGH => penalty + 5
       | MEDIUM => penalty + 2
       | LOW => penalty + 1
       end) smells start
  = start + total_penalty smells.
Proof.
  unfold total_penalty.
  revert start; induction smells as [|s rest IH]; intros start; simpl.
  - lia.
  - rewrite IH. destruct (severity s); simpl; lia.
Qed.

Lemma score_formula (smells : list CodeSmell) :
  _calculate_health_score smells = Z.max 0 (100 - total_penalty smells).
Proof.
  destruct smells as [|s rest]; [reflexivity|].
  unfold _calculate_health_score. rewrite penalty_loop. reflexivity.
Qed.

(** Number of findings of one severity. *)
Lemma dict_incr_counts (a b c e : Z) (s : DebtSeverity) :
  dict_incr [("low", a); ("medium", b); ("high", c); ("critical", e)] (value s)
  = [("low", a + (if penalty s =? 1 then 1 else 0));
     ("medium", b + (if penalty s =? 2 then 1 else 0));
     ("high", c + (if penalty s =? 5 then 1 else 0));
     ("critical", e + (if penalty s =? 10 then 1 else 0))].
Proof.
  destruct s; cbn; repeat f_equal; lia.
Qed.

Lemma severity_counts_loop (smells : list CodeSmell) (a b c e : Z) :
  exists a' b' c' e',
    fold_left (fun counts smell => dict_incr counts (value (severity smell)))
              smells [("low", a); ("medium", b); ("high", c); ("critical", e)]
    = [("low", a'); ("medium", b'); ("high", c'); ("critical", e')]
    /\ e' * 10 + c' * 5 + b' * 2 + a' * 1
       = e * 10 + c * 5 + b * 2 + a * 1 + total_penalty smells.
Proof.
  revert a b c e; induction smells as [|s rest IH]; intros a b c e.
  - exists a, b, c, e. split; [reflexivity | cbn; lia].
  - cbn [fold_left]. rewrite dict_incr_counts.
    edestruct IH as (a' & b' & c' & e' & Hfold & Hsum).
    exists a', b', c', e'. split; [exact Hfold|].
    rewrite Hsum. unfold total_penalty; cbn [fold_right].
    destruct (severity s); cbn; lia.
Qed.

Lemma display_score_formula (smells : list CodeSmell) :
  display_health_score smells = Z.max 0 (100 - total_penalty smells).
Proof.
  unfold display_health_score, severity_counts, Py.len.
  destruct smells as [|s rest]; [reflexivity|].
  replace (Z.of_nat (List.length (s :: rest)) =? 0) with false
    by (symmetry; apply Z.eqb_neq; cbn [List.length]; lia).
  cbn [map value].
  destruct (severity_counts_loop (s :: rest) 0 0 0 0)
    as (a' & b' & c' & e' & Hfold & Hsum).
  rewrite Hfold. cbn [dict_get String.eqb Ascii.eqb Bool.eqb].
  rewrite Hsum. f_equal.
Qed.

(** C1. The health score of a collection of findings is
    [max(0, 100 - sum of penalties)] with penalty 10 for critical, 5 for
    high, 2 for medium and 1 for low; this holds for the score of
    [_calculate_health_score] and for the one [display_console_report]
    prints.  The score of no findings is 100, and every score lies in
    [0, 100]. *)
Theorem health_score_is_clamped_penalty_sum (smells : list CodeSmell) :
  _calculate_health_score smells = Z.max 0 (100 - total_penalty smells)
  /\ display_health_score smells = Z.max 0 (100 - total_penalty smells)
  /\ penalty CRITICAL = 10 /\ penalty HIGH = 5
  /\ penalty MEDIUM = 2 /\ penalty LOW = 1
  /\ _calculate_health_score [] = 100
  /\ display_health_score [] = 100
  /\ 0 <= _calculate_health_score smells <= 100.
Proof.
  pose proof (total_penalty_nonneg smells) as Hpos.
  repeat split; try reflexivity.
  - apply score_formula.
  - apply display_score_formula.
  - rewrite score_formula; lia.
  - rewrite score_formula; lia.
Qed.

Lemma total_penalty_permutation (F G : list CodeSmell) :
  Permutation (map severity F) (map severity G) ->
  total_penalty F = total_penalty G.
Proof.
  assert (Hsum : forall H, total_penalty H
                 = fold_right (fun s acc => penalty s + acc) 0 (map severity H)).
  { induction H as [|h H IH]; [reflexivity|].
    unfold total_penalty in *; cbn [fold_right map]; now rewrite IH. }
  rewrite !Hsum. generalize (map severity F) (map severity G).
  induction 1; cbn [fold_right]; lia.
Qed.

(** C8. Adding a finding never raises the health score, wherever it is
    added, and the score depends only on the multi-set of severities: two
    collections whose severities are permutations of each other score the
    same. *)
Theorem health_score_monotone_and_order_invariant
        (F G : list CodeSmell) (f : CodeSmell) :
  Permutation (map severity F) (map severity G) ->
  _calculate_health_score F = _calculate_health_score G
  /\ _calculate_health_score (f :: F) <= _calculate_health_score F
  /\ _calculate_health_score (F ++ [f]) <= _calculate_health_score F
  /\ _calculate_health_score (f :: G) <= _calculate_health_score F.
Proof.
  intros Hperm. rewrite !score_formula.
  pose proof (penalty_pos (severity f)) as Hf.
  assert (Happ : total_penalty (F ++ [f])
                 = total_penalty G + penalty (severity f)).
  { rewrite (total_penalty_permutation (F ++ [f]) (f :: G)).
    - unfold total_penalty; cbn [fold_right]; lia.
    - rewrite map_app. cbn [map].
      rewrite <- Permutation_cons_append. now constructor. }
  assert (Hcons : forall H, total_penalty (f :: H)
                            = penalty (severity f) + total_penalty H)
    by reflexivity.
  rewrite Happ, !Hcons, (total_penalty_permutation F G Hperm). lia.
Qed.

Lemma health_score_monotone_and_order_invariant_witness :
  Permutation (map severity [Sample.broken_file; Sample.todo_note])
              (map severity [Sample.todo_note; Sample.broken_file])
  /\ _calculate_health_score [Sample.broken_file; Sample.todo_note]
     = _calculate_health_score [Sample.todo_note; Sample.broken_file]
  /\ _calculate_health_score
       (Sample.todo_note :: [Sample.broken_file; Sample.todo_note])
     <= _calculate_health_score [Sample.broken_file; Sample.todo_note].
Proof.
  assert (Hperm : Permutation
                    (map severity [Sample.broken_file; Sample.todo_note])
                    (map severity [Sample.todo_note; Sample.broken_file]))
    by (cbn [map]; apply perm_swap).
  split; [exact Hperm|].
  destruct (health_score_monotone_and_order_invariant
              [Sample.broken_file; Sample.todo_note]
              [Sample.todo_note; Sample.broken_file]
              Sample.todo_note Hperm)
    as (Hsame & Hadded & _).
  split; assumption.
Defined.

(** ** Loops that append *)

Lemma append_loop {A B : Type} (f : A -> list B) (xs : list A) (init : list B) :
  fold_left (fun acc x => acc ++ f x) xs init = init ++ flat_map f xs.
Proof.
  revert init; induction xs as [|x xs IH]; intros init; cbn [fold_left flat_map].
  - now rewrite app_nil_r.
  - now rewrite IH, app_assoc.
Qed.

Lemma guarded_append_loop {A B : Type} (test : A -> bool) (make : A -> B)
      (xs : list A) (init : list B) :
  fold_left (fun acc x => if test x then acc ++ [make x] else acc) xs init
  = init ++ map make (filter test xs).
Proof.
  revert init; induction xs as [|x xs IH]; intros init; cbn [fold_left filter].
  - now rewrite app_nil_r.
  - rewrite IH. destruct (test x); [|reflexivity].
    cbn [map]. now rewrite <- app_assoc.
Qed.

Lemma flat_map_guarded {A B : Type} (test : A -> bool) (make : A -> B)
      (xs : list A) :
  flat_map (fun x => if test x then [make x] else []) xs
  = map make (filter test xs).
Proof.
  induction xs as [|x xs IH]; [reflexivity|].
  cbn [flat_map filter]. rewrite IH. now destruct (test x).
Qed.

Lemma filter_flat_map {A B : Type} (keep : B -> bool) (f : A -> list B)
      (xs : list A) :
  filter keep (flat_map f xs) = flat_map (fun x => filter keep (f x)) xs.
Proof.
  induction xs as [|x xs IH]; [reflexivity|].
  cbn [flat_map]. now rewrite filter_app, IH.
Qed.

Lemma flat_map_nested {A B C : Type} (f : B -> list C) (g : A -> list B)
      (xs : list A) :
  flat_map f (flat_map g xs) = flat_map (fun x => flat_map f (g x)) xs.
Proof.
  induction xs as [|x xs IH]; [reflexivity|].
  cbn [flat_map]. now rewrite flat_map_app, IH.
Qed.

Lemma fold_left_nested {A B C : Type} (step : A -> C -> A) (g : B -> list C)
      (xs : list B) (init : A) :
  fold_left (fun acc x => fold_left step (g x) acc) xs init
  = fold_left step (flat_map g xs) init.
Proof.
  revert init; induction xs as [|x xs IH]; intros init; [reflexivity|].
  cbn [fold_left flat_map]. now rewrite fold_left_app, IH.
Qed.

Lemma filter_none {A : Type} (test : A -> bool) (xs : list A) :
  (forall x, In x xs -> test x = false) -> filter test xs = [].
Proof.
  induction xs as [|x xs IH]; intros Hnone; [reflexivity|].
  cbn [filter]. rewrite (Hnone x (or_introl eq_refl)).
  apply IH. intros y Hy. apply Hnone. now right.
Qed.

(** ** Syntax trees *)

(** Induction on a tree, with the property available for every child. *)
Lemma AST_children_ind (P : AST -> Prop) :
  (forall node, Forall P (iter_child_nodes node) -> P node) ->
  forall node, P node.
Proof.
  intros step. fix IH 1. intros [cls line fields]. apply step.
  unfold iter_child_nodes; cbn [node_fields].
  induction fields as [|[key nodes] rest IHfields]; cbn [flat_map snd].
  - constructor.
  - apply Forall_app; split; [|exact IHfields].
    induction nodes as [|child nodes IHnodes]; constructor;
      [apply IH | exact IHnodes].
Qed.

Lemma subnodes_children (node : AST) :
  subnodes node = node :: flat_map subnodes (iter_child_nodes node).
Proof.
  destruct node as [cls line fields]. cbn [subnodes]. f_equal.
  unfold iter_child_nodes; cbn [node_fields]. now rewrite flat_map_nested.
Qed.

Lemma node_count_children (node : AST) :
  node_count node = S (list_sum (map node_count (iter_child_nodes node))).
Proof.
  destruct node as [cls line fields]. cbn [node_count]. f_equal.
  unfold iter_child_nodes; cbn [node_fields].
  induction fields as [|[key nodes] rest IH]; [reflexivity|].
  cbn [map flat_map snd].
  rewrite map_app, list_sum_app, <- IH. reflexivity.
Qed.

(** With fuel for every node waiting in the queue or below it, the loop of
    [ast.walk] yields every such node once. *)
Lemma walk_loop_complete (fuel : nat) (todo : list AST) :
  (list_sum (map node_count todo) <= fuel)%nat ->
  Permutation (walk_loop fuel todo) (flat_map subnodes todo).
Proof.
  revert todo; induction fuel as [|fuel IH]; intros todo Hfuel.
  - destruct todo as [|node rest]; [constructor|]. exfalso.
    cbn [map] in Hfuel. rewrite node_count_children in Hfuel.
    change (list_sum (?x :: ?l)) with (x + list_sum l)%nat in Hfuel. lia.
  - destruct todo as [|node rest]; [constructor|].
    cbn [walk_loop flat_map]. rewrite subnodes_children.
    cbn [app]. constructor.
    rewrite IH.
    + rewrite flat_map_app. apply Permutation_app_comm.
    + cbn [map] in Hfuel. rewrite node_count_children in Hfuel.
      change (list_sum (?x :: ?l)) with (x + list_sum l)%nat in Hfuel.
      rewrite map_app, list_sum_app. lia.
Qed.

(** [ast.walk] yields every node of the tree exactly once. *)
Lemma walk_all_nodes (tree : AST) : Permutation (walk tree) (subnodes tree).
Proof.
  unfold walk. rewrite walk_loop_complete.
  - cbn [flat_map]. now rewrite app_nil_r.
  - cbn [map]. change (list_sum [?x]) with (x + 0)%nat. lia.
Qed.

Lemma in_walk (tree node : AST) : In node (walk tree) <-> In node (subnodes tree).
Proof.
  split; apply Permutation_in;
    [apply walk_all_nodes | apply Permutation_sym, walk_all_nodes].
Qed.

(** ** Nesting depth *)

Lemma nesting_depth_children (node : AST) (current_depth : Z) :
  _calculate_nesting_depth node current_depth
  = fold_left
      (nesting_step
         (fun child => _calculate_nesting_depth child (current_depth + 1)))
      (iter_child_nodes node) current_depth.
Proof.
  destruct node as [cls line fields]. cbn [_calculate_nesting_depth].
  unfold iter_child_nodes; cbn [node_fields].
  apply (fold_left_nested _ snd).
Qed.

Lemma nesting_loop_bounds (recurse : AST -> Z) (children : list AST) (init : Z) :
  let result := fold_left (nesting_step recurse) children init in
  init <= result
  /\ (forall child, In child children -> is_nesting child = true ->
                    recurse child <= result)
  /\ (result = init
      \/ exists child, In child children /\ is_nesting child = true
                       /\ result = recurse child).
Proof.
  revert init; induction children as [|c children IH]; intros init;
    cbn [fold_left].
  - cbn. repeat split; [lia | contradiction | now left].
  - destruct (IH (nesting_step recurse init c)) as (Hinit & Hall & Hsome).
    cbn zeta in *.
    set (result := fold_left (nesting_step recurse) children
                             (nesting_step recurse init c)) in *.
    assert (Hstep : (is_nesting c = true
                     /\ nesting_step recurse init c = Z.max init (recurse c))
                    \/ (is_nesting c = false
                        /\ nesting_step recurse init c = init)).
    { unfold nesting_step. destruct (is_nesting c); [left | right]; auto. }
    split; [|split].
    + destruct Hstep as [[_ Hs]|[_ Hs]]; rewrite Hs in Hinit; lia.
    + intros child [->|Hin] Hnest; [|now apply Hall].
      destruct Hstep as [[_ Hs]|[Hc _]]; [rewrite Hs in Hinit; lia|congruence].
    + destruct Hsome as [Heq|(child & Hin & Hnest & Heq)].
      * destruct Hstep as [[Hc Hs]|[_ Hs]]; rewrite Hs in Heq.
        -- destruct (Z.max_spec init (recurse c)) as [[_ Hm]|[_ Hm]];
             rewrite Hm in Heq.
           ++ right. exists c. repeat split; [now left | assumption | exact Heq].
           ++ now left.
        -- now left.
      * right. exists child. repeat split; [now right | assumption | exact Heq].
Qed.

Lemma nesting_loop_ext (f g : AST -> Z) (children : list AST) (init : Z) :
  Forall (fun child => f child = g child) children ->
  fold_left (nesting_step f) children init
  = fold_left (nesting_step g) children init.
Proof.
  intros Hall; revert init.
  induction Hall as [|c children Hc _ IH]; intros init; [reflexivity|].
  cbn [fold_left]. unfold nesting_step at 2 4. rewrite Hc. apply IH.
Qed.

Lemma nesting_loop_shift (f : AST -> Z) (children : list AST) (init d : Z) :
  fold_left (nesting_step (fun child => d + f child)) children (d + init)
  = d + fold_left (nesting_step f) children init.
Proof.
  revert init; induction children as [|c children IH]; intros init;
    [reflexivity|].
  cbn [fold_left]. unfold nesting_step at 2 4.
  destruct (is_nesting c); [|apply IH].
  rewrite Z.add_max_distr_l. apply IH.
Qed.

(** The depth passed in is added to the depth measured from zero. *)
Lemma nesting_depth_shift (node : AST) (current_depth : Z) :
  _calculate_nesting_depth node current_depth
  = current_depth + _calculate_nesting_depth node 0.
Proof.
  revert current_depth.
  induction node as [node IH] using AST_children_ind; intros d.
  rewrite (nesting_depth_children node d), (nesting_depth_children node 0).
  rewrite (nesting_loop_ext _ (fun child => d + _calculate_nesting_depth child (0 + 1))).
  - rewrite <- (nesting_loop_shift _ _ 0 d). now rewrite Z.add_0_r.
  - eapply Forall_impl; [|exact IH]. cbn beta. intros child Hchild.
    rewrite (Hchild (d + 1)), (Hchild (0 + 1)). lia.
Qed.

(** The depth measured from zero: one more than the deepest qualifying
    child, or zero when no child qualifies. *)
Lemma nesting_depth_zero (node : AST) :
  _calculate_nesting_depth node 0
  = fold_left
      (nesting_step (fun child => 1 + _calculate_nesting_depth child 0))
      (iter_child_nodes node) 0.
Proof.
  rewrite nesting_depth_children. apply nesting_loop_ext.
  apply Forall_forall. intros child _. apply nesting_depth_shift.
Qed.

Lemma nesting_depth_nonneg (node : AST) : 0 <= _calculate_nesting_depth node 0.
Proof.
  rewrite nesting_depth_zero.
  apply (nesting_loop_bounds _ (iter_child_nodes node) 0).
Qed.

Lemma nesting_chain_shorter (node : AST) (k : nat) :
  nesting_chain node (S k) -> nesting_chain node k.
Proof.
  revert node; induction k as [|k IH]; intros node Hchain.
  - constructor.
  - inversion Hchain as [|? child ? Hin Hnest Hrest]; subst.
    econstructor; eauto.
Qed.

(** The measured depth is the length of the longest chain of
    if/for/while/with/try nodes that are children of one another. *)
Lemma nesting_depth_longest_chain (node : AST) (k : nat) :
  nesting_chain node k <-> Z.of_nat k <= _calculate_nesting_depth node 0.
Proof.
  split.
  - induction 1 as [node|node child k Hin Hnest _ IH].
    + apply nesting_depth_nonneg.
    + rewrite nesting_depth_zero.
      destruct (nesting_loop_bounds
                  (fun child => 1 + _calculate_nesting_depth child 0)
                  (iter_child_nodes node) 0) as (_ & Hall & _).
      specialize (Hall child Hin Hnest). cbn beta in Hall. lia.
  - revert k. induction node as [node IH] using AST_children_ind.
    intros [|k] Hk; [constructor|].
    rewrite nesting_depth_zero in Hk.
    destruct (nesting_loop_bounds
                (fun child => 1 + _calculate_nesting_depth child 0)
                (iter_child_nodes node) 0) as (_ & _ & [Hzero|Hsome]).
    + cbn zeta in Hzero. lia.
    + destruct Hsome as (child & Hin & Hnest & Heq). cbn zeta in Heq.
      econstructor; [exact Hin | exact Hnest |].
      rewrite Forall_forall in IH. apply (IH child Hin). lia.
Qed.

Lemma spec_nesting_depth_children (node : AST) :
  spec_nesting_depth node
  = fold_left
      (fun deepest child =>
         Z.max deepest ((if is_nesting child then 1 else 0)
                        + spec_nesting_depth child))
      (iter_child_nodes node) 0.
Proof.
  destruct node as [cls line fields]. cbn [spec_nesting_depth].
  unfold iter_child_nodes; cbn [node_fields].
  apply (fold_left_nested _ snd).
Qed.

Lemma directly_nested_children (node : AST) :
  directly_nested node
  = forallb
      (fun child => if is_nesting child then directly_nested child
                    else spec_nesting_depth child =? 0)
      (iter_child_nodes node).
Proof.
  destruct node as [cls line fields]. cbn [directly_nested].
  unfold iter_child_nodes; cbn [node_fields].
  induction fields as [|[key nodes] rest IH]; [reflexivity|].
  cbn [forallb flat_map snd]. now rewrite forallb_app, IH.
Qed.

Lemma spec_nesting_depth_nonneg (node : AST) : 0 <= spec_nesting_depth node.
Proof.
  rewrite spec_nesting_depth_children.
  generalize (iter_child_nodes node) as children.
  assert (Hloop : forall children init, 0 <= init ->
            0 <= fold_left
                   (fun deepest child =>
                      Z.max deepest ((if is_nesting child then 1 else 0)
                                     + spec_nesting_depth child))
                   children init).
  { induction children as [|c children IH]; intros init Hinit;
      cbn [fold_left]; [assumption|].
    apply IH. lia. }
  intros children. now apply Hloop.
Qed.

Lemma nesting_loops_agree (children : list AST) :
  Forall (fun child => directly_nested child = true ->
                       spec_nesting_depth child
                       = _calculate_nesting_depth child 0) children ->
  forallb (fun child => if is_nesting child then directly_nested child
                        else spec_nesting_depth child =? 0) children = true ->
  forall init, 0 <= init ->
    fold_left
      (fun deepest child =>
         Z.max deepest ((if is_nesting child then 1 else 0)
                        + spec_nesting_depth child))
      children init
    = fold_left
        (nesting_step (fun child => 1 + _calculate_nesting_depth child 0))
        children init.
Proof.
  induction 1 as [|c children Hc _ IH]; intros Hall init Hinit;
    [reflexivity|].
  cbn [forallb] in Hall. apply andb_prop in Hall as [Hchild Hrest].
  cbn [fold_left]. unfold nesting_step at 2.
  destruct (is_nesting c).
  - rewrite (Hc Hchild). apply IH; [assumption | lia].
  - apply Z.eqb_eq in Hchild. rewrite Hchild.
    replace (Z.max init (0 + 0)) with init by lia. now apply IH.
Qed.

(** Where every if/for/while/with/try below a node is reached through
    such nodes only, the measured depth is the depth of the
    specification. *)
Lemma nesting_depth_agrees_when_directly_nested (node : AST) :
  directly_nested node = true ->
  spec_nesting_depth node = _calculate_nesting_depth node 0.
Proof.
  induction node as [node IH] using AST_children_ind.
  rewrite directly_nested_children, spec_nesting_depth_children,
          nesting_depth_zero.
  intros Hall. apply nesting_loops_agree; [assumption | assumption | lia].
Qed.

(** ** The structural analyser *)

Section StructuralAnalyzer.

Variable ast_parse : string -> Py.result AST.
Variable file_path : Path.

Lemma analyze_python_file_parsed (content : string) (tree : AST) :
  ast_parse content = Py.Return tree ->
  _analyze_python_file ast_parse file_path content
  = Py.Return (flat_map (visit_node file_path) (walk tree)).
Proof.
  intros Hparse. unfold _analyze_python_file. rewrite Hparse.
  now rewrite append_loop.
Qed.

Lemma analyze_python_file_syntax_error (content : string) :
  ast_parse content = Py.Raise Py.SyntaxError ->
  _analyze_python_file ast_parse file_path content
  = Py.Return [syntax_error_smell file_path].
Proof.
  intros Hparse. unfold _analyze_python_file. now rewrite Hparse.
Qed.

Lemma visit_node_long_function (node : AST) :
  smells_of_type "long_function" (visit_node file_path node)
  = if is_FunctionDef node && (Py.len (body node) >? 20)
    then [long_function_smell file_path node] else [].
Proof.
  unfold visit_node, smells_of_type.
  destruct (is_FunctionDef node), (Py.len (body node) >? 20),
           (Py.len (args_args node) >? 5), (is_If_For_While node),
           (_calculate_nesting_depth node 0 >? 3); reflexivity.
Qed.

Lemma visit_node_deep_nesting (node : AST) :
  smells_of_type "deep_nesting" (visit_node file_path node)
  = if is_If_For_While node && (_calculate_nesting_depth node 0 >? 3)
    then [deep_nesting_smell file_path node
                             (_calculate_nesting_depth node 0)]
    else [].
Proof.
  unfold visit_node, smells_of_type.
  destruct (is_FunctionDef node), (Py.len (body node) >? 20),
           (Py.len (args_args node) >? 5), (is_If_For_While node),
           (_calculate_nesting_depth node 0 >? 3); reflexivity.
Qed.

Lemma smells_of_type_walk (kind : string) (test : AST -> bool)
      (make : AST -> CodeSmell) (nodes : list AST) :
  (forall node, smells_of_type kind (visit_node file_path node)
                = if test node then [make node] else []) ->
  smells_of_type kind (flat_map (visit_node file_path) nodes)
  = map make (filter test nodes).
Proof.
  intros Hvisit. unfold smells_of_type in *. rewrite filter_flat_map.
  rewrite <- flat_map_guarded. apply flat_map_ext. exact Hvisit.
Qed.

End StructuralAnalyzer.

(** C2, as the code has it.  In a file that parses, every [def]
    declaration (a [FunctionDef] node, at any depth) whose body holds more
    than 20 statements is reported once as [long_function], at the line of
    the declaration, with severity medium, confidence 0.8 and the count in
    the description; these are all the [long_function] findings, so a
    body of exactly 21 statements is reported and one of exactly 20 is
    not.  ([async def] declarations are not examined.) *)
Theorem long_function_reported_for_def
        (ast_parse : string -> Py.result AST) (file_path : Path)
        (content : string) (tree : AST) :
  ast_parse content = Py.Return tree ->
  exists smells,
    _analyze_python_file ast_parse file_path content = Py.Return smells
    /\ Permutation (walk tree) (subnodes tree)
    /\ smells_of_type "long_function" smells
       = map (long_function_smell file_path)
             (filter (fun node => is_FunctionDef node
                                  && (Py.len (body node) >? 20))
                     (walk tree))
    /\ (forall node,
          In node (subnodes tree) -> is_FunctionDef node = true ->
          20 < Py.len (body node) ->
          In (long_function_smell file_path node) smells
          /\ line_number (long_function_smell file_path node) = lineno node
          /\ severity (long_function_smell file_path node) = MEDIUM
          /\ confidence_score (long_function_smell file_path node) = 0.8%float
          /\ description (long_function_smell file_path node)
             = ("Function '" ++ name_of node ++ "' has "
                ++ Py.str_of_int (Py.len (body node)) ++ " lines (>20)")%string)
    /\ ((forall node,
           In node (subnodes tree) -> is_FunctionDef node = true ->
           Py.len (body node) <= 20) ->
        smells_of_type "long_function" smells = []).
Proof.
  intros Hparse. exists (flat_map (visit_node file_path) (walk tree)).
  split; [now apply analyze_python_file_parsed|].
  pose proof (smells_of_type_walk file_path "long_function" _ _ (walk tree)
                (visit_node_long_function file_path)) as Hkind.
  split; [apply walk_all_nodes|]. split; [exact Hkind|]. split.
  - intros node Hin Hdef Hlong. split; [|repeat split].
    assert (Hfound : In (long_function_smell file_path node)
                        (smells_of_type "long_function"
                           (flat_map (visit_node file_path) (walk tree)))).
    { rewrite Hkind. apply in_map, filter_In. split; [now apply in_walk|].
      rewrite Hdef. cbn [andb]. now apply Z.gtb_lt. }
    unfold smells_of_type in Hfound. now apply filter_In in Hfound.
  - intros Hshort. rewrite Hkind, filter_none; [reflexivity|].
    intros node Hin.
    destruct (is_FunctionDef node) eqn:Hdef; [|reflexivity].
    cbn [andb]. rewrite Z.gtb_ltb. apply Z.ltb_ge.
    apply Hshort; [now apply in_walk | assumption].
Qed.

Lemma long_function_reported_for_def_witness :
  (exists smells,
     _analyze_python_file (Sample.parses_to (Sample.def_with 21))
                          Sample.app_py (Sample.def_source 21)
     = Py.Return smells
     /\ In (long_function_smell Sample.app_py (Sample.work_def 21)) smells)
  /\ (exists smells,
        _analyze_python_file (Sample.parses_to (Sample.def_with 20))
                             Sample.app_py (Sample.def_source 20)
        = Py.Return smells
        /\ smells_of_type "long_function" smells = []).
Proof.
  split.
  - destruct (long_function_reported_for_def
                (Sample.parses_to (Sample.def_with 21)) Sample.app_py
                (Sample.def_source 21) (Sample.def_with 21) eq_refl)
      as (smells & Hrun & _ & _ & Hlong & _).
    exists smells. split; [exact Hrun|].
    apply (Hlong (Sample.work_def 21)).
    + cbn. right; left; reflexivity.
    + reflexivity.
    + vm_compute. reflexivity.
  - destruct (long_function_reported_for_def
                (Sample.parses_to (Sample.def_with 20)) Sample.app_py
                (Sample.def_source 20) (Sample.def_with 20) eq_refl)
      as (smells & Hrun & _ & _ & _ & Hshort).
    exists smells. split; [exact Hrun|].
    apply Hshort. intros node Hin Hdef.
    cbn in Hin.
    repeat (destruct Hin as [<-|Hin]; [try discriminate Hdef|]);
      [vm_compute; discriminate | contradiction].
Defined.

(** C2 fails for [async def]: a coroutine declared with 21 statements in
    its body is a function declaration of the file, and nothing is
    reported for the file. *)
Lemma long_function_not_reported_for_async_def :
  In Sample.async_work_def (subnodes Sample.async_def_21)
  /\ is_function_declaration Sample.async_work_def = true
  /\ Py.len (body Sample.async_work_def) = 21
  /\ _analyze_python_file (Sample.parses_to Sample.async_def_21)
                          Sample.app_py Sample.async_def_source
     = Py.Return []
  /\ _analyze_file (Sample.parses_to Sample.async_def_21)
                   (Sample.holds Sample.async_def_source) Sample.app_py
     = [].
Proof.
  repeat split; try reflexivity.
  cbn. right; left; reflexivity.
Qed.

(** C3, as the code has it.  In a file that parses, for every if/for/while
    node the analyser measures the length of the longest chain of
    if/for/while/with/try nodes below it in which each node is a child of
    the one before (the first a child of the node itself), and reports
    [deep_nesting], severity high, confidence 0.7, at the line of the node
    and with that depth, exactly when the depth exceeds 3: with and try
    nodes lengthen a chain but are never reported, a chain of 4 is
    reported and a chain of 3 is not.  Where no if/for/while/with/try lies
    beneath a child of another class, this depth is the depth over all
    nested descendants. *)
Theorem deep_nesting_reported_for_chains
        (ast_parse : string -> Py.result AST) (file_path : Path)
        (content : string) (tree : AST) :
  ast_parse content = Py.Return tree ->
  exists smells,
    _analyze_python_file ast_parse file_path content = Py.Return smells
    /\ Permutation (walk tree) (subnodes tree)
    /\ smells_of_type "deep_nesting" smells
       = map (fun node => deep_nesting_smell file_path node
                            (_calculate_nesting_depth node 0))
             (filter (fun node => is_If_For_While node
                                  && (_calculate_nesting_depth node 0 >? 3))
                     (walk tree))
    /\ (forall node k,
          nesting_chain node k
          <-> Z.of_nat k <= _calculate_nesting_depth node 0)
    /\ (forall node,
          directly_nested node = true ->
          spec_nesting_depth node = _calculate_nesting_depth node 0)
    /\ (forall node,
          In node (subnodes tree) -> is_If_For_While node = true ->
          nesting_chain node 4 ->
          In (deep_nesting_smell file_path node
                                 (_calculate_nesting_depth node 0)) smells)
    /\ (forall node depth,
          line_number (deep_nesting_smell file_path node depth) = lineno node
          /\ severity (deep_nesting_smell file_path node depth) = HIGH
          /\ confidence_score (deep_nesting_smell file_path node depth)
             = 0.7%float
          /\ description (deep_nesting_smell file_path node depth)
             = ("Code block nested " ++ Py.str_of_int depth
                ++ " levels deep")%string)
    /\ ((forall node,
           In node (subnodes tree) -> is_If_For_While node = true ->
           ~ nesting_chain node 4) ->
        smells_of_type "deep_nesting" smells = []).
Proof.
  intros Hparse. exists (flat_map (visit_node file_path) (walk tree)).
  split; [now apply analyze_python_file_parsed|].
  pose proof (smells_of_type_walk file_path "deep_nesting" _ _ (walk tree)
                (visit_node_deep_nesting file_path)) as Hkind.
  split; [apply walk_all_nodes|]. split; [exact Hkind|].
  split; [apply nesting_depth_longest_chain|].
  split; [apply nesting_depth_agrees_when_directly_nested|].
  split; [|split].
  - intros node Hin Hloop Hchain.
    apply nesting_depth_longest_chain in Hchain.
    assert (Hfound : In (deep_nesting_smell file_path node
                           (_calculate_nesting_depth node 0))
                        (smells_of_type "deep_nesting"
                           (flat_map (visit_node file_path) (walk tree)))).
    { rewrite Hkind.
      apply (in_map (fun node => deep_nesting_smell file_path node
                                   (_calculate_nesting_depth node 0))).
      apply filter_In. split; [now apply in_walk|].
      rewrite Hloop. cbn [andb]. apply Z.gtb_lt. lia. }
    unfold smells_of_type in Hfound. now apply filter_In in Hfound.
  - intros node depth. repeat split.
  - intros Hshallow. rewrite Hkind, filter_none; [reflexivity|].
    intros node Hin.
    destruct (is_If_For_While node) eqn:Hloop; [|reflexivity].
    cbn [andb]. rewrite Z.gtb_ltb. apply Z.ltb_ge.
    destruct (Z_le_gt_dec (_calculate_nesting_depth node 0) 3) as [|Hdeep];
      [assumption|].
    exfalso. apply (Hshallow node); [now apply in_walk | assumption |].
    apply nesting_depth_longest_chain. lia.
Qed.

Lemma deep_nesting_reported_for_chains_witness :
  (exists smells,
     _analyze_python_file (Sample.parses_to (Sample.if_nested 4))
                          Sample.app_py (Sample.if_source 4)
     = Py.Return smells
     /\ In (deep_nesting_smell Sample.app_py (Sample.outer_if 4) 4) smells)
  /\ (exists smells,
        _analyze_python_file (Sample.parses_to (Sample.if_nested 3))
                             Sample.app_py (Sample.if_source 3)
        = Py.Return smells
        /\ smells_of_type "deep_nesting" smells = []).
Proof.
  split.
  - destruct (deep_nesting_reported_for_chains
                (Sample.parses_to (Sample.if_nested 4)) Sample.app_py
                (Sample.if_source 4) (Sample.if_nested 4) eq_refl)
      as (smells & Hrun & _ & _ & Hchain & _ & Hdeep & _).
    exists smells. split; [exact Hrun|].
    apply (Hdeep (Sample.outer_if 4)).
    + cbn. right; left; reflexivity.
    + reflexivity.
    + apply Hchain. vm_compute. discriminate.
  - destruct (deep_nesting_reported_for_chains
                (Sample.parses_to (Sample.if_nested 3)) Sample.app_py
                (Sample.if_source 3) (Sample.if_nested 3) eq_refl)
      as (smells & Hrun & _ & _ & Hchain & _ & _ & _ & Hshallow).
    exists smells. split; [exact Hrun|].
    apply Hshallow. intros node Hin Hloop Hdeep.
    apply Hchain in Hdeep. cbn in Hin.
    repeat (destruct Hin as [<-|Hin]; [try discriminate Hloop|]);
      try contradiction; vm_compute in Hdeep; now apply Hdeep.
Defined.

(** C3 fails below an [except] handler: the [for] statement of
<<
      for x in xs:
          try: pass
          except E:
              if a:
                  if b:
                      if c: pass
>>
    has a try and three ifs nested below it, depth 4 in the
    specification's words, and nothing is reported for the file: the
    measured depth is 1. *)
Lemma deep_nesting_not_reported_below_except_handler :
  In Sample.for_try_except_loop (subnodes Sample.for_try_except)
  /\ is_If_For_While Sample.for_try_except_loop = true
  /\ spec_nesting_depth Sample.for_try_except_loop = 4
  /\ _calculate_nesting_depth Sample.for_try_except_loop 0 = 1
  /\ _analyze_python_file (Sample.parses_to Sample.for_try_except)
                          Sample.app_py Sample.for_try_except_source
     = Py.Return []
  /\ _analyze_file (Sample.parses_to Sample.for_try_except)
                   (Sample.holds Sample.for_try_except_source) Sample.app_py
     = [].
Proof.
  repeat split; try reflexivity.
  cbn. right; left; reflexivity.
Qed.

(** ** The textual analyser *)

Lemma guarded_append_loop_lines {B : Type} (test : string -> bool)
      (make : Z -> string -> B) (xs : list (Z * string)) (init : list B) :
  fold_left (fun acc '(i, line) =>
               if test line then acc ++ [make i line] else acc) xs init
  = init ++ map (fun '(i, line) => make i line)
                (filter (fun '(i, line) => test line) xs).
Proof.
  revert init; induction xs as [|[i line] xs IH]; intros init;
    cbn [fold_left filter].
  - now rewrite app_nil_r.
  - rewrite IH. destruct (test line); [|reflexivity].
    cbn [map]. now rewrite <- app_assoc.
Qed.

(** The findings of the textual analyser: the oversized file, then the
    marked lines, then the overlong lines. *)
Lemma analyze_general_patterns_parts (file_path : Path) (content : string) :
  _analyze_general_patterns file_path content
  = (if Py.len (Py.split newline content) >? 500
     then [large_file_smell file_path (Py.split newline content)] else [])
    ++ map (fun '(i, line) => technical_debt_comment_smell file_path i line)
           (marked_lines (Py.split newline content))
    ++ map (fun '(i, line) => long_line_smell file_path i line)
           (overlong_lines (Py.split newline content)).
Proof.
  unfold _analyze_general_patterns, marked_lines, overlong_lines.
  cbn zeta.
  rewrite (guarded_append_loop_lines
             (fun line => Py.slen line >? 120) (long_line_smell file_path)).
  rewrite (guarded_append_loop_lines
             (Re.search debt_marker_pattern true)
             (technical_debt_comment_smell file_path)).
  rewrite <- app_assoc.
  now destruct (Py.len (Py.split newline content) >? 500).
Qed.

Lemma smells_of_type_same {A : Type} (kind : string) (make : A -> CodeSmell)
      (xs : list A) :
  (forall x, smell_type (make x) = kind) ->
  smells_of_type kind (map make xs) = map make xs.
Proof.
  intros Hkind. unfold smells_of_type.
  induction xs as [|x xs IH]; [reflexivity|].
  cbn [map filter]. now rewrite Hkind, String.eqb_refl, IH.
Qed.

Lemma smells_of_type_other {A : Type} (kind : string) (make : A -> CodeSmell)
      (xs : list A) :
  (forall x, String.eqb (smell_type (make x)) kind = false) ->
  smells_of_type kind (map make xs) = [].
Proof.
  intros Hkind. unfold smells_of_type.
  induction xs as [|x xs IH]; [reflexivity|].
  cbn [map filter]. now rewrite Hkind, IH.
Qed.

Lemma smells_at_other {A : Type} (kind : string) (line : Z)
      (make : A -> CodeSmell) (xs : list A) :
  (forall x, String.eqb (smell_type (make x)) kind = false) ->
  smells_at kind line (map make xs) = [].
Proof.
  intros Hkind. unfold smells_at.
  induction xs as [|x xs IH]; [reflexivity|].
  cbn [map filter]. now rewrite Hkind, IH.
Qed.

(** No numbered line comes before the first number. *)
Lemma smells_at_before (kind : string) (make : Z -> string -> CodeSmell)
      (test : string -> bool) (lines : list string) (start line : Z) :
  (forall j l, line_number (make j l) = j) ->
  line < start ->
  smells_at kind line
    (map (fun '(j, l) => make j l)
         (filter (fun '(j, l) => test l) (Py.enumerate lines start)))
  = [].
Proof.
  intros Hline. revert start.
  induction lines as [|l lines IH]; intros start Hbefore; [reflexivity|].
  cbn [Py.enumerate filter].
  assert (Hrest := IH (start + 1) ltac:(lia)).
  destruct (test l); [|exact Hrest].
  cbn [map]. unfold smells_at in *. cbn [filter].
  rewrite Hline. replace (start =? line) with false
    by (symmetry; apply Z.eqb_neq; lia).
  rewrite andb_false_r. exact Hrest.
Qed.

(** A rule that tests each line reports line [start + n] once when the
    test holds there, and not at all otherwise. *)
Lemma smells_at_line (kind : string) (make : Z -> string -> CodeSmell)
      (test : string -> bool) (lines : list string) (start : Z) (n : nat)
      (line : string) :
  (forall j l, smell_type (make j l) = kind) ->
  (forall j l, line_number (make j l) = j) ->
  nth_error lines n = Some line ->
  smells_at kind (start + Z.of_nat n)
    (map (fun '(j, l) => make j l)
         (filter (fun '(j, l) => test l) (Py.enumerate lines start)))
  = if test line then [make (start + Z.of_nat n) line] else [].
Proof.
  intros Hkind Hline. revert start n.
  induction lines as [|l lines IH]; intros start n Hnth.
  - destruct n; discriminate.
  - cbn [Py.enumerate filter]. destruct n as [|n].
    + injection Hnth as ->. rewrite Z.add_0_r.
      pose proof (smells_at_before kind make test lines (start + 1) start
                    Hline ltac:(lia)) as Hrest.
      destruct (test line); [|exact Hrest].
      cbn [map]. unfold smells_at in *. cbn [filter].
      now rewrite Hkind, Hline, String.eqb_refl, Z.eqb_refl, Hrest.
    + cbn [nth_error] in Hnth.
      specialize (IH (start + 1) n Hnth).
      replace (start + 1 + Z.of_nat n) with (start + Z.of_nat (S n)) in IH
        by lia.
      destruct (test l); [|exact IH].
      cbn [map]. unfold smells_at in *. cbn [filter].
      rewrite Hline. replace (start =? start + Z.of_nat (S n)) with false
        by (symmetry; apply Z.eqb_neq; lia).
      rewrite andb_false_r. exact IH.
Qed.

Lemma smells_at_app (kind : string) (line : Z) (xs ys : list CodeSmell) :
  smells_at kind line (xs ++ ys)
  = smells_at kind line xs ++ smells_at kind line ys.
Proof. apply filter_app. Qed.

Lemma smells_of_type_app (kind : string) (xs ys : list CodeSmell) :
  smells_of_type kind (xs ++ ys)
  = smells_of_type kind xs ++ smells_of_type kind ys.
Proof. apply filter_app. Qed.

(** Lower case and the case of the letters A-Z, character by character. *)
Lemma lower_char_fold_char (c : ascii) :
  Py.lower_char (fold_char c) = Py.lower_char c.
Proof. destruct c as [[] [] [] [] [] [] [] []]; reflexivity. Qed.

Lemma lower_char_of_ascii (c : ascii) :
  ascii_char c = true -> Py.lower_char c = fold_char c.
Proof.
  destruct c as [[] [] [] [] [] [] [] []]; intros Hascii;
    try reflexivity; discriminate Hascii.
Qed.

Lemma ascii_char_lower_char (c : ascii) :
  ascii_char (Py.lower_char c) = ascii_char c.
Proof. destruct c as [[] [] [] [] [] [] [] []]; reflexivity. Qed.

Lemma same_fold_same_lower (p c : ascii) :
  fold_char c = fold_char p -> Py.lower_char p = Py.lower_char c.
Proof.
  intros Hsame.
  now rewrite <- (lower_char_fold_char p), <- (lower_char_fold_char c), Hsame.
Qed.

Lemma same_lower_same_fold (p c : ascii) :
  ascii_char p = true -> Py.lower_char p = Py.lower_char c ->
  fold_char c = fold_char p.
Proof.
  intros Hascii Hsame.
  assert (Hc : ascii_char c = true)
    by now rewrite <- ascii_char_lower_char, <- Hsame, ascii_char_lower_char.
  now rewrite <- !lower_char_of_ascii.
Qed.

(** With letter case ignored, a literal matches a text that spells it in
    whatever case of its letters. *)
Lemma match_here_spelled (lit word after : string) :
  fold_case word = fold_case lit ->
  Re.match_here true lit (word ++ after) = true.
Proof.
  revert word; induction lit as [|p lit IH]; intros word Hsame;
    [reflexivity|].
  destruct word as [|c word]; [discriminate|].
  cbn [fold_case] in Hsame. injection Hsame as Hc Hrest.
  cbn [append Re.match_here].
  rewrite (same_fold_same_lower p c Hc), Ascii.eqb_refl.
  now apply IH.
Qed.

(** A literal of ASCII matches nothing but its spellings, in the texts
    of the embedding. *)
Lemma match_here_spells (lit s : string) :
  is_ascii lit = true ->
  Re.match_here true lit s = true ->
  exists word after,
    s = (word ++ after)%string /\ fold_case word = fold_case lit.
Proof.
  revert s; induction lit as [|p lit IH]; intros s Hascii Hmatch.
  - now exists EmptyString, s.
  - destruct s as [|c s]; [discriminate|].
    cbn [is_ascii] in Hascii. cbn [Re.match_here] in Hmatch.
    apply andb_true_iff in Hascii as [Hp Hlit].
    apply andb_true_iff in Hmatch as [Hc Hrest].
    apply Ascii.eqb_eq in Hc.
    destruct (IH s Hlit Hrest) as (word & after & -> & Hword).
    exists (String c word), after. split; [reflexivity|].
    cbn [fold_case]. now rewrite Hword, (same_lower_same_fold p c Hp Hc).
Qed.

(** A search succeeds exactly where some alternative matches at some
    position. *)
Lemma search_found (alternatives : list string) (ignorecase : bool)
      (lit before rest : string) :
  In lit alternatives ->
  Re.match_here ignorecase lit rest = true ->
  Re.search alternatives ignorecase (before ++ rest) = true.
Proof.
  intros Hin Hmatch.
  assert (Hhere : forall s, Re.match_here ignorecase lit s = true ->
                            Re.search alternatives ignorecase s = true).
  { intros s Hs. destruct s; cbn [Re.search]; apply orb_true_iff; left;
      apply existsb_exists; now exists lit. }
  induction before as [|c before IH]; [now apply Hhere|].
  cbn [append Re.search]. rewrite IH. apply orb_true_r.
Qed.

Lemma search_finds (alternatives : list string) (ignorecase : bool)
      (s : string) :
  Re.search alternatives ignorecase s = true ->
  exists lit before rest,
    In lit alternatives /\ s = (before ++ rest)%string
    /\ Re.match_here ignorecase lit rest = true.
Proof.
  induction s as [|c s IH]; cbn [Re.search]; intros Hfound;
    apply orb_true_iff in Hfound as [Hhere|Hlater]; try discriminate.
  - apply existsb_exists in Hhere as (lit & Hin & Hmatch).
    now exists lit, EmptyString, EmptyString.
  - apply existsb_exists in Hhere as (lit & Hin & Hmatch).
    now exists lit, EmptyString, (String c s).
  - destruct (IH Hlater) as (lit & before & rest & Hin & -> & Hmatch).
    now exists lit, (String c before), rest.
Qed.

Lemma newlines_in_nonneg (content : string) : 0 <= newlines_in content.
Proof.
  induction content as [|c rest IH]; cbn [newlines_in]; [lia|].
  destruct (Ascii.eqb c newline); lia.
Qed.

(** Splitting at newlines gives one piece more than there are newlines. *)
Lemma split_newline_length (content : string) :
  Py.len (Py.split newline content) = 1 + newlines_in content.
Proof.
  unfold Py.len. induction content as [|c rest IH];
    cbn [Py.split newlines_in]; [reflexivity|].
  pose proof (newlines_in_nonneg rest) as Hpos.
  destruct (Ascii.eqb c newline).
  - cbn [List.length]. lia.
  - destruct (Py.split newline rest) as [|piece pieces];
      cbn [List.length] in *; lia.
Qed.

(** C5, as the code has it.  The textual analyser reports [large_file]
    once, at line 1, with severity medium, confidence 0.8 and the line
    count in the description, when the line count exceeds 500, and not at
    all otherwise.  The line count is the number of pieces of the text
    between newline characters, one more than there are newlines, so the
    empty piece behind a final newline is counted as a line.  A text of
    501 pieces (500 newlines) is reported once and a text of 500 pieces
    (499 newlines) is not reported. *)
Theorem large_file_reported_above_500_lines
        (file_path : Path) (content : string) :
  let lines := Py.split newline content in
  let reported :=
    smells_of_type "large_file" (_analyze_general_patterns file_path content) in
  reported = (if Py.len lines >? 500
              then [large_file_smell file_path lines] else [])
  /\ line_number (large_file_smell file_path lines) = 1
  /\ severity (large_file_smell file_path lines) = MEDIUM
  /\ confidence_score (large_file_smell file_path lines) = 0.8%float
  /\ description (large_file_smell file_path lines)
     = ("File has " ++ Py.str_of_int (Py.len lines) ++ " lines (>500)")%string
  /\ (500 < Py.len lines -> reported = [large_file_smell file_path lines])
  /\ (Py.len lines <= 500 -> reported = [])
  /\ (Py.len lines = 501 -> List.length reported = 1%nat)
  /\ (Py.len lines = 500 -> List.length reported = 0%nat)
  /\ Py.len lines = 1 + newlines_in content
  /\ (newlines_in content = 500 -> List.length reported = 1%nat)
  /\ (newlines_in content = 499 -> List.length reported = 0%nat).
Proof.
  intros lines reported.
  assert (Hreported : reported
                      = if Py.len lines >? 500
                        then [large_file_smell file_path lines] else []).
  { subst reported lines. rewrite analyze_general_patterns_parts.
    rewrite !smells_of_type_app.
    rewrite (smells_of_type_other "large_file"),
            (smells_of_type_other "large_file");
      try (intros [i line]; reflexivity).
    rewrite !app_nil_r.
    now destruct (Py.len (Py.split newline content) >? 500). }
  assert (Hcount : Py.len lines = 1 + newlines_in content)
    by apply split_newline_length.
  split; [exact Hreported|]. do 4 (split; [reflexivity|]).
  rewrite Hreported.
  split; [|split; [|split; [|split; [|split; [exact Hcount|split]]]]].
  - intros Hlen. apply Z.gtb_lt in Hlen. now rewrite Hlen.
  - intros Hlen.
    replace (Py.len lines >? 500) with false; [reflexivity|].
    symmetry. rewrite Z.gtb_ltb. now apply Z.ltb_ge.
  - intros ->. reflexivity.
  - intros ->. reflexivity.
  - intros Hnewlines. rewrite Hcount, Hnewlines. reflexivity.
  - intros Hnewlines. rewrite Hcount, Hnewlines. reflexivity.
Qed.

Lemma large_file_reported_above_500_lines_witness :
  Py.len (Py.split newline Sample.text_501) = 501
  /\ List.length (smells_of_type "large_file"
                    (_analyze_general_patterns Sample.app_js Sample.text_501))
     = 1%nat
  /\ Py.len (Py.split newline Sample.text_500) = 500
  /\ List.length (smells_of_type "large_file"
                    (_analyze_general_patterns Sample.app_js Sample.text_500))
     = 0%nat.
Proof.
  assert (H501 : Py.len (Py.split newline Sample.text_501) = 501)
    by (vm_compute; reflexivity).
  assert (H500 : Py.len (Py.split newline Sample.text_500) = 500)
    by (vm_compute; reflexivity).
  split; [exact H501|]. split; [|split; [exact H500|]].
  - destruct (large_file_reported_above_500_lines
                Sample.app_js Sample.text_501)
      as (_ & _ & _ & _ & _ & _ & _ & Hone & _).
    exact (Hone H501).
  - destruct (large_file_reported_above_500_lines
                Sample.app_js Sample.text_500)
      as (_ & _ & _ & _ & _ & _ & _ & _ & Hnone & _).
    exact (Hnone H500).
Defined.

(** C5 fails for a file of 500 lines that ends with a newline: the text
    of 500 lines [x = 1], each ended by a newline, holds 500 newlines,
    the empty piece behind the last one is counted as line 501, and the
    file is reported as having 501 lines. *)
Lemma large_file_reported_for_500_lines :
  Sample.file_of_500_lines = Sample.copies 500 ("x = 1" ++ Sample.nl)
  /\ newlines_in Sample.file_of_500_lines = 500
  /\ Py.last_item (Py.split newline Sample.file_of_500_lines) = EmptyString
  /\ smells_of_type "large_file"
       (_analyze_general_patterns Sample.app_js Sample.file_of_500_lines)
     = [large_file_smell Sample.app_js
          (Py.split newline Sample.file_of_500_lines)]
  /\ description (large_file_smell Sample.app_js
                    (Py.split newline Sample.file_of_500_lines))
     = "File has 501 lines (>500)".
Proof.
  split; [reflexivity|]. split; [vm_compute; reflexivity|].
  split; [vm_compute; reflexivity|].
  split; vm_compute; reflexivity.
Qed.

(** C6. For every line of the text, the textual analyser reports
    [technical_debt_comment] at that line exactly once when the line
    matches the pattern of TODO, FIXME, HACK and XXX with letter case
    ignored, and not at all otherwise; the finding has severity low,
    confidence 0.6 and the trimmed line in its description.  A line
    matches whenever it holds one of the four markers at any position,
    in whatever case of its letters; a line of ASCII matches in no other
    way.  Whether [long_line] is reported at the same line depends on
    the length of the line only: neither rule affects the other. *)
Theorem debt_marker_reported_once_per_line
        (file_path : Path) (content : string) (n : nat) (line : string) :
  nth_error (Py.split newline content) n = Some line ->
  let smells := _analyze_general_patterns file_path content in
  let i := 1 + Z.of_nat n in
  smells_at "technical_debt_comment" i smells
  = (if Re.search debt_marker_pattern true line
     then [technical_debt_comment_smell file_path i line] else [])
  /\ smells_at "long_line" i smells
     = (if Py.slen line >? 120 then [long_line_smell file_path i line] else [])
  /\ smells_of_type "technical_debt_comment" smells
     = map (fun '(j, l) => technical_debt_comment_smell file_path j l)
           (marked_lines (Py.split newline content))
  /\ (forall marker before word after,
        In marker ["TODO"; "FIXME"; "HACK"; "XXX"] ->
        fold_case word = fold_case marker ->
        line = (before ++ word ++ after)%string ->
        smells_at "technical_debt_comment" i smells
        = [technical_debt_comment_smell file_path i line])
  /\ (is_ascii line = true ->
      smells_at "technical_debt_comment" i smells <> [] ->
      exists marker before word after,
        In marker ["TODO"; "FIXME"; "HACK"; "XXX"]
        /\ fold_case word = fold_case marker
        /\ line = (before ++ word ++ after)%string)
  /\ line_number (technical_debt_comment_smell file_path i line) = i
  /\ severity (technical_debt_comment_smell file_path i line) = LOW
  /\ confidence_score (technical_debt_comment_smell file_path i line)
     = 0.6%float
  /\ description (technical_debt_comment_smell file_path i line)
     = ("Technical debt marker: " ++ Py.strip line)%string.
Proof.
  intros Hnth smells i. subst smells i.
  assert (Hmarked :
            smells_of_type "technical_debt_comment"
                           (_analyze_general_patterns file_path content)
            = map (fun '(j, l) => technical_debt_comment_smell file_path j l)
                  (marked_lines (Py.split newline content))).
  { rewrite analyze_general_patterns_parts, !smells_of_type_app.
    rewrite (smells_of_type_same "technical_debt_comment"),
            (smells_of_type_other "technical_debt_comment");
      try (intros [j l]; reflexivity).
    rewrite app_nil_r.
    now destruct (Py.len (Py.split newline content) >? 500). }
  assert (Hlarge : forall kind,
            String.eqb "large_file" kind = false ->
            smells_at kind (1 + Z.of_nat n)
              (if Py.len (Py.split newline content) >? 500
               then [large_file_smell file_path (Py.split newline content)]
               else []) = []).
  { intros kind Hkind.
    destruct (Py.len (Py.split newline content) >? 500); [|reflexivity].
    unfold smells_at. cbn [filter large_file_smell smell_type].
    now rewrite Hkind. }
  assert (Hmarker :
            smells_at "technical_debt_comment" (1 + Z.of_nat n)
                      (_analyze_general_patterns file_path content)
            = if Re.search debt_marker_pattern true line
              then [technical_debt_comment_smell file_path
                      (1 + Z.of_nat n) line]
              else []).
  { rewrite analyze_general_patterns_parts, !smells_at_app.
    unfold marked_lines, overlong_lines.
    rewrite (Hlarge "technical_debt_comment" eq_refl).
    rewrite (smells_at_line "technical_debt_comment"
               (technical_debt_comment_smell file_path)
               (Re.search debt_marker_pattern true)
               (Py.split newline content) 1 n line);
      try reflexivity; [|assumption].
    rewrite (smells_at_other "technical_debt_comment");
      [|intros [j l]; reflexivity].
    now rewrite app_nil_r. }
  split; [exact Hmarker|].
  split; [|split; [exact Hmarked|split; [|split; [|repeat split]]]].
  - rewrite analyze_general_patterns_parts, !smells_at_app.
    unfold marked_lines, overlong_lines.
    rewrite (Hlarge "long_line" eq_refl).
    rewrite (smells_at_other "long_line"); [|intros [j l]; reflexivity].
    rewrite (smells_at_line "long_line" (long_line_smell file_path)
               (fun l => Py.slen l >? 120)
               (Py.split newline content) 1 n line);
      try reflexivity; assumption.
  - intros marker before word after Hin Hword ->.
    rewrite Hmarker.
    rewrite (search_found debt_marker_pattern true marker before
               (word ++ after) Hin (match_here_spelled _ _ _ Hword)).
    reflexivity.
  - intros _ Hsome. rewrite Hmarker in Hsome.
    destruct (Re.search debt_marker_pattern true line) eqn:Hfound;
      [|contradiction].
    apply search_finds in Hfound
      as (marker & before & rest & Hin & -> & Hmatch).
    apply match_here_spells in Hmatch as (word & after & -> & Hword).
    + now exists marker, before, word, after.
    + cbn [debt_marker_pattern In] in Hin.
      destruct Hin as [<-|[<-|[<-|[<-|[]]]]]; reflexivity.
Qed.

Lemma debt_marker_reported_once_per_line_witness :
  nth_error (Py.split newline Sample.text_with_todo) 1
  = Some Sample.long_todo_line
  /\ smells_at "technical_debt_comment" 2
       (_analyze_general_patterns Sample.app_js Sample.text_with_todo)
     = [technical_debt_comment_smell Sample.app_js 2 Sample.long_todo_line]
  /\ smells_at "long_line" 2
       (_analyze_general_patterns Sample.app_js Sample.text_with_todo)
     = [long_line_smell Sample.app_js 2 Sample.long_todo_line]
  /\ nth_error (Py.split newline Sample.text_with_todo) 2
     = Some "  // FIXME later  "
  /\ smells_at "technical_debt_comment" 3
       (_analyze_general_patterns Sample.app_js Sample.text_with_todo)
     = [technical_debt_comment_smell Sample.app_js 3 "  // FIXME later  "]
  /\ description
       (technical_debt_comment_smell Sample.app_js 3 "  // FIXME later  ")
     = "Technical debt marker: // FIXME later"
  /\ smells_at "long_line" 3
       (_analyze_general_patterns Sample.app_js Sample.text_with_todo)
     = [].
Proof.
  assert (Hnth : nth_error (Py.split newline Sample.text_with_todo) 1
                 = Some Sample.long_todo_line) by (vm_compute; reflexivity).
  assert (Hlast : nth_error (Py.split newline Sample.text_with_todo) 2
                  = Some "  // FIXME later  ") by (vm_compute; reflexivity).
  split; [exact Hnth|].
  destruct (debt_marker_reported_once_per_line
              Sample.app_js Sample.text_with_todo 1 Sample.long_todo_line Hnth)
    as (Hmarker & Hlong & _).
  split; [exact Hmarker|]. split; [exact Hlong|].
  split; [exact Hlast|].
  destruct (debt_marker_reported_once_per_line
              Sample.app_js Sample.text_with_todo 2 "  // FIXME later  " Hlast)
    as (_ & Hshort & _ & Hspelled & _ & _ & _ & _ & Hdescription).
  split; [|split; [|exact Hshort]].
  - exact (Hspelled "FIXME" "  // " "FIXME" " later  "
                    (or_intror (or_introl eq_refl)) eq_refl eq_refl).
  - exact Hdescription.
Defined.

(** ** Per-file analysis *)

Lemma kind_policy_functional (kind : string) (v1 v2 : DebtSeverity * float) :
  In (kind, v1) kind_policy -> In (kind, v2) kind_policy -> v1 = v2.
Proof.
  unfold kind_policy. cbn [In]. intros H1 H2.
  repeat (destruct H1 as [H1|H1]; [injection H1 as <- <-|]);
    try contradiction;
    repeat (destruct H2 as [H2|H2];
            [first [discriminate H2 | now injection H2 as <-]|]);
    contradiction.
Qed.

Lemma kinds_disjoint (kind : string) :
  In kind textual_kinds -> ~ In kind structural_kinds.
Proof.
  unfold textual_kinds, structural_kinds. cbn [In]. intros Htext Hstruct.
  repeat (destruct Htext as [<-|Htext]; [|]); try contradiction;
    repeat (destruct Hstruct as [Hstruct|Hstruct]; [discriminate Hstruct|]);
    contradiction.
Qed.

Lemma analyze_general_patterns_policy (file_path : Path) (content : string)
      (smell : CodeSmell) :
  In smell (_analyze_general_patterns file_path content) ->
  In (smell_type smell, (severity smell, confidence_score smell)) kind_policy
  /\ In (smell_type smell) textual_kinds.
Proof.
  rewrite analyze_general_patterns_parts.
  intros Hin. apply in_app_or in Hin as [Hin|Hin];
    [|apply in_app_or in Hin as [Hin|Hin]].
  - destruct (Py.len (Py.split newline content) >? 500); [|contradiction].
    destruct Hin as [<-|[]]. cbn. auto 10.
  - apply in_map_iff in Hin as ([i line] & <- & _). cbn. auto 10.
  - apply in_map_iff in Hin as ([i line] & <- & _). cbn. auto 10.
Qed.

Lemma visit_node_policy (file_path : Path) (node : AST) (smell : CodeSmell) :
  In smell (visit_node file_path node) ->
  In (smell_type smell, (severity smell, confidence_score smell)) kind_policy
  /\ In (smell_type smell) structural_kinds.
Proof.
  unfold visit_node. intros Hin.
  repeat (apply in_app_or in Hin as [Hin|Hin]);
    repeat match type of Hin with
           | In _ (if ?c then _ else _) => destruct c
           end;
    try contradiction; destruct Hin as [<-|[]]; cbn; auto 10.
Qed.

Lemma analyze_python_file_policy (ast_parse : string -> Py.result AST)
      (file_path : Path) (content : string) (smells : list CodeSmell)
      (smell : CodeSmell) :
  _analyze_python_file ast_parse file_path content = Py.Return smells ->
  In smell smells ->
  In (smell_type smell, (severity smell, confidence_score smell)) kind_policy
  /\ In (smell_type smell) structural_kinds.
Proof.
  unfold _analyze_python_file.
  destruct (ast_parse content) as [tree|[|name]]; intros Hrun Hin;
    [| |discriminate].
  - injection Hrun as <-. rewrite append_loop in Hin. cbn [app] in Hin.
    apply in_flat_map in Hin as (node & _ & Hin).
    now apply visit_node_policy in Hin.
  - injection Hrun as <-. destruct Hin as [<-|[]]. cbn. auto 10.
Qed.

Lemma emitted_policy (smell : CodeSmell) :
  emitted smell ->
  In (smell_type smell, (severity smell, confidence_score smell)) kind_policy.
Proof.
  intros [ast_parse file_path content smells Hrun Hin|file_path content Hin].
  - now apply (analyze_python_file_policy _ _ _ _ _ Hrun).
  - now apply (analyze_general_patterns_policy _ _ _ Hin).
Qed.

(** What per-file analysis returns: nothing when reading or parsing
    raises anything but a syntax error, else the structural findings (for
    a [.py] file) followed by the textual ones. *)
Lemma analyze_file_cases (ast_parse : string -> Py.result AST)
      (read_text : Path -> Py.result string) (file_path : Path) :
  _analyze_file ast_parse read_text file_path = []
  \/ exists content,
       read_text file_path = Py.Return content
       /\ ((suffix file_path <> ".py"
            /\ _analyze_file ast_parse read_text file_path
               = _analyze_general_patterns file_path content)
           \/ (suffix file_path = ".py"
               /\ exists smells,
                    _analyze_python_file ast_parse file_path content
                    = Py.Return smells
                    /\ _analyze_file ast_parse read_text file_path
                       = smells ++ _analyze_general_patterns file_path content)).
Proof.
  unfold _analyze_file.
  destruct (read_text file_path) as [content|e]; [|now left].
  destruct (String.eqb_spec (suffix file_path) ".py") as [Hpy|Hother].
  - destruct (_analyze_python_file ast_parse file_path content)
      as [smells|e] eqn:Hrun; [|now left].
    right. exists content. split; [reflexivity|]. right.
    split; [assumption|]. now exists smells.
  - right. exists content. split; [reflexivity|]. left. now split.
Qed.

Lemma analyze_file_emitted (ast_parse : string -> Py.result AST)
      (read_text : Path -> Py.result string) (file_path : Path)
      (smell : CodeSmell) :
  In smell (_analyze_file ast_parse read_text file_path) -> emitted smell.
Proof.
  destruct (analyze_file_cases ast_parse read_text file_path)
    as [->|(content & _ & [[_ ->]|[_ (smells & Hrun & ->)]])]; intros Hin.
  - contradiction.
  - now apply (emitted_textual _ file_path content).
  - apply in_app_or in Hin as [Hin|Hin].
    + now apply (emitted_structural _ ast_parse file_path content smells).
    + now apply (emitted_textual _ file_path content).
Qed.

(** C9. Severity and confidence of every finding the structural and the
    textual analyser emit (and so of every finding of per-file analysis)
    are those listed for its kind: long_function medium/0.8,
    too_many_parameters high/0.9, deep_nesting high/0.7, large_file
    medium/0.8, technical_debt_comment low/0.6, long_line low/0.9,
    syntax_error critical/1.0.  Two findings of one kind, from any inputs,
    have equal severity and equal confidence. *)
Theorem severity_and_confidence_fixed_by_kind (smell1 smell2 : CodeSmell) :
  emitted smell1 -> emitted smell2 ->
  In (smell_type smell1, (severity smell1, confidence_score smell1))
     kind_policy
  /\ (smell_type smell1 = smell_type smell2 ->
      severity smell1 = severity smell2
      /\ confidence_score smell1 = confidence_score smell2)
  /\ (forall ast_parse read_text file_path smell,
        In smell (_analyze_file ast_parse read_text file_path) ->
        emitted smell).
Proof.
  intros Hemitted1 Hemitted2.
  pose proof (emitted_policy _ Hemitted1) as Hpolicy1.
  pose proof (emitted_policy _ Hemitted2) as Hpolicy2.
  split; [exact Hpolicy1|]. split; [|apply analyze_file_emitted].
  intros Hkind. rewrite <- Hkind in Hpolicy2.
  pose proof (kind_policy_functional _ _ _ Hpolicy1 Hpolicy2) as Hsame.
  now injection Hsame.
Qed.

Lemma severity_and_confidence_fixed_by_kind_witness :
  emitted (technical_debt_comment_smell Sample.app_js 2 Sample.long_todo_line)
  /\ emitted (technical_debt_comment_smell Sample.app_py 2 "    pass  # TODO")
  /\ severity (technical_debt_comment_smell Sample.app_js 2
                 Sample.long_todo_line)
     = severity (technical_debt_comment_smell Sample.app_py 2
                   "    pass  # TODO")
  /\ confidence_score (technical_debt_comment_smell Sample.app_js 2
                         Sample.long_todo_line)
     = confidence_score (technical_debt_comment_smell Sample.app_py 2
                           "    pass  # TODO").
Proof.
  assert (Hjs : emitted (technical_debt_comment_smell Sample.app_js 2
                           Sample.long_todo_line)).
  { apply (emitted_textual _ Sample.app_js Sample.text_with_todo).
    vm_compute. left; reflexivity. }
  assert (Hpy : emitted (technical_debt_comment_smell Sample.app_py 2
                           "    pass  # TODO")).
  { apply (emitted_textual _ Sample.app_py Sample.broken_py).
    vm_compute. left; reflexivity. }
  split; [exact Hjs|]. split; [exact Hpy|].
  destruct (severity_and_confidence_fixed_by_kind _ _ Hjs Hpy)
    as (_ & Hsame & _).
  apply Hsame. reflexivity.
Defined.

(** C4. When the text of a [.py] file does not parse, per-file analysis
    reports [syntax_error] once, at line 1, with severity critical and
    confidence 1.0; it reports no other finding of a structural kind; and
    the textual findings of the file follow unchanged. *)
Theorem syntax_error_reported_once
        (ast_parse : string -> Py.result AST)
        (read_text : Path -> Py.result string)
        (file_path : Path) (content : string) :
  read_text file_path = Py.Return content ->
  suffix file_path = ".py" ->
  ast_parse content = Py.Raise Py.SyntaxError ->
  let smells := _analyze_file ast_parse read_text file_path in
  smells = syntax_error_smell file_path
           :: _analyze_general_patterns file_path content
  /\ smells_of_type "syntax_error" smells = [syntax_error_smell file_path]
  /\ (forall kind,
        In kind ["long_function"; "too_many_parameters"; "deep_nesting"] ->
        smells_of_type kind smells = [])
  /\ (forall kind,
        In kind textual_kinds ->
        smells_of_type kind smells
        = smells_of_type kind (_analyze_general_patterns file_path content))
  /\ line_number (syntax_error_smell file_path) = 1
  /\ severity (syntax_error_smell file_path) = CRITICAL
  /\ confidence_score (syntax_error_smell file_path) = 1.0%float.
Proof.
  intros Hread Hpy Hparse smells.
  assert (Hsmells : smells = syntax_error_smell file_path
                             :: _analyze_general_patterns file_path content).
  { subst smells. unfold _analyze_file. rewrite Hread, Hpy.
    rewrite (analyze_python_file_syntax_error _ _ _ Hparse). reflexivity. }
  assert (Htextual : forall kind,
            ~ In kind textual_kinds ->
            smells_of_type kind (_analyze_general_patterns file_path content)
            = []).
  { intros kind Hkind. apply filter_none. intros smell Hin.
    apply analyze_general_patterns_policy in Hin as [_ Hin].
    destruct (String.eqb_spec (smell_type smell) kind) as [<-|];
      [contradiction | reflexivity]. }
  split; [exact Hsmells|]. rewrite Hsmells.
  split; [|split; [|split; [|repeat split]]].
  - unfold smells_of_type at 1. cbn [filter syntax_error_smell smell_type].
    cbn [String.eqb Ascii.eqb Bool.eqb]. f_equal.
    apply Htextual. cbn [textual_kinds In].
    intros [H|[H|[H|[]]]]; discriminate H.
  - intros kind Hkind. unfold smells_of_type at 1.
    cbn [filter syntax_error_smell smell_type].
    assert (Hother : String.eqb "syntax_error" kind = false)
      by (cbn [In] in Hkind;
          destruct Hkind as [<-|[<-|[<-|[]]]]; reflexivity).
    rewrite Hother. apply Htextual. intros Htext.
    apply kinds_disjoint in Htext. apply Htext.
    cbn [structural_kinds In] in *. tauto.
  - intros kind Hkind. unfold smells_of_type at 1.
    cbn [filter syntax_error_smell smell_type].
    assert (Hother : String.eqb "syntax_error" kind = false)
      by (cbn [textual_kinds In] in Hkind;
          destruct Hkind as [<-|[<-|[<-|[]]]]; reflexivity).
    now rewrite Hother.
Qed.

Lemma syntax_error_reported_once_witness :
  _analyze_file Sample.rejects (Sample.holds Sample.broken_py) Sample.app_py
  = [syntax_error_smell Sample.app_py;
     technical_debt_comment_smell Sample.app_py 2 "    pass  # TODO"].
Proof.
  destruct (syntax_error_reported_once
              Sample.rejects (Sample.holds Sample.broken_py) Sample.app_py
              Sample.broken_py eq_refl eq_refl eq_refl) as (Hsmells & _).
  rewrite Hsmells. reflexivity.
Defined.

(** C10. For a file whose extension is not [.py], per-file analysis
    reports findings of the textual kinds only (large_file,
    technical_debt_comment, long_line) and none of a structural kind
    (long_function, too_many_parameters, deep_nesting, syntax_error),
    whatever the file holds: the parser is not consulted. *)
Theorem textual_kinds_only_outside_python
        (ast_parse : string -> Py.result AST)
        (read_text : Path -> Py.result string) (file_path : Path) :
  suffix file_path <> ".py" ->
  (forall smell,
     In smell (_analyze_file ast_parse read_text file_path) ->
     In (smell_type smell) textual_kinds
     /\ ~ In (smell_type smell) structural_kinds)
  /\ (forall content,
        read_text file_path = Py.Return content ->
        _analyze_file ast_parse read_text file_path
        = _analyze_general_patterns file_path content)
  /\ (forall other_parse,
        _analyze_file ast_parse read_text file_path
        = _analyze_file other_parse read_text file_path).
Proof.
  intros Hother.
  assert (Hrun : forall parse content,
            read_text file_path = Py.Return content ->
            _analyze_file parse read_text file_path
            = _analyze_general_patterns file_path content).
  { intros parse content Hread. unfold _analyze_file. rewrite Hread.
    apply String.eqb_neq in Hother. now rewrite Hother. }
  split; [|split].
  - intros smell Hin.
    assert (Htext : In (smell_type smell) textual_kinds).
    { destruct (read_text file_path) as [content|e] eqn:Hread.
      - rewrite (Hrun ast_parse content eq_refl) in Hin.
        now apply analyze_general_patterns_policy in Hin.
      - unfold _analyze_file in Hin. rewrite Hread in Hin. contradiction. }
    split; [exact Htext | now apply kinds_disjoint].
  - apply Hrun.
  - intros other_parse.
    destruct (read_text file_path) as [content|e] eqn:Hread.
    + now rewrite !(Hrun _ content eq_refl).
    + unfold _analyze_file. now rewrite Hread.
Qed.

Lemma textual_kinds_only_outside_python_witness :
  suffix Sample.app_js <> ".py"
  /\ _analyze_file (Sample.parses_to (Sample.def_with 21))
                   (Sample.holds Sample.with_long_def_text) Sample.app_js
     = _analyze_general_patterns Sample.app_js Sample.with_long_def_text.
Proof.
  assert (Hjs : suffix Sample.app_js <> ".py") by (cbn; discriminate).
  split; [exact Hjs|].
  destruct (textual_kinds_only_outside_python
              (Sample.parses_to (Sample.def_with 21))
              (Sample.holds Sample.with_long_def_text) Sample.app_js Hjs)
    as (_ & Hrun & _).
  apply Hrun. reflexivity.
Defined.

(** ** History trends *)

Lemma counting_loop {A : Type} (test : A -> bool) (xs : list A) (init : Z) :
  fold_left (fun count x => if test x then count + 1 else count) xs init
  = init + Py.len (filter test xs).
Proof.
  unfold Py.len. revert init.
  induction xs as [|x xs IH]; intros init; cbn [fold_left filter].
  - cbn [List.length]. lia.
  - rewrite IH. destruct (test x); cbn [List.length]; lia.
Qed.

Lemma fold_left_same {A B : Type} (f g : A -> B -> A) (xs : list B) (init : A) :
  (forall acc x, f acc x = g acc x) ->
  fold_left f xs init = fold_left g xs init.
Proof.
  intros Hsame. revert init.
  induction xs as [|x xs IH]; intros init; [reflexivity|].
  cbn [fold_left]. now rewrite Hsame, IH.
Qed.

(** [_count_debt_commits] counts the commits whose message contains a debt
    keyword, letter case ignored. *)
Lemma count_debt_commits_spec (commits : list string) :
  _count_debt_commits commits = Py.len (debt_commits_of commits).
Proof.
  unfold _count_debt_commits, debt_commits_of.
  rewrite <- (Z.add_0_l (Py.len _)), <- counting_loop.
  apply fold_left_same. intros count commit.
  unfold commit_message, is_debt_message, Py.any.
  now destruct (Py.contains "|" commit).
Qed.

Lemma split_no_separator (sep : ascii) (s : string) :
  Py.contains (String sep EmptyString) s = false ->
  Py.split sep s = [s].
Proof.
  induction s as [|c s IH]; [reflexivity|].
  cbn [Py.contains String.prefix Py.split].
  destruct (ascii_dec sep c) as [->|Hneq].
  - destruct s; discriminate.
  - intros Hrest. apply Ascii.eqb_neq in Hneq.
    rewrite Ascii.eqb_sym, Hneq. cbn [orb] in Hrest.
    now rewrite (IH Hrest).
Qed.

Lemma split_at_separator (sep : ascii) (s rest : string) :
  Py.contains (String sep EmptyString) s = false ->
  Py.split sep (s ++ String sep rest) = s :: Py.split sep rest.
Proof.
  induction s as [|c s IH].
  - intros _. cbn [append Py.split]. now rewrite Ascii.eqb_refl.
  - cbn [Py.contains String.prefix append Py.split].
    destruct (ascii_dec sep c) as [->|Hneq].
    + destruct s; discriminate.
    + intros Hrest. apply Ascii.eqb_neq in Hneq.
      rewrite Ascii.eqb_sym, Hneq. cbn [orb] in Hrest.
      now rewrite (IH Hrest).
Qed.

Lemma contains_separator (sep : ascii) (s rest : string) :
  Py.contains (String sep EmptyString) (s ++ String sep rest) = true.
Proof.
  induction s as [|c s IH].
  - cbn [append Py.contains String.prefix].
    destruct (ascii_dec sep sep); [|contradiction]. now destruct rest.
  - cbn [append Py.contains]. rewrite IH. apply orb_true_r.
Qed.

(** A line printed by [git log] for fields that hold no [|] is read back
    as those fields: the third piece is the date, the last the message. *)
Lemma commit_line_fields (id author date message : string) :
  Py.contains "|" id = false ->
  Py.contains "|" author = false ->
  Py.contains "|" date = false ->
  Py.contains "|" message = false ->
  Py.split "|"%char (commit_line id author date message)
  = [id; author; date; message]
  /\ commit_message (commit_line id author date message) = Some message.
Proof.
  intros Hid Hauthor Hdate Hmessage.
  assert (Hline : commit_line id author date message
                  = (id ++ String "|"%char
                       (author ++ String "|"%char
                          (date ++ String "|"%char message)))%string)
    by reflexivity.
  assert (Hsplit : Py.split "|"%char (commit_line id author date message)
                   = [id; author; date; message]).
  { rewrite Hline, !split_at_separator by assumption.
    now rewrite split_no_separator. }
  split; [exact Hsplit|].
  unfold commit_message. rewrite Hsplit, Hline.
  now rewrite (contains_separator "|"%char).
Qed.

(** C7. For a commit list of 15 commits over 3 distinct dates, the history
    trend analyser emits no metric when exactly 2 commits are debt commits
    (15 / 3 = 5 is not above 10, and 2 is not above 20% of 15), and emits
    exactly the Technical Debt Commits metric, with value 4 and risk high,
    when exactly 4 are.  The debt commits counted are those whose message
    (the text after the last [|] of the line) contains fix, refactor,
    cleanup, debt, hack, workaround or temp, letter case ignored. *)
Theorem history_trends_of_fifteen_commits
        (log : CompletedProcess) (commits : list string) :
  returncode log = 0 ->
  commits = Py.split newline (Py.strip (stdout log)) ->
  Py.len commits = 15 ->
  Py.len (commit_dates commits) = 3 ->
  _analyze_commit_frequency commits = Float 5
  /\ _count_debt_commits commits = Py.len (debt_commits_of commits)
  /\ (Py.len (debt_commits_of commits) = 2 ->
      get_debt_trends true (Py.Return log) = [])
  /\ (Py.len (debt_commits_of commits) = 4 ->
      get_debt_trends true (Py.Return log)
      = [ {| metric_name := "Technical Debt Commits";
             current_value := Int 4;
             trend := "concerning";
             risk_level := HIGH;
             impact_description :=
               "High ratio of fix/refactor commits suggests accumulating debt"
          |} ]).
Proof.
  intros Hcode Hcommits Hlen Hdates.
  assert (Hfrequency : _analyze_commit_frequency commits = Float 5).
  { unfold _analyze_commit_frequency.
    destruct commits as [|c rest] eqn:Hshape; [discriminate Hlen|].
    rewrite <- Hshape in *. now rewrite Hlen, Hdates. }
  assert (Hrun : get_debt_trends true (Py.Return log)
                 = analyze_commit_patterns commits).
  { unfold get_debt_trends. cbn [negb]. rewrite Hcode. cbn [Z.eqb negb].
    destruct (String.eqb_spec (Py.strip (stdout log)) EmptyString) as [Hempty|_];
      [|now rewrite Hcommits].
    rewrite Hempty in Hcommits. subst commits. discriminate Hlen. }
  split; [exact Hfrequency|]. split; [apply count_debt_commits_spec|].
  rewrite Hrun. unfold analyze_commit_patterns.
  rewrite Hfrequency, count_debt_commits_spec, Hlen.
  split; intros ->; reflexivity.
Qed.

Lemma history_trends_of_fifteen_commits_witness :
  get_debt_trends true (Py.Return (Sample.log_of Sample.commits_2_fixes)) = []
  /\ List.length
       (get_debt_trends true (Py.Return (Sample.log_of Sample.commits_4_fixes)))
     = 1%nat.
Proof.
  assert (Hlog : forall commits,
            returncode (Sample.log_of commits) = 0) by reflexivity.
  assert (Hread2 : Sample.commits_2_fixes
                   = Py.split newline
                       (Py.strip (stdout (Sample.log_of Sample.commits_2_fixes))))
    by (vm_compute; reflexivity).
  assert (Hread4 : Sample.commits_4_fixes
                   = Py.split newline
                       (Py.strip (stdout (Sample.log_of Sample.commits_4_fixes))))
    by (vm_compute; reflexivity).
  assert (Hlen2 : Py.len Sample.commits_2_fixes = 15)
    by (vm_compute; reflexivity).
  assert (Hlen4 : Py.len Sample.commits_4_fixes = 15)
    by (vm_compute; reflexivity).
  assert (Hdates2 : Py.len (commit_dates Sample.commits_2_fixes) = 3)
    by (vm_compute; reflexivity).
  assert (Hdates4 : Py.len (commit_dates Sample.commits_4_fixes) = 3)
    by (vm_compute; reflexivity).
  assert (Hdebt2 : Py.len (debt_commits_of Sample.commits_2_fixes) = 2)
    by (vm_compute; reflexivity).
  assert (Hdebt4 : Py.len (debt_commits_of Sample.commits_4_fixes) = 4)
    by (vm_compute; reflexivity).
  split.
  - destruct (history_trends_of_fifteen_commits
                (Sample.log_of Sample.commits_2_fixes) Sample.commits_2_fixes
                (Hlog _) Hread2 Hlen2 Hdates2) as (_ & _ & Hquiet & _).
    exact (Hquiet Hdebt2).
  - destruct (history_trends_of_fifteen_commits
                (Sample.log_of Sample.commits_4_fixes) Sample.commits_4_fixes
                (Hlog _) Hread4 Hlen4 Hdates4) as (_ & _ & _ & Hfires).
    now rewrite (Hfires Hdebt4).
Defined.

(* ================================================================== *)
(** * Part III: further properties of the code                         *)
(* ================================================================== *)

(** ** More on the structural analyser *)

Lemma visit_node_too_many_parameters (file_path : Path) (node : AST) :
  smells_of_type "too_many_parameters" (visit_node file_path node)
  = if is_FunctionDef node && (Py.len (args_args node) >? 5)
    then [too_many_parameters_smell file_path node (Py.len (args_args node))]
    else [].
Proof.
  unfold visit_node, smells_of_type.
  destruct (is_FunctionDef node), (Py.len (body node) >? 20),
           (Py.len (args_args node) >? 5), (is_If_For_While node),
           (_calculate_nesting_depth node 0 >? 3); reflexivity.
Qed.

Lemma in_smells_of_type (kind : string) (smell : CodeSmell)
      (smells : list CodeSmell) :
  In smell (smells_of_type kind smells) -> In smell smells.
Proof. unfold smells_of_type. intros Hin. now apply filter_In in Hin. Qed.

Lemma flat_map_nil {A B : Type} (f : A -> list B) (xs : list A) :
  (forall x, In x xs -> f x = []) -> flat_map f xs = [].
Proof.
  induction xs as [|x xs IH]; intros Hnil; [reflexivity|].
  cbn [flat_map]. rewrite (Hnil x (or_introl eq_refl)).
  apply IH. intros y Hy. apply Hnil. now right.
Qed.

(** X1. In a file that parses, every [def] declaration with more than 5
    parameters in [args.args] (the ordinary positional parameters; not the
    positional-only, keyword-only or starred ones) is reported as
    [too_many_parameters] at the line of the declaration, with severity
    high, confidence 0.9 and the count in the description; these are all
    the findings of that kind, so 6 parameters are reported and 5 are
    not. *)
Theorem too_many_parameters_reported_for_def
        (ast_parse : string -> Py.result AST) (file_path : Path)
        (content : string) (tree : AST) :
  ast_parse content = Py.Return tree ->
  exists smells,
    _analyze_python_file ast_parse file_path content = Py.Return smells
    /\ smells_of_type "too_many_parameters" smells
       = map (fun node => too_many_parameters_smell file_path node
                            (Py.len (args_args node)))
             (filter (fun node => is_FunctionDef node
                                  && (Py.len (args_args node) >? 5))
                     (walk tree))
    /\ (forall node,
          In node (subnodes tree) -> is_FunctionDef node = true ->
          5 < Py.len (args_args node) ->
          let smell := too_many_parameters_smell file_path node
                         (Py.len (args_args node)) in
          In smell smells
          /\ line_number smell = lineno node
          /\ severity smell = HIGH
          /\ confidence_score smell = 0.9%float
          /\ description smell
             = ("Function '" ++ name_of node ++ "' has "
                ++ Py.str_of_int (Py.len (args_args node))
                ++ " parameters (>5)")%string)
    /\ ((forall node,
           In node (subnodes tree) -> is_FunctionDef node = true ->
           Py.len (args_args node) <= 5) ->
        smells_of_type "too_many_parameters" smells = []).
Proof.
  intros Hparse. exists (flat_map (visit_node file_path) (walk tree)).
  split; [now apply analyze_python_file_parsed|].
  pose proof (smells_of_type_walk file_path "too_many_parameters" _ _
                (walk tree) (visit_node_too_many_parameters file_path))
    as Hkind.
  split; [exact Hkind|]. split.
  - intros node Hin Hdef Hmany smell. split; [|repeat split].
    apply (in_smells_of_type "too_many_parameters"). rewrite Hkind.
    apply (in_map (fun node => too_many_parameters_smell file_path node
                                 (Py.len (args_args node)))).
    apply filter_In. split; [now apply in_walk|].
    rewrite Hdef. cbn [andb]. now apply Z.gtb_lt.
  - intros Hfew. rewrite Hkind, filter_none; [reflexivity|].
    intros node Hin.
    destruct (is_FunctionDef node) eqn:Hdef; [|reflexivity].
    cbn [andb]. rewrite Z.gtb_ltb. apply Z.ltb_ge.
    apply Hfew; [now apply in_walk | assumption].
Qed.

Lemma too_many_parameters_reported_for_def_witness :
  (exists smells,
     _analyze_python_file (Sample.parses_to (Sample.params_module 6))
                          Sample.app_py EmptyString
     = Py.Return smells
     /\ In (too_many_parameters_smell Sample.app_py
              (Sample.def_with_params 6) 6) smells)
  /\ (exists smells,
        _analyze_python_file (Sample.parses_to (Sample.params_module 5))
                             Sample.app_py EmptyString
        = Py.Return smells
        /\ smells_of_type "too_many_parameters" smells = []).
Proof.
  split.
  - destruct (too_many_parameters_reported_for_def
                (Sample.parses_to (Sample.params_module 6)) Sample.app_py
                EmptyString (Sample.params_module 6) eq_refl)
      as (smells & Hrun & _ & Hmany & _).
    exists smells. split; [exact Hrun|].
    apply (Hmany (Sample.def_with_params 6)).
    + cbn. right; left; reflexivity.
    + reflexivity.
    + vm_compute. reflexivity.
  - destruct (too_many_parameters_reported_for_def
                (Sample.parses_to (Sample.params_module 5)) Sample.app_py
                EmptyString (Sample.params_module 5) eq_refl)
      as (smells & Hrun & _ & _ & Hfew).
    exists smells. split; [exact Hrun|].
    apply Hfew. intros node Hin Hdef. cbn in Hin.
    repeat (destruct Hin as [<-|Hin]; [try discriminate Hdef|]);
      [vm_compute; discriminate | contradiction].
Defined.

(** X2. A statement is reported together with the statements around it:
    when an if/for/while/with/try child of an if/for/while node has
    measured depth 3 or more, the node is strictly deeper than the child
    and is reported as [deep_nesting].  So every if/for/while statement
    that directly encloses a reported statement is reported too. *)
Theorem deep_nesting_reported_for_enclosing_statement
        (ast_parse : string -> Py.result AST) (file_path : Path)
        (content : string) (tree parent child : AST) :
  ast_parse content = Py.Return tree ->
  In parent (subnodes tree) ->
  In child (iter_child_nodes parent) ->
  is_If_For_While parent = true ->
  is_nesting child = true ->
  3 <= _calculate_nesting_depth child 0 ->
  _calculate_nesting_depth child 0 < _calculate_nesting_depth parent 0
  /\ exists smells,
       _analyze_python_file ast_parse file_path content = Py.Return smells
       /\ In (deep_nesting_smell file_path parent
                (_calculate_nesting_depth parent 0)) smells.
Proof.
  intros Hparse Hin Hchild Hloop Hnest Hdeep.
  assert (Hdeeper : _calculate_nesting_depth child 0
                    < _calculate_nesting_depth parent 0).
  { rewrite (nesting_depth_zero parent).
    destruct (nesting_loop_bounds
                (fun child => 1 + _calculate_nesting_depth child 0)
                (iter_child_nodes parent) 0) as (_ & Hall & _).
    specialize (Hall child Hchild Hnest). cbn beta in Hall. lia. }
  split; [exact Hdeeper|].
  exists (flat_map (visit_node file_path) (walk tree)).
  split; [now apply analyze_python_file_parsed|].
  apply (in_smells_of_type "deep_nesting").
  rewrite (smells_of_type_walk file_path "deep_nesting" _ _ (walk tree)
             (visit_node_deep_nesting file_path)).
  apply (in_map (fun node => deep_nesting_smell file_path node
                               (_calculate_nesting_depth node 0))).
  apply filter_In. split; [now apply in_walk|].
  rewrite Hloop. cbn [andb]. apply Z.gtb_lt. lia.
Qed.

Lemma deep_nesting_reported_for_enclosing_statement_witness :
  _calculate_nesting_depth (Sample.outer_if 4) 0
  < _calculate_nesting_depth (Sample.outer_if 5) 0
  /\ exists smells,
       _analyze_python_file (Sample.parses_to (Sample.if_nested 5))
                            Sample.app_py (Sample.if_source 5)
       = Py.Return smells
       /\ In (deep_nesting_smell Sample.app_py (Sample.outer_if 5)
                (_calculate_nesting_depth (Sample.outer_if 5) 0)) smells.
Proof.
  apply (deep_nesting_reported_for_enclosing_statement
           (Sample.parses_to (Sample.if_nested 5)) Sample.app_py
           (Sample.if_source 5) (Sample.if_nested 5) (Sample.outer_if 5)
           (Tree.mk_If 2 (Tree.nested_ifs 4 3) [])).
  - reflexivity.
  - cbn. right; left; reflexivity.
  - cbn. right; left; reflexivity.
  - reflexivity.
  - reflexivity.
  - vm_compute. discriminate.
Defined.

(** X3. A file that parses to a tree without any [def], if, for or while
    node yields no structural finding at all. *)
Theorem no_structural_findings_without_constructs
        (ast_parse : string -> Py.result AST) (file_path : Path)
        (content : string) (tree : AST) :
  ast_parse content = Py.Return tree ->
  (forall node, In node (subnodes tree) ->
                is_FunctionDef node = false /\ is_If_For_While node = false) ->
  _analyze_python_file ast_parse file_path content = Py.Return [].
Proof.
  intros Hparse Hplain.
  rewrite (analyze_python_file_parsed _ _ _ _ Hparse). f_equal.
  apply flat_map_nil. intros node Hin.
  apply in_walk in Hin. destruct (Hplain node Hin) as [Hdef Hloop].
  unfold visit_node. now rewrite Hdef, Hloop.
Qed.

Lemma no_structural_findings_without_constructs_witness :
  _analyze_python_file (Sample.parses_to Sample.flat_module) Sample.app_py
                       EmptyString
  = Py.Return [].
Proof.
  apply (no_structural_findings_without_constructs
           (Sample.parses_to Sample.flat_module) Sample.app_py EmptyString
           Sample.flat_module eq_refl).
  intros node Hin. cbn in Hin.
  repeat (destruct Hin as [<-|Hin]; [split; reflexivity|]).
  contradiction.
Defined.

(** X4. Per-file analysis returns no finding at all, the textual ones
    included, when the file cannot be read, and when parsing a [.py] file
    raises anything but a syntax error. *)
Theorem analysis_discarded_on_other_errors
        (ast_parse : string -> Py.result AST)
        (read_text : Path -> Py.result string) (file_path : Path) :
  (forall e, read_text file_path = Py.Raise e ->
             _analyze_file ast_parse read_text file_path = [])
  /\ (forall content name,
        read_text file_path = Py.Return content ->
        suffix file_path = ".py" ->
        ast_parse content = Py.Raise (Py.OtherException name) ->
        _analyze_file ast_parse read_text file_path = []).
Proof.
  split.
  - intros e Hread. unfold _analyze_file. now rewrite Hread.
  - intros content name Hread Hpy Hparse.
    unfold _analyze_file, _analyze_python_file.
    now rewrite Hread, Hpy, Hparse.
Qed.

Lemma analysis_discarded_on_other_errors_witness :
  _analyze_file Sample.crashes (Sample.holds Sample.broken_py) Sample.app_py
  = []
  /\ _analyze_general_patterns Sample.app_py Sample.broken_py <> []
  /\ _analyze_file Sample.crashes Sample.unreadable Sample.app_js = [].
Proof.
  destruct (analysis_discarded_on_other_errors
              Sample.crashes (Sample.holds Sample.broken_py) Sample.app_py)
    as [_ Hparse].
  destruct (analysis_discarded_on_other_errors
              Sample.crashes Sample.unreadable Sample.app_js)
    as [Hread _].
  split; [|split].
  - now apply (Hparse Sample.broken_py "ValueError").
  - vm_compute. discriminate.
  - now apply (Hread (Py.OtherException "PermissionError")).
Defined.

(** ** More on the textual analyser *)

Lemma smells_of_type_marked (file_path : Path) (content : string) :
  smells_of_type "technical_debt_comment"
                 (_analyze_general_patterns file_path content)
  = map (fun '(i, line) => technical_debt_comment_smell file_path i line)
        (marked_lines (Py.split newline content)).
Proof.
  rewrite analyze_general_patterns_parts, !smells_of_type_app.
  rewrite (smells_of_type_same "technical_debt_comment"),
          (smells_of_type_other "technical_debt_comment");
    try (intros [j l]; reflexivity).
  rewrite app_nil_r.
  now destruct (Py.len (Py.split newline content) >? 500).
Qed.

Lemma smells_of_type_overlong (file_path : Path) (content : string) :
  smells_of_type "long_line" (_analyze_general_patterns file_path content)
  = map (fun '(i, line) => long_line_smell file_path i line)
        (overlong_lines (Py.split newline content)).
Proof.
  rewrite analyze_general_patterns_parts, !smells_of_type_app.
  rewrite (smells_of_type_other "long_line"),
          (smells_of_type_same "long_line");
    try (intros [j l]; reflexivity).
  now destruct (Py.len (Py.split newline content) >? 500).
Qed.

Lemma in_enumerate {A : Type} (xs : list A) (start i : Z) (x : A) :
  In (i, x) (Py.enumerate xs start) ->
  start <= i < start + Py.len xs
  /\ nth_error xs (Z.to_nat (i - start)) = Some x.
Proof.
  unfold Py.len. revert start.
  induction xs as [|y xs IH]; intros start Hin; [contradiction|].
  cbn [Py.enumerate] in Hin. cbn [List.length].
  destruct Hin as [Heq|Hin].
  - injection Heq as <- <-. split; [lia|].
    now replace (start - start) with 0 by lia.
  - destruct (IH (start + 1) Hin) as [Hrange Hnth]. split; [lia|].
    replace (Z.to_nat (i - start)) with (S (Z.to_nat (i - (start + 1))))
      by lia.
    exact Hnth.
Qed.

Lemma enumerate_length {A : Type} (xs : list A) (start : Z) :
  List.length (Py.enumerate xs start) = List.length xs.
Proof.
  revert start; induction xs as [|x xs IH]; intros start; [reflexivity|].
  cbn [Py.enumerate List.length]. now rewrite IH.
Qed.

Lemma filter_length_bound {A : Type} (test : A -> bool) (xs : list A) :
  (List.length (filter test xs) <= List.length xs)%nat.
Proof.
  induction xs as [|x xs IH]; [constructor|].
  cbn [filter]. destruct (test x); cbn [List.length]; lia.
Qed.

(** The numbers of the lines kept by a per-line test increase strictly. *)
Lemma kept_line_numbers_increase {A : Type} (test : Z * A -> bool)
      (xs : list A) (start : Z) :
  StronglySorted Z.lt (map fst (filter test (Py.enumerate xs start)))
  /\ Forall (fun i => start <= i)
            (map fst (filter test (Py.enumerate xs start))).
Proof.
  revert start; induction xs as [|x xs IH]; intros start.
  - split; constructor.
  - cbn [Py.enumerate filter].
    destruct (IH (start + 1)) as [Hsorted Hfrom].
    assert (Hlater : Forall (fun i => start < i)
                       (map fst (filter test
                                    (Py.enumerate xs (start + 1))))).
    { eapply Forall_impl; [|exact Hfrom]. cbn beta. intros; lia. }
    assert (Hfrom' : Forall (fun i => start <= i)
                       (map fst (filter test
                                    (Py.enumerate xs (start + 1))))).
    { eapply Forall_impl; [|exact Hfrom]. cbn beta. intros; lia. }
    destruct (test (start, x)); [|now split].
    cbn [map fst]. split; constructor; try assumption. lia.
Qed.

Lemma line_numbers_of_rule (make : Z -> string -> CodeSmell)
      (xs : list (Z * string)) :
  (forall j l, line_number (make j l) = j) ->
  map line_number (map (fun '(j, l) => make j l) xs) = map fst xs.
Proof.
  intros Hline. induction xs as [|[j l] xs IH]; [reflexivity|].
  cbn [map fst]. now rewrite Hline, IH.
Qed.

(** X5. The textual analyser reports [long_line] for exactly the lines
    longer than 120 characters, once each and in line order, with
    severity low, confidence 0.9 and the length in the description: a
    line of 121 characters is reported and a line of 120 is not.  The
    characters counted are all those between two newlines. *)
Theorem long_line_reported_above_120_characters
        (file_path : Path) (content : string) (n : nat) (line : string) :
  nth_error (Py.split newline content) n = Some line ->
  let smells := _analyze_general_patterns file_path content in
  let i := 1 + Z.of_nat n in
  smells_of_type "long_line" smells
  = map (fun '(j, l) => long_line_smell file_path j l)
        (overlong_lines (Py.split newline content))
  /\ (120 < Py.slen line ->
      smells_at "long_line" i smells = [long_line_smell file_path i line])
  /\ (Py.slen line <= 120 -> smells_at "long_line" i smells = [])
  /\ line_number (long_line_smell file_path i line) = i
  /\ severity (long_line_smell file_path i line) = LOW
  /\ confidence_score (long_line_smell file_path i line) = 0.9%float
  /\ description (long_line_smell file_path i line)
     = ("Line length: " ++ Py.str_of_int (Py.slen line)
        ++ " characters (>120)")%string.
Proof.
  intros Hnth smells i. subst smells i.
  assert (Hat : smells_at "long_line" (1 + Z.of_nat n)
                  (_analyze_general_patterns file_path content)
                = if Py.slen line >? 120
                  then [long_line_smell file_path (1 + Z.of_nat n) line]
                  else []).
  { rewrite analyze_general_patterns_parts, !smells_at_app.
    unfold marked_lines, overlong_lines.
    rewrite (smells_at_other "long_line"); [|intros [j l]; reflexivity].
    rewrite (smells_at_line "long_line" (long_line_smell file_path)
               (fun l => Py.slen l >? 120)
               (Py.split newline content) 1 n line);
      try reflexivity; [|assumption].
    destruct (Py.len (Py.split newline content) >? 500); reflexivity. }
  split; [apply smells_of_type_overlong|].
  split; [|split; [|repeat split]].
  - intros Hlong. rewrite Hat. apply Z.gtb_lt in Hlong. now rewrite Hlong.
  - intros Hshort. rewrite Hat.
    replace (Py.slen line >? 120) with false; [reflexivity|].
    symmetry. rewrite Z.gtb_ltb. now apply Z.ltb_ge.
Qed.

Lemma long_line_reported_above_120_characters_witness :
  smells_at "long_line" 1
    (_analyze_general_patterns Sample.app_js (Sample.copies 121 "x"))
  = [long_line_smell Sample.app_js 1 (Sample.copies 121 "x")]
  /\ smells_at "long_line" 1
       (_analyze_general_patterns Sample.app_js (Sample.copies 120 "x"))
     = [].
Proof.
  assert (H121 : nth_error (Py.split newline (Sample.copies 121 "x")) 0
                 = Some (Sample.copies 121 "x")) by (vm_compute; reflexivity).
  assert (H120 : nth_error (Py.split newline (Sample.copies 120 "x")) 0
                 = Some (Sample.copies 120 "x")) by (vm_compute; reflexivity).
  destruct (long_line_reported_above_120_characters
              Sample.app_js _ 0 _ H121) as (_ & Hlong & _).
  destruct (long_line_reported_above_120_characters
              Sample.app_js _ 0 _ H120) as (_ & _ & Hshort & _).
  split.
  - apply Hlong. vm_compute. reflexivity.
  - apply Hshort. vm_compute. discriminate.
Defined.

(** X6. Every finding of the textual analyser is located at a line of the
    file, between 1 and the number of lines, and the analyser reports at
    most one finding for the file as a whole and two per line. *)
Theorem textual_findings_within_file (file_path : Path) (content : string) :
  let lines := Py.split newline content in
  let smells := _analyze_general_patterns file_path content in
  (forall smell, In smell smells -> 1 <= line_number smell <= Py.len lines)
  /\ Py.len smells <= 1 + 2 * Py.len lines
  /\ 1 <= Py.len lines.
Proof.
  intros lines smells. subst smells lines.
  assert (Hlines : 1 <= Py.len (Py.split newline content)).
  { unfold Py.len. destruct content as [|c rest]; [cbn; lia|].
    cbn [Py.split]. destruct (Ascii.eqb c newline); [cbn [List.length]; lia|].
    destruct (Py.split newline rest); cbn [List.length]; lia. }
  rewrite analyze_general_patterns_parts.
  unfold marked_lines, overlong_lines.
  set (lines := Py.split newline content) in *.
  split; [|split; [|exact Hlines]].
  - intros smell Hin.
    apply in_app_or in Hin as [Hin|Hin];
      [|apply in_app_or in Hin as [Hin|Hin]].
    + destruct (Py.len lines >? 500); [|contradiction].
      destruct Hin as [<-|[]]. cbn [large_file_smell line_number]. lia.
    + apply in_map_iff in Hin as ([i line] & <- & Hin).
      apply filter_In in Hin as [Hin _]. apply in_enumerate in Hin.
      cbn [technical_debt_comment_smell line_number]. lia.
    + apply in_map_iff in Hin as ([i line] & <- & Hin).
      apply filter_In in Hin as [Hin _]. apply in_enumerate in Hin.
      cbn [long_line_smell line_number]. lia.
  - unfold Py.len. rewrite !length_app, !length_map.
    pose proof (filter_length_bound
                  (fun '(_, line) => Re.search debt_marker_pattern true line)
                  (Py.enumerate lines 1)) as Hmarked.
    pose proof (filter_length_bound
                  (fun '(_, line) => Py.slen line >? 120)
                  (Py.enumerate lines 1)) as Hlong.
    rewrite enumerate_length in Hmarked, Hlong.
    destruct (Z.of_nat (List.length lines) >? 500); cbn [List.length]; lia.
Qed.

(** X7. The findings come grouped by rule, not by line: first the
    oversized file, then the debt markers, then the long lines; within
    the debt markers and within the long lines the line numbers increase
    strictly. *)
Theorem textual_findings_ordered_by_rule
        (file_path : Path) (content : string) :
  let smells := _analyze_general_patterns file_path content in
  smells = smells_of_type "large_file" smells
           ++ smells_of_type "technical_debt_comment" smells
           ++ smells_of_type "long_line" smells
  /\ StronglySorted Z.lt
       (map line_number (smells_of_type "technical_debt_comment" smells))
  /\ StronglySorted Z.lt
       (map line_number (smells_of_type "long_line" smells)).
Proof.
  intros smells. subst smells.
  rewrite smells_of_type_marked, smells_of_type_overlong.
  split; [|split].
  - rewrite analyze_general_patterns_parts at 1. f_equal.
    rewrite analyze_general_patterns_parts, !smells_of_type_app.
    rewrite (smells_of_type_other "large_file"),
            (smells_of_type_other "large_file");
      try (intros [i line]; reflexivity).
    rewrite !app_nil_r.
    now destruct (Py.len (Py.split newline content) >? 500).
  - rewrite line_numbers_of_rule by reflexivity.
    apply kept_line_numbers_increase.
  - rewrite line_numbers_of_rule by reflexivity.
    apply kept_line_numbers_increase.
Qed.

(** ** More on the history trends *)

Lemma fold_char_newline (c : ascii) :
  Ascii.eqb (fold_char c) newline = Ascii.eqb c newline.
Proof. destruct c as [[] [] [] [] [] [] [] []]; reflexivity. Qed.

Lemma fold_char_pipe (c : ascii) :
  Ascii.eqb (fold_char c) "|" = Ascii.eqb c "|".
Proof. destruct c as [[] [] [] [] [] [] [] []]; reflexivity. Qed.

(** What the analysers look at in a text is blind to the case of the
    letters A-Z: its length, its pieces, its lower case and what a search
    with letter case ignored finds in it. *)
Lemma slen_fold_case (s : string) : Py.slen (fold_case s) = Py.slen s.
Proof.
  unfold Py.slen. f_equal.
  induction s as [|c s IH]; [reflexivity|].
  cbn [fold_case String.length]. now rewrite IH.
Qed.

Lemma lower_fold_case (s : string) : Py.lower (fold_case s) = Py.lower s.
Proof.
  induction s as [|c s IH]; [reflexivity|].
  cbn [fold_case Py.lower]. now rewrite lower_char_fold_char, IH.
Qed.

Lemma split_fold_case (sep : ascii) (s : string) :
  (forall c, Ascii.eqb (fold_char c) sep = Ascii.eqb c sep) ->
  Py.split sep (fold_case s) = map fold_case (Py.split sep s).
Proof.
  intros Hsep. induction s as [|c s IH]; [reflexivity|].
  cbn [fold_case Py.split]. rewrite Hsep, IH.
  destruct (Ascii.eqb c sep); [reflexivity|].
  now destruct (Py.split sep s).
Qed.

Lemma match_here_fold_case (lit s : string) :
  Re.match_here true lit (fold_case s) = Re.match_here true lit s.
Proof.
  revert s; induction lit as [|p lit IH]; intros s; [reflexivity|].
  destruct s as [|c s]; [reflexivity|].
  cbn [fold_case Re.match_here]. now rewrite lower_char_fold_char, IH.
Qed.

Lemma search_fold_case (alternatives : list string) (s : string) :
  Re.search alternatives true (fold_case s) = Re.search alternatives true s.
Proof.
  assert (Hhere : forall t,
            existsb (fun lit => Re.match_here true lit (fold_case t))
                    alternatives
            = existsb (fun lit => Re.match_here true lit t) alternatives).
  { intros t. induction alternatives as [|lit rest IH]; [reflexivity|].
    cbn [existsb]. now rewrite match_here_fold_case, IH. }
  induction s as [|c s IH]; [reflexivity|].
  pose proof (Hhere (String c s)) as Hfirst.
  cbn [fold_case Re.search] in *. now rewrite Hfirst, IH.
Qed.

Lemma contains_pipe_fold_case (s : string) :
  Py.contains "|" (fold_case s) = Py.contains "|" s.
Proof.
  induction s as [|c s IH]; [reflexivity|].
  cbn [fold_case Py.contains String.prefix]. rewrite IH.
  pose proof (fold_char_pipe c) as Hc.
  destruct (ascii_dec "|" (fold_char c)) as [Hfold|Hfold],
           (ascii_dec "|" c) as [Hpipe|Hpipe]; try reflexivity.
  - now destruct s.
  - rewrite <- Hfold, Ascii.eqb_refl in Hc. symmetry in Hc.
    apply Ascii.eqb_eq in Hc. congruence.
  - subst c. exfalso. now apply Hfold.
Qed.

Lemma last_item_fold_case (pieces : list string) :
  Py.last_item (map fold_case pieces) = fold_case (Py.last_item pieces).
Proof.
  unfold Py.last_item. induction pieces as [|piece pieces IH];
    [reflexivity|].
  destruct pieces as [|next pieces]; [reflexivity|].
  cbn [map last] in *. exact IH.
Qed.

Lemma debt_commit_fold_case (commit : string) :
  match commit_message (fold_case commit) with
  | Some message => is_debt_message message
  | None => false
  end
  = match commit_message commit with
    | Some message => is_debt_message message
    | None => false
    end.
Proof.
  unfold commit_message. rewrite contains_pipe_fold_case.
  destruct (Py.contains "|" commit); [|reflexivity].
  rewrite (split_fold_case "|" commit fold_char_pipe), last_item_fold_case.
  unfold is_debt_message. now rewrite lower_fold_case.
Qed.

Lemma filter_length_through {A : Type} (f : A -> A) (test : A -> bool)
      (xs ys : list A) :
  (forall x, test (f x) = test x) ->
  map f xs = map f ys ->
  List.length (filter test xs) = List.length (filter test ys).
Proof.
  intros Htest Hsame.
  assert (Hmap : forall zs,
            List.length (filter test (map f zs))
            = List.length (filter test zs)).
  { induction zs as [|z zs IH]; [reflexivity|].
    cbn [map filter]. rewrite Htest.
    destruct (test z); cbn [List.length]; now rewrite IH. }
  now rewrite <- (Hmap xs), <- (Hmap ys), Hsame.
Qed.

(** A rule that tests each line reports the same lines for a text and for
    its case-folded form, when its test is blind to that case. *)
Lemma located_of_rule (make : Z -> string -> CodeSmell)
      (test : string -> bool) (lines : list string) (start : Z) :
  (forall l, test (fold_case l) = test l) ->
  (forall j l, located (make j (fold_case l)) = located (make j l)) ->
  map located
      (map (fun '(j, l) => make j l)
           (filter (fun '(j, l) => test l)
                   (Py.enumerate (map fold_case lines) start)))
  = map located
        (map (fun '(j, l) => make j l)
             (filter (fun '(j, l) => test l) (Py.enumerate lines start))).
Proof.
  intros Htest Hmake. revert start.
  induction lines as [|l lines IH]; intros start; [reflexivity|].
  cbn [map Py.enumerate filter]. rewrite Htest.
  destruct (test l); cbn [map]; now rewrite ?Hmake, IH.
Qed.

Lemma located_fold_case (file_path : Path) (content : string) :
  map located (_analyze_general_patterns file_path (fold_case content))
  = map located (_analyze_general_patterns file_path content).
Proof.
  rewrite !analyze_general_patterns_parts.
  rewrite (split_fold_case newline content fold_char_newline).
  unfold marked_lines, overlong_lines. rewrite !map_app.
  rewrite (located_of_rule (technical_debt_comment_smell file_path)
             (Re.search debt_marker_pattern true))
    by (try apply search_fold_case; reflexivity).
  rewrite (located_of_rule (long_line_smell file_path)
             (fun l => Py.slen l >? 120))
    by (try (intros l; now rewrite slen_fold_case); reflexivity).
  f_equal. unfold Py.len. rewrite length_map.
  now destruct (Z.of_nat (List.length (Py.split newline content)) >? 500).
Qed.

(** X8. The case of the letters A-Z never matters.  For two texts that
    differ in it only, the textual analyser reports findings of the same
    kinds at the same lines, and two commit lists that differ in it only
    hold the same number of debt commits. *)
Theorem letter_case_is_ignored
        (file_path : Path) (content1 content2 : string)
        (commits1 commits2 : list string) :
  fold_case content1 = fold_case content2 ->
  map fold_case commits1 = map fold_case commits2 ->
  map located (_analyze_general_patterns file_path content1)
  = map located (_analyze_general_patterns file_path content2)
  /\ _count_debt_commits commits1 = _count_debt_commits commits2.
Proof.
  intros Hcontent Hcommits. split.
  - now rewrite <- (located_fold_case file_path content1),
                <- (located_fold_case file_path content2), Hcontent.
  - rewrite !count_debt_commits_spec. unfold debt_commits_of, Py.len.
    f_equal.
    apply (filter_length_through fold_case); [|exact Hcommits].
    apply debt_commit_fold_case.
Qed.

Lemma letter_case_is_ignored_witness :
  map located (_analyze_general_patterns Sample.app_js Sample.mixed_case_text)
  = [("technical_debt_comment", 2)]
  /\ map located
       (_analyze_general_patterns Sample.app_js Sample.other_case_text)
     = [("technical_debt_comment", 2)]
  /\ _count_debt_commits Sample.mixed_case_commits = 1
  /\ _count_debt_commits Sample.other_case_commits = 1.
Proof.
  destruct (letter_case_is_ignored
              Sample.app_js Sample.mixed_case_text Sample.other_case_text
              Sample.mixed_case_commits Sample.other_case_commits
              eq_refl eq_refl) as [Hfindings Hcommits].
  assert (Hfound :
            map located
                (_analyze_general_patterns Sample.app_js
                                           Sample.mixed_case_text)
            = [("technical_debt_comment", 2)]) by (vm_compute; reflexivity).
  assert (Hcount : _count_debt_commits Sample.mixed_case_commits = 1)
    by (vm_compute; reflexivity).
  split; [exact Hfound|]. split; [now rewrite <- Hfindings|].
  split; [exact Hcount | now rewrite <- Hcommits].
Defined.

Lemma filter_length_permutation {A : Type} (test : A -> bool)
      (xs ys : list A) :
  Permutation xs ys ->
  List.length (filter test xs) = List.length (filter test ys).
Proof.
  induction 1 as [|x xs ys _ IH|x y xs|xs ys zs _ IH1 _ IH2];
    cbn [filter].
  - reflexivity.
  - destruct (test x); cbn [List.length]; now rewrite IH.
  - destruct (test x), (test y); reflexivity.
  - now rewrite IH1.
Qed.

(** X9. The number of debt commits lies between 0 and the number of
    commits, is the sum of the numbers of the two halves of a commit list,
    does not depend on the order of the commits, and leaves out every
    line that holds no [|]. *)
Theorem debt_commit_count_is_additive (commits more : list string) :
  0 <= _count_debt_commits commits <= Py.len commits
  /\ _count_debt_commits (commits ++ more)
     = _count_debt_commits commits + _count_debt_commits more
  /\ (Permutation commits more ->
      _count_debt_commits commits = _count_debt_commits more)
  /\ (forall commit,
        Py.contains "|" commit = false ->
        _count_debt_commits (commit :: commits) = _count_debt_commits commits).
Proof.
  rewrite !count_debt_commits_spec. unfold debt_commits_of, Py.len.
  split; [|split; [|split]].
  - pose proof (filter_length_bound
                  (fun commit => match commit_message commit with
                                 | Some message => is_debt_message message
                                 | None => false
                                 end) commits). lia.
  - rewrite filter_app, length_app. lia.
  - intros Hperm. f_equal. now apply filter_length_permutation.
  - intros commit Hplain. rewrite count_debt_commits_spec.
    unfold debt_commits_of, Py.len. cbn [filter].
    unfold commit_message at 1. now rewrite Hplain.
Qed.

Lemma debt_commit_count_is_additive_witness :
  _count_debt_commits (Sample.fix_commits 4 ++ Sample.plain_commits)
  = _count_debt_commits (Sample.plain_commits ++ Sample.fix_commits 4)
  /\ _count_debt_commits ("Merge branch fix-parser" :: Sample.plain_commits)
     = _count_debt_commits Sample.plain_commits.
Proof.
  destruct (debt_commit_count_is_additive
              (Sample.fix_commits 4 ++ Sample.plain_commits)
              (Sample.plain_commits ++ Sample.fix_commits 4))
    as (_ & _ & Hperm & _).
  destruct (debt_commit_count_is_additive Sample.plain_commits [])
    as (_ & _ & _ & Hplain).
  split.
  - apply Hperm. apply Permutation_app_comm.
  - apply Hplain. vm_compute. reflexivity.
Defined.

Lemma set_add_length (d : string) (dates : set string) :
  (List.length (set_add string_dec d dates) <= S (List.length dates))%nat.
Proof.
  induction dates as [|x dates IH]; cbn [set_add List.length]; [lia|].
  destruct (string_dec d x); cbn [List.length]; lia.
Qed.

Lemma commit_dates_loop (commits : list string) (init : set string) :
  let dates :=
    fold_left
      (fun dates commit =>
         if Py.contains "|" commit then
           let parts := Py.split "|"%char commit in
           if Py.len parts >=? 3
           then set_add string_dec (nth 2 parts EmptyString) dates
           else dates
         else dates)
      commits init in
  (NoDup init -> NoDup dates)
  /\ (forall d, In d dates
                <-> In d init
                    \/ exists commit, In commit commits
                                      /\ line_date commit = Some d)
  /\ (List.length dates <= List.length init + List.length commits)%nat.
Proof.
  revert init; induction commits as [|c commits IH]; intros init;
    cbn [fold_left].
  - cbn zeta. split; [auto|]. split; [|cbn [List.length]; lia].
    intros d. split; [now left|]. intros [Hin|(commit & [] & _)]. exact Hin.
  - specialize (IH (if Py.contains "|" c then
                      let parts := Py.split "|"%char c in
                      if Py.len parts >=? 3
                      then set_add string_dec (nth 2 parts EmptyString) init
                      else init
                    else init)).
    cbn zeta in *. destruct IH as (Hnodup & Hin & Hlen).
    assert (Hstep :
              (line_date c = None
               /\ (if Py.contains "|" c then
                     if Py.len (Py.split "|"%char c) >=? 3
                     then set_add string_dec
                            (nth 2 (Py.split "|"%char c) EmptyString) init
                     else init
                   else init) = init)
              \/ (exists d, line_date c = Some d
                   /\ (if Py.contains "|" c then
                         if Py.len (Py.split "|"%char c) >=? 3
                         then set_add string_dec
                                (nth 2 (Py.split "|"%char c) EmptyString) init
                         else init
                       else init) = set_add string_dec d init)).
    { unfold line_date. cbn zeta.
      destruct (Py.contains "|" c); [|now left].
      destruct (Py.len (Py.split "|"%char c) >=? 3); [|now left].
      right. eexists. split; reflexivity. }
    destruct Hstep as [[Hnone Hsame]|(d0 & Hsome & Hadd)].
    + rewrite Hsame in *. split; [exact Hnodup|]. split.
      * intros d. rewrite Hin. split.
        -- intros [H|(commit & Hc & Hd)]; [now left|].
           right. exists commit. split; [now right | exact Hd].
        -- intros [H|(commit & [<-|Hc] & Hd)]; [now left | congruence |].
           right. now exists commit.
      * cbn [List.length]. lia.
    + rewrite Hadd in *. split; [|split].
      * intros Hinit. apply Hnodup. now apply set_add_nodup.
      * intros d. rewrite Hin, set_add_iff. split.
        -- intros [[->|H]|(commit & Hc & Hd)].
           ++ right. exists c. split; [now left | exact Hsome].
           ++ now left.
           ++ right. exists commit. split; [now right | exact Hd].
        -- intros [H|(commit & [<-|Hc] & Hd)].
           ++ left. now right.
           ++ left. left. congruence.
           ++ right. now exists commit.
      * pose proof (set_add_length d0 init). cbn [List.length]. lia.
Qed.

(** X10. The dates collected from a commit list are pairwise distinct, at
    most as many as the commits, and exactly the third [|]-separated
    pieces of the lines that hold at least two [|]. *)
Theorem commit_dates_are_distinct_third_pieces (commits : list string) :
  NoDup (commit_dates commits)
  /\ Py.len (commit_dates commits) <= Py.len commits
  /\ (forall d, In d (commit_dates commits)
                <-> exists commit, In commit commits
                                   /\ line_date commit = Some d).
Proof.
  unfold commit_dates.
  destruct (commit_dates_loop commits (empty_set string))
    as (Hnodup & Hin & Hlen).
  cbn zeta in Hnodup, Hin, Hlen.
  split; [apply Hnodup; constructor|]. split.
  - change (List.length (empty_set string)) with 0%nat in Hlen.
    unfold Py.len in *. lia.
  - intros d. rewrite Hin. split; [|now right].
    intros [[]|Hsome]. exact Hsome.
Qed.

Lemma split_ends_with (sep : ascii) (head tail : string) :
  Py.contains (String sep EmptyString) tail = false ->
  exists first others,
    Py.split sep (head ++ String sep tail) = (first :: others) ++ [tail].
Proof.
  intros Htail. induction head as [|c head IH].
  - cbn [append Py.split]. rewrite Ascii.eqb_refl.
    rewrite (split_no_separator sep tail Htail).
    now exists EmptyString, [].
  - destruct IH as (first & others & IH).
    cbn [append Py.split]. rewrite IH. cbn [app].
    destruct (Ascii.eqb c sep).
    + now exists EmptyString, (first :: others).
    + now exists (String c first), others.
Qed.

Lemma last_item_of_snoc (pieces : list string) (tail : string) :
  Py.last_item (pieces ++ [tail]) = tail.
Proof. unfold Py.last_item. apply last_last. Qed.

(** X11. The message examined for debt keywords is the text after the
    last [|] of the line, whatever comes before it: so of a commit
    subject that itself holds a [|], only the part after it is
    examined. *)
Theorem subject_read_after_last_pipe (head tail : string) :
  Py.contains "|" tail = false ->
  commit_message (head ++ "|" ++ tail) = Some tail
  /\ _count_debt_commits [(head ++ "|" ++ tail)%string]
     = (if is_debt_message tail then 1 else 0).
Proof.
  intros Htail.
  assert (Hline : (head ++ "|" ++ tail)%string
                  = (head ++ String "|"%char tail)%string) by reflexivity.
  assert (Hmessage : commit_message (head ++ "|" ++ tail) = Some tail).
  { unfold commit_message. rewrite Hline.
    rewrite (contains_separator "|"%char).
    destruct (split_ends_with "|"%char head tail Htail)
      as (first & others & ->).
    now rewrite last_item_of_snoc. }
  split; [exact Hmessage|].
  rewrite count_debt_commits_spec. unfold debt_commits_of, Py.len.
  cbn [filter]. rewrite Hmessage.
  now destruct (is_debt_message tail).
Qed.

Lemma subject_read_after_last_pipe_witness :
  commit_message "c1|Ann|2024-03-01|Fix reader for a|b separators"
  = Some "b separators"
  /\ _count_debt_commits ["c1|Ann|2024-03-01|Fix reader for a|b separators"]
     = 0.
Proof.
  exact (subject_read_after_last_pipe
           "c1|Ann|2024-03-01|Fix reader for a" "b separators" eq_refl).
Defined.

Lemma log_line_fields (c : Commit) :
  pipe_free c ->
  commit_message (log_line c) = Some (commit_subject c)
  /\ line_date (log_line c) = Some (commit_date c).
Proof.
  intros (Hid & Hauthor & Hdate & Hsubject).
  destruct (commit_line_fields _ _ _ _ Hid Hauthor Hdate Hsubject)
    as [Hsplit Hmessage].
  split; [exact Hmessage|].
  unfold line_date, log_line. rewrite Hsplit.
  unfold commit_message in Hmessage.
  destruct (Py.contains "|" (commit_line (commit_id c) (commit_author c)
                                         (commit_date c) (commit_subject c)));
    [reflexivity | discriminate].
Qed.

(** X12. Commits whose fields hold no [|] are read back from their log
    lines as they were written: the message of each line is the subject
    of its commit and its date the commit date, so the debt commits
    counted are the commits whose subject is a debt message, and the
    dates collected are the commit dates. *)
Theorem log_lines_read_back (commits : list Commit) :
  Forall pipe_free commits ->
  (forall c, In c commits ->
             commit_message (log_line c) = Some (commit_subject c)
             /\ line_date (log_line c) = Some (commit_date c))
  /\ _count_debt_commits (map log_line commits)
     = Py.len (filter (fun c => is_debt_message (commit_subject c)) commits)
  /\ (forall d, In d (commit_dates (map log_line commits))
                <-> In d (map commit_date commits)).
Proof.
  intros Hfree. rewrite Forall_forall in Hfree.
  split; [|split].
  - intros c Hin. now apply log_line_fields, Hfree.
  - rewrite count_debt_commits_spec. unfold debt_commits_of, Py.len.
    f_equal. induction commits as [|c commits IH]; [reflexivity|].
    cbn [map filter].
    destruct (log_line_fields c (Hfree c (or_introl eq_refl))) as [-> _].
    destruct (is_debt_message (commit_subject c)); cbn [List.length];
      rewrite IH by (intros c' Hc'; apply Hfree; now right); reflexivity.
  - intros d.
    destruct (commit_dates_loop (map log_line commits) (empty_set string))
      as (_ & Hin & _).
    cbn zeta in Hin. unfold commit_dates. rewrite Hin. split.
    + intros [[]|(line & Hline & Hdate)].
      apply in_map_iff in Hline as (c & <- & Hc).
      destruct (log_line_fields c (Hfree c Hc)) as [_ Hread].
      rewrite Hread in Hdate. injection Hdate as <-.
      now apply in_map.
    + intros Hd. right. apply in_map_iff in Hd as (c & <- & Hc).
      exists (log_line c). split; [now apply in_map|].
      now apply log_line_fields, Hfree.
Qed.

Lemma log_lines_read_back_witness :
  _count_debt_commits (map log_line Sample.three_commits) = 1
  /\ (In "2024-03-02" (commit_dates (map log_line Sample.three_commits))
      <-> In "2024-03-02" (map commit_date Sample.three_commits)).
Proof.
  assert (Hfree : Forall pipe_free Sample.three_commits)
    by (repeat constructor).
  destruct (log_lines_read_back Sample.three_commits Hfree)
    as (_ & Hcount & Hdates).
  split; [rewrite Hcount; reflexivity | apply Hdates].
Defined.

(** X13. The history trend analyser never fails and never emits more
    than two metrics: nothing when the directory is no repository, when
    running git raises, when git exits with a code other than 0 or prints
    only white space; otherwise the metrics of the lines of the trimmed
    output, each either High Commit Frequency with risk medium or
    Technical Debt Commits with risk high and the number of debt commits
    as value, the former first. *)
Theorem history_trends_shape
        (is_git_repository : bool) (git_log : Py.result CompletedProcess) :
  let metrics := get_debt_trends is_git_repository git_log in
  (List.length metrics <= 2)%nat
  /\ (is_git_repository = false -> metrics = [])
  /\ (forall e, git_log = Py.Raise e -> metrics = [])
  /\ (forall log, git_log = Py.Return log ->
                  returncode log <> 0 -> metrics = [])
  /\ (forall log, git_log = Py.Return log ->
                  Py.strip (stdout log) = EmptyString -> metrics = [])
  /\ (forall log, git_log = Py.Return log -> is_git_repository = true ->
                  returncode log = 0 ->
                  Py.strip (stdout log) <> EmptyString ->
                  metrics = analyze_commit_patterns
                              (Py.split newline (Py.strip (stdout log))))
  /\ (forall commits,
        exists frequent indebted,
          analyze_commit_patterns commits = frequent ++ indebted
          /\ (frequent = []
              \/ exists x,
                   frequent
                   = [ {| metric_name := "High Commit Frequency";
                          current_value := x;
                          trend := "increasing";
                          risk_level := MEDIUM;
                          impact_description :=
                            "Rapid commits may indicate rushed development"
                       |} ])
          /\ (indebted = []
              \/ indebted
                 = [ {| metric_name := "Technical Debt Commits";
                        current_value := Int (_count_debt_commits commits);
                        trend := "concerning";
                        risk_level := HIGH;
                        impact_description :=
                          "High ratio of fix/refactor commits suggests accumulating debt"
                     |} ])).
Proof.
  intros metrics.
  assert (Hshape : forall commits,
            exists frequent indebted,
              analyze_commit_patterns commits = frequent ++ indebted
              /\ (frequent = []
                  \/ exists x,
                       frequent
                       = [ {| metric_name := "High Commit Frequency";
                              current_value := x;
                              trend := "increasing";
                              risk_level := MEDIUM;
                              impact_description :=
                                "Rapid commits may indicate rushed development"
                           |} ])
              /\ (indebted = []
                  \/ indebted
                     = [ {| metric_name := "Technical Debt Commits";
                            current_value := Int (_count_debt_commits commits);
                            trend := "concerning";
                            risk_level := HIGH;
                            impact_description :=
                              "High ratio of fix/refactor commits suggests accumulating debt"
                         |} ])).
  { intros commits. unfold analyze_commit_patterns. cbn zeta.
    destruct (number_gt (_analyze_commit_frequency commits) 10);
      destruct (PrimFloat.ltb _ _).
    - eexists (cons _ nil), (cons _ nil). split; [reflexivity|]. eauto.
    - eexists (cons _ nil), nil. split; [reflexivity|]. eauto.
    - eexists nil, (cons _ nil). split; [reflexivity|]. eauto.
    - exists nil, nil. split; [reflexivity|]. eauto. }
  assert (Hlen : forall commits,
            (List.length (analyze_commit_patterns commits) <= 2)%nat).
  { intros commits.
    destruct (Hshape commits)
      as (frequent & indebted & -> & [->|(x & ->)] & [->| ->]);
      cbn [app List.length]; lia. }
  subst metrics. unfold get_debt_trends.
  split; [|split; [|split; [|split; [|split; [|split]]]]].
  - destruct is_git_repository; cbn [negb]; [|cbn; lia].
    destruct git_log as [log|e]; [|cbn; lia].
    destruct (negb (returncode log =? 0)); [cbn; lia|].
    destruct (String.eqb _ _); [cbn; lia | apply Hlen].
  - now intros ->.
  - intros e ->. now destruct is_git_repository.
  - intros log -> Hcode. destruct is_git_repository; [|reflexivity].
    cbn [negb]. apply Z.eqb_neq in Hcode. now rewrite Hcode.
  - intros log -> Hblank. destruct is_git_repository; [|reflexivity].
    cbn [negb]. rewrite Hblank.
    now destruct (negb (returncode log =? 0)).
  - intros log -> -> Hcode Hout. cbn [negb]. rewrite Hcode.
    cbn [Z.eqb negb]. apply String.eqb_neq in Hout. now rewrite Hout.
  - exact Hshape.
Qed.

(** ** The corpus scanner *)

Section CorpusScannerProperties.

Variable ast_parse : string -> Py.result AST.
Variable read_text : Path -> Py.result string.
Variable path_exists : string -> bool.
Variable rglob : string -> string -> list Path.
Variable stat_size : Path -> option Z.

Lemma get_code_files_filter (config : DetectiveConfig) :
  _get_code_files path_exists rglob stat_size config
  = if path_exists (project_path config)
    then filter (eligible stat_size config) (files_found rglob config)
    else [].
Proof.
  unfold _get_code_files, files_found.
  destruct (path_exists (project_path config)); [|reflexivity].
  cbn [negb]. rewrite append_loop. cbn [app].
  rewrite (fold_left_same _
             (fun acc file_path =>
                if eligible stat_size config file_path
                then acc ++ [id file_path] else acc)).
  - rewrite guarded_append_loop. cbn [app]. apply map_id.
  - intros acc file_path. unfold eligible, Py.any, id.
    destruct (existsb _ (exclude_patterns config)); [reflexivity|].
    cbn [negb andb]. destruct (stat_size file_path) as [size|]; [|reflexivity].
    now replace (max_file_size_mb config * 1024 * 1024)
      with (max_file_size_mb config * 1048576) by lia.
Qed.

Lemma scan_codebase_flat_map (config : DetectiveConfig) :
  scan_codebase ast_parse read_text path_exists rglob stat_size config
  = flat_map (_analyze_file ast_parse read_text)
             (_get_code_files path_exists rglob stat_size config).
Proof. unfold scan_codebase. now rewrite append_loop. Qed.

(** X14. The files handed to the analysers are, in the order found and
    without removing repetitions, the files found under an existing root
    for the configured extensions in whose path no exclusion pattern
    occurs and whose size can be read and is strictly below
    [max_file_size_mb * 1024 * 1024] bytes.  A root that does not exist
    gives no file. *)
Theorem code_files_are_the_eligible_ones (config : DetectiveConfig) :
  let files := _get_code_files path_exists rglob stat_size config in
  (path_exists (project_path config) = false -> files = [])
  /\ (path_exists (project_path config) = true ->
      files = filter (eligible stat_size config) (files_found rglob config))
  /\ (forall file_path,
        In file_path files
        <-> path_exists (project_path config) = true
            /\ (exists ext,
                  In ext (file_extensions config)
                  /\ In file_path
                        (rglob (project_path config) ("*" ++ ext)))
            /\ (forall pattern,
                  In pattern (exclude_patterns config) ->
                  Py.contains pattern (path_str file_path) = false)
            /\ (exists st_size,
                  stat_size file_path = Some st_size
                  /\ st_size < max_file_size_mb config * 1024 * 1024)).
Proof.
  intros files. subst files. rewrite get_code_files_filter.
  split; [now intros ->|]. split; [now intros ->|].
  intros file_path.
  destruct (path_exists (project_path config)).
  - rewrite filter_In. unfold files_found. rewrite in_flat_map.
    unfold eligible.
    rewrite andb_true_iff, negb_true_iff.
    split.
    + intros (Hfound & Hkeep & Hsize). split; [reflexivity|].
      split; [exact Hfound|]. split.
      * intros pattern Hpattern.
        destruct (Py.contains pattern (path_str file_path)) eqn:Hocc;
          [|reflexivity].
        assert (Hsome : existsb (fun pattern =>
                                   Py.contains pattern (path_str file_path))
                                (exclude_patterns config) = true)
          by (apply existsb_exists; now exists pattern).
        congruence.
      * destruct (stat_size file_path) as [size|]; [|discriminate].
        exists size. split; [reflexivity|]. apply Z.ltb_lt in Hsize. lia.
    + intros (_ & Hfound & Hkeep & size & Hstat & Hsize).
      split; [exact Hfound|]. split.
      * destruct (existsb _ (exclude_patterns config)) eqn:Hsome;
          [|reflexivity].
        apply existsb_exists in Hsome as (pattern & Hpattern & Hocc).
        rewrite (Hkeep pattern Hpattern) in Hocc. discriminate.
      * rewrite Hstat. apply Z.ltb_lt. lia.
  - split; [contradiction|]. now intros (Hexists & _).
Qed.

Lemma analyze_file_names_the_file (path : Path) (smell : CodeSmell) :
  In smell (_analyze_file ast_parse read_text path) ->
  file_path smell = path_str path.
Proof.
  assert (Htextual : forall content,
            In smell (_analyze_general_patterns path content) ->
            file_path smell = path_str path).
  { intros content. rewrite analyze_general_patterns_parts. intros Hin.
    apply in_app_or in Hin as [Hin|Hin];
      [|apply in_app_or in Hin as [Hin|Hin]].
    - destruct (Py.len (Py.split newline content) >? 500); [|contradiction].
      now destruct Hin as [<-|[]].
    - now apply in_map_iff in Hin as ([i line] & <- & _).
    - now apply in_map_iff in Hin as ([i line] & <- & _). }
  destruct (analyze_file_cases ast_parse read_text path)
    as [->|(content & _ & [[_ ->]|[_ (smells & Hrun & ->)]])]; intros Hin.
  - contradiction.
  - now apply (Htextual content).
  - apply in_app_or in Hin as [Hin|Hin]; [|now apply (Htextual content)].
    unfold _analyze_python_file in Hrun.
    destruct (ast_parse content) as [tree|[|name]]; [| |discriminate].
    + injection Hrun as <-. rewrite append_loop in Hin. cbn [app] in Hin.
      apply in_flat_map in Hin as (node & _ & Hin). unfold visit_node in Hin.
      repeat (apply in_app_or in Hin as [Hin|Hin]);
        repeat match type of Hin with
               | In _ (if ?c then _ else _) => destruct c
               end;
        try contradiction; now destruct Hin as [<-|[]].
    + injection Hrun as <-. now destruct Hin as [<-|[]].
Qed.

(** X15. Every finding of a scan is a finding of per-file analysis of one
    of the eligible files, names that file, and has the severity and
    confidence of its kind; the findings follow the order of the files.
    Scanning a root that does not exist gives no finding. *)
Theorem scan_findings_come_from_eligible_files (config : DetectiveConfig) :
  let files := _get_code_files path_exists rglob stat_size config in
  let smells :=
    scan_codebase ast_parse read_text path_exists rglob stat_size config in
  smells = flat_map (_analyze_file ast_parse read_text) files
  /\ (forall smell,
        In smell smells ->
        emitted smell
        /\ exists path,
             In path files
             /\ In smell (_analyze_file ast_parse read_text path)
             /\ file_path smell = path_str path)
  /\ (path_exists (project_path config) = false -> smells = []).
Proof.
  intros files smells. subst files smells. rewrite scan_codebase_flat_map.
  split; [reflexivity|]. split.
  - intros smell Hin. apply in_flat_map in Hin as (path & Hpath & Hin).
    split; [now apply (analyze_file_emitted ast_parse read_text path)|].
    exists path. split; [exact Hpath|]. split; [exact Hin|].
    now apply analyze_file_names_the_file.
  - intros Habsent. rewrite get_code_files_filter, Habsent. reflexivity.
Qed.

(** X16. Extensions are looked up one after the other and the results
    are never merged: the files (and so the findings) for a list of
    extensions are those for its first part followed by those for the
    rest, so a file found under two extensions, or an extension listed
    twice, is analysed and reported twice. *)
Theorem scan_repeats_files_found_twice
        (config : DetectiveConfig) (first rest : list string) :
  _get_code_files path_exists rglob stat_size
                  (with_extensions config (first ++ rest))
  = _get_code_files path_exists rglob stat_size
                    (with_extensions config first)
    ++ _get_code_files path_exists rglob stat_size
                       (with_extensions config rest)
  /\ scan_codebase ast_parse read_text path_exists rglob stat_size
                   (with_extensions config (first ++ rest))
     = scan_codebase ast_parse read_text path_exists rglob stat_size
                     (with_extensions config first)
       ++ scan_codebase ast_parse read_text path_exists rglob stat_size
                        (with_extensions config rest).
Proof.
  assert (Hfiles :
            _get_code_files path_exists rglob stat_size
                            (with_extensions config (first ++ rest))
            = _get_code_files path_exists rglob stat_size
                              (with_extensions config first)
              ++ _get_code_files path_exists rglob stat_size
                                 (with_extensions config rest)).
  { rewrite !get_code_files_filter. unfold files_found.
    cbn [with_extensions project_path file_extensions].
    destruct (path_exists (project_path config)); [|reflexivity].
    rewrite flat_map_app, filter_app. reflexivity. }
  split; [exact Hfiles|].
  rewrite !scan_codebase_flat_map, Hfiles. apply flat_map_app.
Qed.

End CorpusScannerProperties.

Lemma filter_permutation {A : Type} (test : A -> bool) (xs ys : list A) :
  Permutation xs ys -> Permutation (filter test xs) (filter test ys).
Proof.
  induction 1 as [|x xs ys _ IH|x y xs|xs ys zs _ IH1 _ IH2];
    cbn [filter].
  - constructor.
  - destruct (test x); [now constructor | exact IH].
  - destruct (test x), (test y); try reflexivity. apply perm_swap.
  - now transitivity (filter test ys).
Qed.

Lemma penalty_between_counts (smells : list CodeSmell) :
  let t := Py.len smells in
  let c := Py.len (filter (fun s => severity_eqb (severity s) CRITICAL)
                          smells) in
  let h := Py.len (filter (fun s => severity_eqb (severity s) HIGH) smells) in
  0 <= c /\ 0 <= h /\ c + h <= t
  /\ 10 * c + 5 * h + (t - c - h) <= total_penalty smells
  /\ total_penalty smells <= 10 * c + 5 * h + 2 * (t - c - h).
Proof.
  unfold Py.len, total_penalty.
  induction smells as [|s smells IH]; cbn [filter fold_right List.length].
  - cbn. lia.
  - cbn zeta in *. destruct (severity s);
      cbn [severity_eqb penalty List.length]; lia.
Qed.

(** X17. The summary of a scan does not depend on the order in which the
    files are found: when two runs find the same files in different
    orders, their findings are permutations of each other and the quick
    scan reports the same totals and the same health score. *)
Theorem scan_summary_independent_of_file_order
        (ast_parse : string -> Py.result AST)
        (read_text : Path -> Py.result string)
        (path_exists : string -> bool)
        (rglob1 rglob2 : string -> string -> list Path)
        (stat_size : Path -> option Z) (config : DetectiveConfig) :
  Permutation (files_found rglob1 config) (files_found rglob2 config) ->
  Permutation
    (scan_codebase ast_parse read_text path_exists rglob1 stat_size config)
    (scan_codebase ast_parse read_text path_exists rglob2 stat_size config)
  /\ quick_scan ast_parse read_text path_exists rglob1 stat_size config
     = quick_scan ast_parse read_text path_exists rglob2 stat_size config.
Proof.
  intros Hfound.
  assert (Hsmells :
            Permutation
              (scan_codebase ast_parse read_text path_exists rglob1
                             stat_size config)
              (scan_codebase ast_parse read_text path_exists rglob2
                             stat_size config)).
  { rewrite !scan_codebase_flat_map, !get_code_files_filter.
    destruct (path_exists (project_path config)); [|reflexivity].
    apply Permutation_flat_map. now apply filter_permutation. }
  split; [exact Hsmells|].
  unfold quick_scan, Py.len.
  rewrite (Permutation_length Hsmells).
  rewrite (filter_length_permutation _ _ _ Hsmells).
  rewrite (filter_length_permutation
             (fun s => severity_eqb (severity s) HIGH) _ _ Hsmells).
  rewrite !score_formula.
  rewrite (total_penalty_permutation _ _ (Permutation_map severity Hsmells)).
  reflexivity.
Qed.

Lemma scan_summary_independent_of_file_order_witness :
  quick_scan Sample.rejects (Sample.holds Sample.broken_py)
             Sample.project_exists Sample.project_rglob Sample.project_stat
             (default_config "/proj" "standard")
  = quick_scan Sample.rejects (Sample.holds Sample.broken_py)
               Sample.project_exists
               (fun root pattern => rev (Sample.project_rglob root pattern))
               Sample.project_stat (default_config "/proj" "standard").
Proof.
  apply (scan_summary_independent_of_file_order
           Sample.rejects (Sample.holds Sample.broken_py)
           Sample.project_exists Sample.project_rglob
           (fun root pattern => rev (Sample.project_rglob root pattern))
           Sample.project_stat (default_config "/proj" "standard")).
  vm_compute.
  etransitivity; [apply perm_swap|].
  do 2 apply perm_skip. apply perm_swap.
Defined.

(** X18. The four numbers of a quick scan fit together: the critical and
    the high findings are among the total; the health score is 100 exactly
    when nothing was found; and it lies between the score that the
    remaining findings would give if all were medium and the score they
    would give if all were low. *)
Theorem quick_scan_summary_is_consistent
        (ast_parse : string -> Py.result AST)
        (read_text : Path -> Py.result string)
        (path_exists : string -> bool)
        (rglob : string -> string -> list Path)
        (stat_size : Path -> option Z) (config : DetectiveConfig) :
  let summary :=
    quick_scan ast_parse read_text path_exists rglob stat_size config in
  let t := dict_get summary "total_issues" in
  let c := dict_get summary "critical" in
  let h := dict_get summary "high" in
  let score := dict_get summary "health_score" in
  t = Py.len (scan_codebase ast_parse read_text path_exists rglob stat_size
                            config)
  /\ 0 <= c /\ 0 <= h /\ c + h <= t
  /\ (score = 100 <-> t = 0)
  /\ Z.max 0 (100 - (10 * c + 5 * h + 2 * (t - c - h))) <= score
  /\ score <= Z.max 0 (100 - (10 * c + 5 * h + (t - c - h))).
Proof.
  intros summary t c h score. subst summary t c h score.
  unfold quick_scan. cbn [dict_get String.eqb Ascii.eqb Bool.eqb].
  set (smells := scan_codebase ast_parse read_text path_exists rglob
                               stat_size config).
  destruct (penalty_between_counts smells)
    as (Hc & Hh & Hsum & Hlow & Hhigh).
  cbn zeta in *. rewrite score_formula.
  split; [reflexivity|]. repeat split; try lia.
Qed.

(** ** Sorting *)

Section SortedByKey.

Context {A : Type}.
Variable key : A -> Z.

Lemma in_skipn {B : Type} (n : nat) (xs : list B) (b : B) :
  In b (skipn n xs) -> In b xs.
Proof.
  revert xs; induction n as [|n IH]; intros xs Hin; [exact Hin|].
  destruct xs as [|x xs]; [contradiction|]. right. now apply IH.
Qed.

Lemma insert_sorted_permutation (goes_before : A -> A -> bool) (x : A)
      (xs : list A) :
  Permutation (Py.insert_sorted goes_before x xs) (x :: xs).
Proof.
  induction xs as [|y xs IH]; cbn [Py.insert_sorted]; [reflexivity|].
  destruct (goes_before y x); [|reflexivity].
  rewrite IH. apply perm_swap.
Qed.

Lemma sorted_permutation (goes_before : A -> A -> bool) (xs : list A) :
  Permutation (Py.sorted goes_before xs) xs.
Proof.
  unfold Py.sorted. induction xs as [|x xs IH]; cbn [fold_right];
    [reflexivity|].
  rewrite insert_sorted_permutation. now constructor.
Qed.

Lemma insert_sorted_descending (x : A) (xs : list A) :
  StronglySorted (fun a b => key b <= key a) xs ->
  StronglySorted (fun a b => key b <= key a)
                 (Py.insert_sorted (fun y x => key x <? key y) x xs).
Proof.
  induction 1 as [|y xs Hsorted IH Hall]; cbn [Py.insert_sorted].
  - repeat constructor.
  - destruct (key x <? key y) eqn:Hcmp.
    + apply Z.ltb_lt in Hcmp. constructor; [exact IH|].
      eapply Permutation_Forall;
        [symmetry; apply insert_sorted_permutation|].
      constructor; [lia | exact Hall].
    + apply Z.ltb_ge in Hcmp. constructor; [now constructor|].
      constructor; [exact Hcmp|].
      eapply Forall_impl; [|exact Hall]. cbn beta. intros; lia.
Qed.

Lemma sorted_descending (xs : list A) :
  StronglySorted (fun a b => key b <= key a) (Py.sorted (fun y x => key x <? key y) xs).
Proof.
  unfold Py.sorted. induction xs as [|x xs IH]; cbn [fold_right];
    [constructor|].
  now apply insert_sorted_descending.
Qed.




(** In a list sorted by descending key, no item behind the first [n] has
    a larger key than one of the first [n]. *)
Lemma firstn_of_descending (n : nat) (xs : list A) :
  StronglySorted (fun a b => key b <= key a) xs ->
  forall a b, In a (firstn n xs) -> In b (skipn n xs) -> key b <= key a.
Proof.
  intros Hsorted. revert n.
  induction Hsorted as [|x xs _ IH Hall]; intros n a b Ha Hb.
  - destruct n; contradiction.
  - destruct n as [|n]; [contradiction|].
    cbn [firstn skipn] in Ha, Hb. destruct Ha as [<-|Ha].
    + rewrite Forall_forall in Hall. apply Hall.
      eapply (in_skipn n). exact Hb.
    + now apply (IH n).
Qed.

End SortedByKey.

(** ** Grouping the findings *)

Lemma not_in_dict_spec (key : string) (d : smell_dict) :
  not_in_dict key d = true <-> ~ In key (map fst d).
Proof.
  unfold not_in_dict. rewrite negb_true_iff.
  induction d as [|[k found] d IH]; cbn [existsb map fst In].
  - split; [tauto | reflexivity].
  - rewrite orb_false_iff, IH. destruct (String.eqb_spec k key) as [->|Hneq].
    + split; [intros [Hfalse _]; discriminate | intros Hnot; tauto].
    + split; [intros [_ Hnot] [Heq|Hin]; tauto | intros Hnot; tauto].
Qed.

Lemma dict_get_list_new_key (d : smell_dict) (key key' : string) :
  dict_get_list (d ++ [(key, [])]) key' = dict_get_list d key'.
Proof.
  induction d as [|[k found] d IH]; cbn [app dict_get_list].
  - now destruct (String.eqb key key').
  - now destruct (String.eqb k key').
Qed.

Lemma dict_append_get (d : smell_dict) (key key' : string)
      (smell : CodeSmell) :
  In key (map fst d) ->
  dict_get_list (dict_append d key smell) key'
  = dict_get_list d key' ++ (if String.eqb key key' then [smell] else []).
Proof.
  induction d as [|[k found] d IH]; cbn [map fst In]; [contradiction|].
  intros Hin. cbn [dict_append dict_get_list].
  destruct (String.eqb_spec k key) as [->|Hneq].
  - cbn [dict_get_list]. destruct (String.eqb key key'); [reflexivity|].
    now rewrite app_nil_r.
  - cbn [dict_get_list]. destruct (String.eqb_spec k key') as [->|Hneq'].
    + destruct (String.eqb_spec key key') as [->|_];
        [contradiction | now rewrite app_nil_r].
    + apply IH. destruct Hin as [Heq|Hin]; [contradiction | exact Hin].
Qed.

Lemma dict_append_keys (d : smell_dict) (key : string) (smell : CodeSmell) :
  map fst (dict_append d key smell) = map fst d.
Proof.
  induction d as [|[k found] d IH]; [reflexivity|].
  cbn [dict_append]. destruct (String.eqb k key); cbn [map fst];
    [reflexivity | now rewrite IH].
Qed.

Lemma dict_append_content (d : smell_dict) (key : string)
      (smell : CodeSmell) :
  In key (map fst d) ->
  Permutation (flat_map snd (dict_append d key smell))
              (flat_map snd d ++ [smell]).
Proof.
  induction d as [|[k found] d IH]; cbn [map fst In]; [contradiction|].
  intros Hin. cbn [dict_append].
  destruct (String.eqb_spec k key) as [->|Hneq]; cbn [flat_map snd].
  - rewrite <- !app_assoc. apply Permutation_app_head.
    apply Permutation_app_comm.
  - rewrite <- app_assoc. apply Permutation_app_head. apply IH.
    destruct Hin as [Heq|Hin]; [contradiction | exact Hin].
Qed.

Lemma group_loop (smells : list CodeSmell) (d : smell_dict) :
  let groups :=
    fold_left
      (fun smell_groups smell =>
         let smell_groups :=
           if not_in_dict (smell_type smell) smell_groups
           then smell_groups ++ [(smell_type smell, [])]
           else smell_groups in
         dict_append smell_groups (smell_type smell) smell)
      smells d in
  (forall kind, dict_get_list groups kind
                = dict_get_list d kind ++ smells_of_type kind smells)
  /\ (NoDup (map fst d) -> NoDup (map fst groups))
  /\ (forall kind, In kind (map fst groups)
                   <-> In kind (map fst d)
                       \/ exists smell, In smell smells
                                        /\ smell_type smell = kind)
  /\ Permutation (flat_map snd groups) (flat_map snd d ++ smells).
Proof.
  revert d; induction smells as [|s smells IH]; intros d; cbn [fold_left].
  - cbn zeta. split; [intros kind; now rewrite app_nil_r|].
    split; [auto|]. split; [|now rewrite app_nil_r].
    intros kind. split; [now left|]. intros [Hin|(smell & [] & _)]. exact Hin.
  - cbn zeta.
    set (d1 := if not_in_dict (smell_type s) d
               then d ++ [(smell_type s, [])] else d).
    assert (Hkeys1 : map fst d1
                     = map fst d ++ (if not_in_dict (smell_type s) d
                                     then [smell_type s] else [])).
    { subst d1. destruct (not_in_dict (smell_type s) d);
        [now rewrite map_app | now rewrite app_nil_r]. }
    assert (Hpresent : In (smell_type s) (map fst d1)).
    { rewrite Hkeys1. apply in_or_app.
      destruct (not_in_dict (smell_type s) d) eqn:Hnew; [right; now left|].
      left. destruct (in_dec string_dec (smell_type s) (map fst d))
        as [Hin|Hnot]; [exact Hin|].
      apply not_in_dict_spec in Hnot. congruence. }
    assert (Hget1 : forall kind, dict_get_list d1 kind = dict_get_list d kind).
    { intros kind. subst d1. destruct (not_in_dict (smell_type s) d);
        [apply dict_get_list_new_key | reflexivity]. }
    assert (Hcontent1 : flat_map snd d1 = flat_map snd d).
    { subst d1. destruct (not_in_dict (smell_type s) d); [|reflexivity].
      rewrite flat_map_app. cbn [flat_map snd app]. now rewrite app_nil_r. }
    specialize (IH (dict_append d1 (smell_type s) s)). cbn zeta in IH.
    destruct IH as (Hget & Hnodup & Hkeys & Hcontent).
    split; [|split; [|split]].
    + intros kind. rewrite Hget, dict_append_get, Hget1 by exact Hpresent.
      rewrite <- app_assoc. f_equal. unfold smells_of_type. cbn [filter].
      now destruct (String.eqb (smell_type s) kind).
    + intros Hd. apply Hnodup. rewrite dict_append_keys, Hkeys1.
      destruct (not_in_dict (smell_type s) d) eqn:Hnew;
        [|now rewrite app_nil_r].
      apply not_in_dict_spec in Hnew.
      apply NoDup_app; [exact Hd | repeat constructor; intros [] |].
      intros k Hk [<-|[]]. contradiction.
    + intros kind. rewrite Hkeys, dict_append_keys, Hkeys1, in_app_iff.
      split.
      * intros [[Hin|Hnew]|(smell & Hsmell & Hkind)].
        -- now left.
        -- right. exists s. split; [now left|].
           destruct (not_in_dict (smell_type s) d); [|contradiction].
           now destruct Hnew as [<-|[]].
        -- right. exists smell. split; [now right | exact Hkind].
      * intros [Hin|(smell & [<-|Hsmell] & Hkind)].
        -- left. now left.
        -- left. rewrite <- in_app_iff, <- Hkeys1, <- Hkind. exact Hpresent.
        -- right. now exists smell.
    + rewrite Hcontent, dict_append_content, Hcontent1 by exact Hpresent.
      now rewrite <- app_assoc.
Qed.

Lemma dict_get_list_entry (d : smell_dict) (key : string)
      (found : list CodeSmell) :
  NoDup (map fst d) -> In (key, found) d -> dict_get_list d key = found.
Proof.
  induction d as [|[k g] d IH]; cbn [map fst In dict_get_list];
    [contradiction|].
  intros Hnodup [Heq|Hin].
  - injection Heq as -> ->. now rewrite String.eqb_refl.
  - inversion Hnodup as [|? ? Hnot Hrest]; subst.
    destruct (String.eqb_spec k key) as [->|_]; [|now apply IH].
    exfalso. apply Hnot. now apply (in_map fst) in Hin.
Qed.

(** X19. Grouping the findings by kind loses and invents nothing: the
    group of a kind holds exactly the findings of that kind in the order
    reported, there is one group per kind that occurs and no empty group,
    and the groups together are a rearrangement of the findings. *)
Theorem findings_grouped_by_kind (smells : list CodeSmell) :
  let groups := group_by_type smells in
  (forall kind, dict_get_list groups kind = smells_of_type kind smells)
  /\ NoDup (map fst groups)
  /\ (forall kind group_smells,
        In (kind, group_smells) groups ->
        group_smells = smells_of_type kind smells /\ group_smells <> [])
  /\ (forall smell, In smell smells -> In (smell_type smell) (map fst groups))
  /\ Permutation (flat_map snd groups) smells.
Proof.
  intros groups. subst groups. unfold group_by_type.
  destruct (group_loop smells []) as (Hget & Hnodup & Hkeys & Hcontent).
  cbn zeta in *. cbn [dict_get_list map fst app flat_map] in *.
  specialize (Hnodup (NoDup_nil _)).
  split; [exact Hget|]. split; [exact Hnodup|].
  split; [|split; [|exact Hcontent]].
  - intros kind group_smells Hin.
    assert (Hgroup : group_smells = smells_of_type kind smells).
    { rewrite <- Hget. symmetry. now apply dict_get_list_entry. }
    split; [exact Hgroup|].
    assert (Hkey : In kind (map fst
                      (fold_left
                         (fun smell_groups smell =>
                            dict_append
                              (if not_in_dict (smell_type smell) smell_groups
                               then smell_groups ++ [(smell_type smell, [])]
                               else smell_groups)
                              (smell_type smell) smell) smells [])))
      by (now apply (in_map fst) in Hin).
    apply Hkeys in Hkey as [[]|(smell & Hsmell & Hkind)].
    rewrite Hgroup. intros Hempty.
    assert (Hfound : In smell (smells_of_type kind smells)).
    { apply filter_In. split; [exact Hsmell|]. now apply String.eqb_eq. }
    rewrite Hempty in Hfound. contradiction.
  - intros smell Hsmell. apply Hkeys. right. now exists smell.
Qed.

(** ** The console report *)

(** X20. The console report cannot be completed for an empty list of
    findings: after printing a total of 0, the health score 100, the
    status Excellent, the metrics and the heading of the
    recommendations, it stops with an [UnboundLocalError], since
    [smell_groups] is bound only when there are findings.  With at least
    one finding it runs to the closing rule. *)
Theorem console_report_fails_without_findings
        (smells : list CodeSmell) (metrics : list DebtMetric)
        (project_name : string) :
  let report := display_console_report smells metrics project_name in
  (smells = [] ->
   report
   = ([Rule "=" 80; ReportTitle project_name; Rule "=" 80;
       Heading "SUMMARY STATISTICS"; TotalIssues 0;
       SeverityCount CRITICAL 0; SeverityCount HIGH 0;
       SeverityCount MEDIUM 0; SeverityCount LOW 0;
       HealthScore 100; Status "Excellent"]
      ++ match metrics with
         | [] => []
         | _ => [Heading "GIT TREND ANALYSIS"; Rule "-" 80]
                ++ flat_map print_metric metrics
         end
      ++ [Heading "RECOMMENDATIONS"; Rule "-" 80],
      Some (Py.OtherException "UnboundLocalError")))
  /\ (smells <> [] ->
      snd report = None
      /\ last (fst report) (Heading EmptyString) = Rule "=" 80).
Proof.
  intros report. subst report. split.
  - intros ->. destruct metrics as [|metric metrics]; reflexivity.
  - intros Hsome. destruct smells as [|s rest]; [contradiction|].
    unfold display_console_report. cbn iota zeta.
    split; [reflexivity|]. cbn [fst]. apply last_last.
Qed.

(** X21. The status printed with the health score follows from the sum
    of the penalties alone: Excellent up to 10, Good up to 30, Needs
    Attention up to 50, Critical above.  So a single critical finding, or
    ten low ones, still leave the status Excellent. *)
Theorem status_follows_total_penalty
        (smells : list CodeSmell) (metrics : list DebtMetric)
        (project_name : string) :
  let label := status_label (display_health_score smells) in
  In (Status label)
     (fst (display_console_report smells metrics project_name))
  /\ (label = "Excellent" <-> total_penalty smells <= 10)
  /\ (label = "Good" <-> 10 < total_penalty smells <= 30)
  /\ (label = "Needs Attention" <-> 30 < total_penalty smells <= 50)
  /\ (label = "Critical" <-> 50 < total_penalty smells).
Proof.
  intros label. subst label. split.
  - unfold display_console_report.
    destruct smells as [|s rest], metrics as [|m ms]; cbn iota zeta;
      repeat match goal with
             | |- context [if ?c then _ else _] => destruct c
             end;
      cbn [fst]; rewrite !in_app_iff; cbn [In]; auto 30.
  - rewrite display_score_formula. unfold status_label.
    pose proof (total_penalty_nonneg smells) as Hpos.
    destruct (Z.max 0 (100 - total_penalty smells) >=? 90) eqn:H90;
      [|destruct (Z.max 0 (100 - total_penalty smells) >=? 70) eqn:H70;
        [|destruct (Z.max 0 (100 - total_penalty smells) >=? 50) eqn:H50]];
      rewrite ?Z.geb_leb, ?Z.leb_le, ?Z.leb_gt in *;
      repeat split; intros; try discriminate; try reflexivity; lia.
Qed.





(** ** Escaping for the HTML report *)

Lemma string_append_assoc (a b c : string) :
  ((a ++ b) ++ c)%string = (a ++ (b ++ c))%string.
Proof.
  induction a as [|x a IH]; [reflexivity|].
  cbn [append]. now rewrite IH.
Qed.

Lemma string_append_nil (a : string) : (a ++ EmptyString)%string = a.
Proof.
  induction a as [|x a IH]; [reflexivity|].
  cbn [append]. now rewrite IH.
Qed.

Lemma replace_append (old : ascii) (new a b : string) :
  Py.replace old new (a ++ b)
  = (Py.replace old new a ++ Py.replace old new b)%string.
Proof.
  induction a as [|c a IH]; [reflexivity|].
  cbn [append Py.replace]. rewrite IH.
  destruct (Ascii.eqb c old); [|reflexivity].
  now rewrite string_append_assoc.
Qed.

Lemma html_escape_step (c : ascii) (rest : string) :
  html_escape (String c rest) = (html_entity c ++ html_escape rest)%string.
Proof.
  unfold html_escape, html_entity.
  change (Py.replace "&" "&amp;" (String c rest))
    with (if Ascii.eqb c "&"
          then ("&amp;" ++ Py.replace "&" "&amp;" rest)%string
          else String c (Py.replace "&" "&amp;" rest)).
  destruct (Ascii.eqb_spec c "&"%char) as [->|Hamp].
  - now rewrite !replace_append.
  - change (String c ?s) with (String c EmptyString ++ s)%string.
    rewrite !replace_append. f_equal.
    cbn [Py.replace].
    destruct (Ascii.eqb_spec c "<"%char) as [->|Hlt]; [reflexivity|].
    cbn [Py.replace append].
    destruct (Ascii.eqb_spec c ">"%char) as [->|Hgt]; reflexivity.
Qed.

Lemma contains_char_append (c : ascii) (a b : string) :
  Py.contains (String c EmptyString) (a ++ b)
  = Py.contains (String c EmptyString) a
    || Py.contains (String c EmptyString) b.
Proof.
  induction a as [|d a IH].
  - cbn [append Py.contains String.prefix]. now rewrite orb_false_r.
  - cbn [append Py.contains String.prefix]. rewrite IH.
    destruct (ascii_dec c d); [now destruct (a ++ b)%string, a|].
    reflexivity.
Qed.

Lemma html_entity_has_no_bracket (c : ascii) :
  Py.contains "<" (html_entity c) = false
  /\ Py.contains ">" (html_entity c) = false.
Proof.
  unfold html_entity.
  destruct (Ascii.eqb_spec c "&"%char) as [->|Hamp]; [now split|].
  destruct (Ascii.eqb_spec c "<"%char) as [->|Hlt]; [now split|].
  destruct (Ascii.eqb_spec c ">"%char) as [->|Hgt]; [now split|].
  cbn [Py.contains String.prefix].
  destruct (ascii_dec "<" c) as [<-|_]; [contradiction|].
  destruct (ascii_dec ">" c) as [<-|_]; [contradiction|].
  now split.
Qed.

(** X23. The three replacements that escape a text for the HTML report
    act as one substitution per character: [&] becomes [&amp;], [<]
    becomes [&lt;], [>] becomes [&gt;] and every other character stays,
    so the [&] of an entity is never escaped again.  The escaped text
    holds no [<] and no [>], and escaping goes through concatenation. *)
Theorem html_escape_is_per_character (text more : string) :
  html_escape text
  = String.concat EmptyString
      (map html_entity (list_ascii_of_string text))
  /\ html_escape (text ++ more)
     = (html_escape text ++ html_escape more)%string
  /\ Py.contains "<" (html_escape text) = false
  /\ Py.contains ">" (html_escape text) = false
  /\ (Py.contains "&" text = false -> Py.contains "<" text = false ->
      Py.contains ">" text = false -> html_escape text = text).
Proof.
  assert (Hconcat : forall pieces piece,
            String.concat EmptyString (piece :: pieces)
            = (piece ++ String.concat EmptyString pieces)%string).
  { intros [|p pieces] piece; cbn [String.concat];
      [now rewrite string_append_nil | reflexivity]. }
  split; [|split; [|split; [|split]]].
  - induction text as [|c text IH]; [reflexivity|].
    rewrite html_escape_step. cbn [list_ascii_of_string map].
    now rewrite Hconcat, IH.
  - induction text as [|c text IH]; [reflexivity|].
    cbn [append]. rewrite !html_escape_step, IH.
    now rewrite string_append_assoc.
  - induction text as [|c text IH]; [reflexivity|].
    rewrite html_escape_step, contains_char_append, IH.
    now destruct (html_entity_has_no_bracket c) as [-> _].
  - induction text as [|c text IH]; [reflexivity|].
    rewrite html_escape_step, contains_char_append, IH.
    now destruct (html_entity_has_no_bracket c) as [_ ->].
  - induction text as [|c text IH]; [reflexivity|].
    intros Hamp Hlt Hgt. rewrite html_escape_step.
    change (String c text) with (String c EmptyString ++ text)%string
      in Hamp, Hlt, Hgt.
    rewrite contains_char_append in Hamp, Hlt, Hgt.
    apply orb_false_iff in Hamp as [Hamp1 Hamp2].
    apply orb_false_iff in Hlt as [Hlt1 Hlt2].
    apply orb_false_iff in Hgt as [Hgt1 Hgt2].
    rewrite (IH Hamp2 Hlt2 Hgt2). unfold html_entity.
    cbn [Py.contains String.prefix] in Hamp1, Hlt1, Hgt1.
    destruct (Ascii.eqb_spec c "&"%char) as [->|_]; [discriminate|].
    destruct (Ascii.eqb_spec c "<"%char) as [->|_]; [discriminate|].
    destruct (Ascii.eqb_spec c ">"%char) as [->|_]; [discriminate|].
    reflexivity.
Qed.

(** ** The aggregates of the executive summary *)

Lemma dict_set_get (d : dict) (key key' : string) (v default : Z) :
  dict_get_default (dict_set d key v) key' default
  = if String.eqb key key' then v else dict_get_default d key' default.
Proof.
  induction d as [|[k old] d IH]; cbn [dict_set dict_get_default].
  - reflexivity.
  - destruct (String.eqb_spec k key) as [->|Hneq]; cbn [dict_get_default].
    + now destruct (String.eqb key key').
    + rewrite IH. destruct (String.eqb_spec k key') as [->|_]; [|reflexivity].
      destruct (String.eqb_spec key key') as [->|_];
        [contradiction | reflexivity].
Qed.

Lemma dict_set_keys (d : dict) (key : string) (v : Z) :
  map fst (dict_set d key v)
  = if in_dec string_dec key (map fst d) then map fst d
    else map fst d ++ [key].
Proof.
  induction d as [|[k old] d IH]; cbn [dict_set map fst].
  - now destruct (in_dec string_dec key []).
  - destruct (String.eqb_spec k key) as [->|Hneq]; cbn [map fst].
    + destruct (in_dec string_dec key (key :: map fst d)) as [_|Hnot];
        [reflexivity|]. exfalso. apply Hnot. now left.
    + rewrite IH.
      destruct (in_dec string_dec key (map fst d)) as [Hin|Hnot],
               (in_dec string_dec key (k :: map fst d)) as [Hin'|Hnot'];
        try reflexivity.
      * exfalso. apply Hnot'. now right.
      * destruct Hin' as [Heq|Hin']; contradiction.
Qed.

Lemma counts_loop (smells : list CodeSmell) (d : dict) :
  let counts :=
    fold_left
      (fun smell_counts smell =>
         dict_set smell_counts (smell_type smell)
                  (dict_get_default smell_counts (smell_type smell) 0 + 1))
      smells d in
  (forall kind, dict_get_default counts kind 0
                = dict_get_default d kind 0
                  + Py.len (smells_of_type kind smells))
  /\ (NoDup (map fst d) -> NoDup (map fst counts))
  /\ (forall kind, In kind (map fst counts)
                   <-> In kind (map fst d)
                       \/ exists smell, In smell smells
                                        /\ smell_type smell = kind).
Proof.
  revert d; induction smells as [|s smells IH]; intros d; cbn [fold_left].
  - cbn zeta. split; [intros kind; unfold Py.len; cbn; lia|].
    split; [auto|]. intros kind. split; [now left|].
    intros [Hin|(smell & [] & _)]. exact Hin.
  - specialize (IH (dict_set d (smell_type s)
                             (dict_get_default d (smell_type s) 0 + 1))).
    cbn zeta in *. destruct IH as (Hget & Hnodup & Hkeys).
    split; [|split].
    + intros kind. rewrite Hget, dict_set_get.
      unfold smells_of_type, Py.len. cbn [filter].
      destruct (String.eqb_spec (smell_type s) kind) as [->|_];
        cbn [List.length]; lia.
    + intros Hd. apply Hnodup. rewrite dict_set_keys.
      destruct (in_dec string_dec (smell_type s) (map fst d)) as [_|Hnot];
        [exact Hd|].
      apply NoDup_app; [exact Hd | repeat constructor; intros [] |].
      intros k Hk [<-|[]]. contradiction.
    + intros kind. rewrite Hkeys, dict_set_keys. split.
      * intros [Hin|(smell & Hsmell & Hkind)].
        -- destruct (in_dec string_dec (smell_type s) (map fst d));
             [now left|].
           apply in_app_or in Hin as [Hin|[<-|[]]]; [now left|].
           right. exists s. split; [now left | reflexivity].
        -- right. exists smell. split; [now right | exact Hkind].
      * intros [Hin|(smell & [<-|Hsmell] & Hkind)].
        -- left. destruct (in_dec string_dec (smell_type s) (map fst d));
             [exact Hin | apply in_or_app; now left].
        -- left. rewrite <- Hkind.
           destruct (in_dec string_dec (smell_type s) (map fst d))
             as [Hin|_]; [exact Hin | apply in_or_app; right; now left].
        -- right. now exists smell.
Qed.

Lemma dict_get_default_entry (d : dict) (key : string) (v : Z) :
  NoDup (map fst d) -> In (key, v) d -> dict_get_default d key 0 = v.
Proof.
  induction d as [|[k old] d IH]; cbn [map fst In dict_get_default];
    [contradiction|].
  intros Hnodup [Heq|Hin].
  - injection Heq as -> ->. now rewrite String.eqb_refl.
  - inversion Hnodup as [|? ? Hnot Hrest]; subst.
    destruct (String.eqb_spec k key) as [->|_]; [|now apply IH].
    exfalso. apply Hnot. now apply (in_map fst) in Hin.
Qed.

Lemma smell_counts_entries (smells : list CodeSmell) (kind : string) (n : Z) :
  In (kind, n) (smell_counts smells)
  <-> n = Py.len (smells_of_type kind smells)
      /\ smells_of_type kind smells <> [].
Proof.
  unfold smell_counts.
  destruct (counts_loop smells []) as (Hget & Hnodup & Hkeys).
  cbn zeta in *. cbn [dict_get_default map fst] in *.
  specialize (Hnodup (NoDup_nil _)).
  assert (Hoccurs : forall k,
            (exists smell, In smell smells /\ smell_type smell = k)
            <-> smells_of_type k smells <> []).
  { intros k. split.
    - intros (smell & Hsmell & Hkind) Hempty.
      assert (Hin : In smell (smells_of_type k smells))
        by (apply filter_In; split; [exact Hsmell | now apply String.eqb_eq]).
      rewrite Hempty in Hin. contradiction.
    - intros Hsome. destruct (smells_of_type k smells) as [|smell found]
        eqn:Hfound; [contradiction|].
      assert (Hin : In smell (smells_of_type k smells))
        by (rewrite Hfound; now left).
      apply filter_In in Hin as [Hin Hkind]. apply String.eqb_eq in Hkind.
      now exists smell. }
  split.
  - intros Hin. split.
    + rewrite <- (dict_get_default_entry _ _ _ Hnodup Hin), Hget. lia.
    + apply Hoccurs. apply (in_map fst) in Hin. cbn [fst] in Hin.
      apply Hkeys in Hin as [[]|Hin]. exact Hin.
  - intros [-> Hsome]. apply Hoccurs in Hsome.
    assert (Hkey : In kind (map fst
                     (fold_left
                        (fun smell_counts smell =>
                           dict_set smell_counts (smell_type smell)
                             (dict_get_default smell_counts
                                               (smell_type smell) 0 + 1))
                        smells []))) by (apply Hkeys; now right).
    apply in_map_iff in Hkey as ([k v] & Hk & Hentry). cbn [fst] in Hk.
    subst k.
    pose proof (dict_get_default_entry _ _ _ Hnodup Hentry) as Hv.
    rewrite Hget in Hv.
    replace (Py.len (smells_of_type kind smells)) with v by lia.
    exact Hentry.
Qed.

Lemma strongly_sorted_firstn {A : Type} (R : A -> A -> Prop) (n : nat)
      (xs : list A) :
  StronglySorted R xs -> StronglySorted R (firstn n xs).
Proof.
  intros Hsorted. revert n.
  induction Hsorted as [|x xs _ IH Hall]; intros n.
  - destruct n; constructor.
  - destruct n as [|n]; [constructor|]. cbn [firstn].
    constructor; [apply IH|].
    rewrite Forall_forall in *. intros y Hy. apply Hall.
    rewrite <- (firstn_skipn n xs). apply in_or_app. now left.
Qed.

(** X24. The kinds listed for the executive summary are the most common
    ones: at most five, in order of descending count, each with the
    number of findings of that kind (at least one), and no kind left out
    is more common than a kind listed. *)
Theorem top_smells_are_the_most_common (smells : list CodeSmell) :
  let top := top_smells smells in
  (List.length top <= 5)%nat
  /\ StronglySorted (fun a b => snd b <= snd a) top
  /\ (forall kind n,
        In (kind, n) top ->
        n = Py.len (smells_of_type kind smells) /\ 1 <= n)
  /\ (forall kind,
        smells_of_type kind smells <> [] ->
        In (kind, Py.len (smells_of_type kind smells)) top
        \/ forall entry, In entry top ->
                         Py.len (smells_of_type kind smells) <= snd entry).
Proof.
  intros top. subst top. unfold top_smells.
  pose proof (sorted_permutation (fun y x : string * Z => snd x <? snd y)
                                 (smell_counts smells)) as Hperm.
  pose proof (sorted_descending (@snd string Z) (smell_counts smells))
    as Hsorted.
  set (ranked := Py.sorted (fun y x : string * Z => snd x <? snd y)
                           (smell_counts smells)) in *.
  split; [apply firstn_le_length|].
  split; [now apply strongly_sorted_firstn|]. split.
  - intros kind n Hin.
    assert (Hentry : In (kind, n) (smell_counts smells)).
    { apply (Permutation_in _ Hperm).
      rewrite <- (firstn_skipn 5 ranked). apply in_or_app. now left. }
    apply smell_counts_entries in Hentry as [-> Hsome]. split; [reflexivity|].
    unfold Py.len. destruct (smells_of_type kind smells);
      [contradiction | cbn [List.length]; lia].
  - intros kind Hsome.
    assert (Hentry : In (kind, Py.len (smells_of_type kind smells)) ranked).
    { apply (Permutation_in _ (Permutation_sym Hperm)).
      now apply smell_counts_entries. }
    rewrite <- (firstn_skipn 5 ranked) in Hentry.
    apply in_app_or in Hentry as [Hlisted|Hleft]; [now left|].
    right. intros entry Hin.
    apply (firstn_of_descending (@snd string Z) 5 ranked Hsorted
                                entry _ Hin Hleft).
Qed.

(** ** The local report server *)

Lemma all_busy_step (can_bind : Z -> bool) (start stop : Z) :
  valid_port start = true -> can_bind start = false ->
  all_busy can_bind (start + 1) stop -> all_busy can_bind start stop.
Proof.
  intros Hvalid Hbusy Hrest busy Hrange.
  destruct (Z.eq_dec busy start) as [->|Hneq]; [now split|].
  apply Hrest. lia.
Qed.

Lemma try_ports_from (can_bind : Z -> bool) (start : Z) (n k : nat) :
  match try_ports can_bind
                  (map (fun i => start + Z.of_nat i) (seq k n)) with
  | Py.Return (Some served) =>
      start + Z.of_nat k <= served < start + Z.of_nat (k + n)
      /\ valid_port served = true /\ can_bind served = true
      /\ all_busy can_bind (start + Z.of_nat k) served
  | Py.Return None =>
      all_busy can_bind (start + Z.of_nat k) (start + Z.of_nat (k + n))
  | Py.Raise e =>
      e = Py.OtherException "OverflowError"
      /\ exists refused,
           start + Z.of_nat k <= refused < start + Z.of_nat (k + n)
           /\ valid_port refused = false
           /\ all_busy can_bind (start + Z.of_nat k) refused
  end.
Proof.
  revert k; induction n as [|n IH]; intros k; cbn [seq map try_ports].
  - intros busy Hbusy. lia.
  - destruct (valid_port (start + Z.of_nat k)) eqn:Hvalid.
    + destruct (can_bind (start + Z.of_nat k)) eqn:Hfirst.
      * split; [lia|]. split; [exact Hvalid|]. split; [exact Hfirst|].
        intros busy Hbusy. lia.
      * specialize (IH (S k)).
        replace (start + Z.of_nat (S k)) with (start + Z.of_nat k + 1)
          in IH by lia.
        destruct (try_ports can_bind
                    (map (fun i => start + Z.of_nat i) (seq (S k) n)))
          as [[served|]|e].
        -- destruct IH as (Hrange & Hok & Hserved & Hbusy).
           split; [lia|]. split; [exact Hok|]. split; [exact Hserved|].
           now apply all_busy_step.
        -- apply all_busy_step; [assumption..|].
           replace (start + Z.of_nat (k + S n))
             with (start + Z.of_nat (S k + n)) by lia.
           exact IH.
        -- destruct IH as (He & refused & Hrange & Hrefused & Hbusy).
           split; [exact He|]. exists refused.
           split; [lia|]. split; [exact Hrefused|].
           now apply all_busy_step.
    + split; [reflexivity|]. exists (start + Z.of_nat k).
      split; [lia|]. split; [exact Hvalid|]. intros busy Hbusy. lia.
Qed.

Lemma valid_port_range (port : Z) :
  valid_port port = true <-> 0 <= port <= 65535.
Proof.
  unfold valid_port. rewrite andb_true_iff, !Z.leb_le. reflexivity.
Qed.

(** The three ways [start_local_server] ends. *)
Lemma start_local_server_outcome (can_bind : Z -> bool) (port : Z) :
  match start_local_server can_bind port with
  | Py.Return (Some served) =>
      port <= served < port + 10
      /\ 0 <= served <= 65535
      /\ can_bind served = true
      /\ all_busy can_bind port served
  | Py.Return None => all_busy can_bind port (port + 10)
  | Py.Raise e =>
      e = Py.OtherException "OverflowError"
      /\ exists refused,
           port <= refused < port + 10
           /\ (refused < 0 \/ 65535 < refused)
           /\ all_busy can_bind port refused
  end.
Proof.
  unfold start_local_server, Py.range.
  replace (Z.to_nat (port + 10 - port)) with 10%nat by lia.
  pose proof (try_ports_from can_bind port 10 0) as Hfrom.
  rewrite Z.add_0_r in Hfrom.
  replace (port + Z.of_nat (0 + 10)) with (port + 10) in Hfrom by lia.
  destruct (try_ports can_bind
              (map (fun i => port + Z.of_nat i) (seq 0 10)))
    as [[served|]|e].
  - destruct Hfrom as (Hrange & Hok & Hserved & Hbusy).
    apply valid_port_range in Hok.
    split; [lia|]. split; [exact Hok|]. split; [exact Hserved | exact Hbusy].
  - exact Hfrom.
  - destruct Hfrom as (He & refused & Hrange & Hrefused & Hbusy).
    split; [exact He|]. exists refused. split; [lia|]. split; [|exact Hbusy].
    destruct (Z_lt_dec refused 0) as [|Hlow]; [now left|].
    destruct (Z_lt_dec 65535 refused) as [|Hhigh]; [now right|].
    assert (Hin : valid_port refused = true)
      by (apply valid_port_range; lia).
    congruence.
Qed.

(** X25. The local server is started on the first port, from the one
    asked for up to nine above it, on which a server can be set up: the
    port returned lies in that range and from 0 to 65535, and every port
    of the range below it is busy; no port is returned exactly when all
    ten are busy.  The search is not confined to the ports that exist:
    exactly when it reaches a port below 0 or above 65535 before a free
    one, it ends with an [OverflowError], the only error it can end
    with.  That never happens from a port between 0 and 65526, such as
    the default 8000. *)
Theorem local_server_takes_first_free_port (can_bind : Z -> bool) (port : Z) :
  let outcome := start_local_server can_bind port in
  (forall served,
     outcome = Py.Return (Some served)
     <-> port <= served < port + 10
         /\ 0 <= served <= 65535
         /\ can_bind served = true
         /\ all_busy can_bind port served)
  /\ (outcome = Py.Return None <-> all_busy can_bind port (port + 10))
  /\ (outcome = Py.Raise (Py.OtherException "OverflowError")
      <-> exists refused,
            port <= refused < port + 10
            /\ (refused < 0 \/ 65535 < refused)
            /\ all_busy can_bind port refused)
  /\ (forall e, outcome = Py.Raise e ->
                e = Py.OtherException "OverflowError"
                /\ (port < 0 \/ 65526 < port))
  /\ (0 <= port <= 65526 -> exists served, outcome = Py.Return served).
Proof.
  intros outcome. subst outcome.
  pose proof (start_local_server_outcome can_bind port) as Houtcome.
  assert (Hvalid : forall start stop p,
            all_busy can_bind start stop -> start <= p < stop ->
            0 <= p <= 65535 /\ can_bind p = false).
  { intros start stop p Hbusy Hp. destruct (Hbusy p Hp) as [Hin Hnot].
    apply valid_port_range in Hin. now split. }
  destruct (start_local_server can_bind port) as [[found|]|e].
  - destruct Houtcome as (Hrange & Hok & Hfree & Hbelow).
    split; [|split; [|split; [|split]]].
    + intros served. split.
      * intros [= <-]. split; [exact Hrange|]. split; [exact Hok|].
        split; [exact Hfree | exact Hbelow].
      * intros (Hrange' & Hok' & Hfree' & Hbelow').
        destruct (Z.lt_trichotomy served found) as [Hlt|[->|Hgt]];
          [|reflexivity|].
        -- destruct (Hvalid _ _ served Hbelow ltac:(lia)). congruence.
        -- destruct (Hvalid _ _ found Hbelow' ltac:(lia)). congruence.
    + split; [discriminate|]. intros Hall.
      destruct (Hvalid _ _ found Hall Hrange). congruence.
    + split; [discriminate|].
      intros (refused & Hrange' & Hout & Hbelow').
      destruct (Z_lt_dec refused found) as [Hlt|Hge].
      * destruct (Hvalid _ _ refused Hbelow ltac:(lia)). lia.
      * destruct (Z.eq_dec refused found) as [->|Hneq]; [lia|].
        destruct (Hvalid _ _ found Hbelow' ltac:(lia)). congruence.
    + discriminate.
    + intros _. now exists (Some found).
  - split; [|split; [|split; [|split]]].
    + intros served. split; [discriminate|].
      intros (Hrange & _ & Hfree & _).
      destruct (Hvalid _ _ served Houtcome Hrange). congruence.
    + now split.
    + split; [discriminate|].
      intros (refused & Hrange & Hout & _).
      destruct (Hvalid _ _ refused Houtcome Hrange). lia.
    + discriminate.
    + intros _. now exists None.
  - destruct Houtcome as (-> & refused & Hrange & Hout & Hbelow).
    split; [|split; [|split; [|split]]].
    + intros served. split; [discriminate|].
      intros (Hrange' & Hok & Hfree & Hbelow').
      destruct (Z_lt_dec served refused) as [Hlt|Hge].
      * destruct (Hvalid _ _ served Hbelow ltac:(lia)). congruence.
      * destruct (Z.eq_dec served refused) as [->|Hneq]; [lia|].
        destruct (Hvalid _ _ refused Hbelow' ltac:(lia)). lia.
    + split; [discriminate|]. intros Hall.
      destruct (Hvalid _ _ refused Hall Hrange). lia.
    + split; [intros _; now exists refused | reflexivity].
    + intros e [= <-]. split; [reflexivity|]. lia.
    + intros Hport. lia.
Qed.

(** ** Measured depth and nesting *)

Lemma spec_depth_loop_bound (children : list AST) (init : Z) :
  let deepest :=
    fold_left
      (fun deepest child =>
         Z.max deepest ((if is_nesting child then 1 else 0)
                        + spec_nesting_depth child))
      children init in
  init <= deepest
  /\ forall child, In child children ->
                   (if is_nesting child then 1 else 0)
                   + spec_nesting_depth child <= deepest.
Proof.
  revert init; induction children as [|c children IH]; intros init;
    cbn [fold_left].
  - cbn zeta. split; [lia | contradiction].
  - specialize (IH (Z.max init ((if is_nesting c then 1 else 0)
                                + spec_nesting_depth c))).
    cbn zeta in *. destruct IH as [Hinit Hall]. split; [lia|].
    intros child [<-|Hin]; [lia | now apply Hall].
Qed.

Lemma nesting_chain_within_spec_depth (node : AST) (k : nat) :
  nesting_chain node k -> Z.of_nat k <= spec_nesting_depth node.
Proof.
  induction 1 as [node|node child k Hin Hnest _ IH].
  - apply spec_nesting_depth_nonneg.
  - rewrite spec_nesting_depth_children.
    destruct (spec_depth_loop_bound (iter_child_nodes node) 0) as [_ Hall].
    specialize (Hall child Hin). cbn zeta in Hall.
    rewrite Hnest in Hall. lia.
Qed.

(** X26. The analyser never overstates nesting: the depth it measures
    below a node is at most the depth over all nested if/for/while/with/try
    descendants of that node.  So every statement reported as [deep_nesting] does hold more than
    three such constructs nested in one another. *)
Theorem measured_depth_never_exceeds_nesting (node : AST) :
  0 <= _calculate_nesting_depth node 0 <= spec_nesting_depth node
  /\ forall file_path,
       In (deep_nesting_smell file_path node
             (_calculate_nesting_depth node 0))
          (visit_node file_path node) ->
       3 < spec_nesting_depth node.
Proof.
  pose proof (nesting_depth_nonneg node) as Hpos.
  assert (Hbound : _calculate_nesting_depth node 0 <= spec_nesting_depth node).
  { pose proof (nesting_chain_within_spec_depth node
                  (Z.to_nat (_calculate_nesting_depth node 0))) as Hchain.
    rewrite Z2Nat.id in Hchain by exact Hpos. apply Hchain.
    apply nesting_depth_longest_chain. lia. }
  split; [lia|]. intros file_path Hin.
  assert (Hfound : In (deep_nesting_smell file_path node
                         (_calculate_nesting_depth node 0))
                      (smells_of_type "deep_nesting"
                                      (visit_node file_path node))).
  { apply filter_In. split; [exact Hin | reflexivity]. }
  rewrite visit_node_deep_nesting in Hfound.
  destruct (is_If_For_While node); [|contradiction].
  destruct (_calculate_nesting_depth node 0 >? 3) eqn:Hdeep;
    [|contradiction].
  apply Z.gtb_lt in Hdeep. lia.
Qed.
